(** * Chotu Dairy backend: a model of [app/route.py] and its reporting logic

    The development embeds the FastAPI routes of [app/route.py] as Rocq
    functions over an explicit store (the two tables of [app/models.py]) and
    proves the behaviour the specification states about them.

    Modelling decisions, fixed once for the whole file:
    - the relational store is a record of two row lists and two id sequences;
      a route takes the store and returns a result together with the store
      after the request (state passing);
    - [raise] is the left summand of a result type; FastAPI turns an
      [HTTPException] into a response with its status code and every other
      exception into a 500 response;
    - [Float] columns and Python floats are modelled by exact rationals [Q]
      compared with [==]. A rational sum does not depend on how its terms
      are grouped or ordered, a sum of doubles does: the theorems therefore
      identify a total with one SUM over one set of rows and never equate
      sums that group the rows differently; the weekly route is repeated
      over doubles ([get_weekly_sales_float]) to show the difference;
    - an INSERT fails, and stores nothing, when a value does not fit its
      column: a string with a NUL character, an integer outside 32 bits, an
      exhausted id sequence; LIMIT takes a 64-bit integer;
    - a query without ORDER BY returns its rows in an order of the engine's
      choosing: the model lists them in table order, and no theorem states
      the order of such rows (lists are compared as permutations);
    - [datetime.date] is a record of year, month and day; the functions of
      [datetime] and [calendar] used by the routes follow the standard
      library ([toordinal], [weekday], [isoweekday], [monthrange], ...);
    - a Python [dict] is an insertion-ordered association list;
    - GROUP BY lists one row per distinct key in order of first occurrence,
      ORDER BY is a stable sort (the engine leaves both orders open). *)

From Stdlib Require Import ZArith QArith Lia Lqa Bool List String.
From Stdlib Require Import Permutation Sorted DecimalString DecimalZ.
From Stdlib Require Import PrimFloat.
Import ListNotations.

Local Open Scope string_scope.
Local Open Scope list_scope.
Local Open Scope Z_scope.

#[local] Set Warnings "-inexact-float".

(* ------------------------------------------------------------------ *)
(** ** Exceptions and results *)

Inductive exn : Type :=
| HTTPException (status_code : Z) (detail : string)
| IllegalMonthError (month : Z)
| ValueError (msg : string)
| OverflowError (msg : string)
| IndexError (msg : string)
| KeyError (key : string)
| DataError (msg : string).

Inductive result (A : Type) : Type :=
| Ok (a : A)
| Raise (e : exn).

Arguments Ok {A} a.
Arguments Raise {A} e.

Definition bind {A B : Type} (r : result A) (k : A -> result B) : result B :=
  match r with
  | Ok a => k a
  | Raise e => Raise e
  end.

Declare Scope result_scope.
Delimit Scope result_scope with result.
Notation "x <- c1 ;; c2" := (bind c1 (fun x => c2))
  (at level 100, c1 at next level, right associativity) : result_scope.
Local Open Scope result_scope.

(** Monadic left fold: the body of a [for] loop that may raise. *)
Fixpoint foldM {A B : Type} (f : A -> B -> result A) (l : list B) (a : A)
  : result A :=
  match l with
  | [] => Ok a
  | b :: l' => a' <- f a b ;; foldM f l' a'
  end.

(** Monadic map: a list comprehension whose element expression may raise. *)
Fixpoint mapM {A B : Type} (f : A -> result B) (l : list A) : result (list B) :=
  match l with
  | [] => Ok []
  | a :: l' => b <- f a ;; bs <- mapM f l' ;; Ok (b :: bs)
  end.

(** The status code of the HTTP response FastAPI sends for a route result. *)
Definition http_status {A : Type} (r : result A) : Z :=
  match r with
  | Ok _ => 200
  | Raise (HTTPException code _) => code
  | Raise _ => 500
  end.

(** The error taxonomy of the specification, read off the response. *)
Definition is_ValidationError {A : Type} (r : result A) : Prop :=
  exists detail, r = Raise (HTTPException 400 detail).

Definition is_NotFound {A : Type} (r : result A) : Prop :=
  exists detail, r = Raise (HTTPException 404 detail).

(** Python list indexing [l[i]] with negative indices counted from the end. *)
Definition py_index {A : Type} (l : list A) (i : Z) : result A :=
  let n := Z.of_nat (List.length l) in
  let j := if i <? 0 then i + n else i in
  if (0 <=? j) && (j <? n) then
    match nth_error l (Z.to_nat j) with
    | Some a => Ok a
    | None => Raise (IndexError "list index out of range")
    end
  else Raise (IndexError "list index out of range").

(** [range(a, b)] *)
Definition range (a b : Z) : list Z :=
  map (fun i => a + Z.of_nat i) (seq 0 (Z.to_nat (b - a))).

(** [str(n)] and [int(s)] on decimal numerals. *)
Definition str (n : Z) : string := NilZero.string_of_int (Z.to_int n).

Definition int (s : string) : result Z :=
  match NilZero.int_of_string s with
  | Some d => Ok (Z.of_int d)
  | None => Raise (ValueError "invalid literal for int() with base 10")
  end.

(* ------------------------------------------------------------------ *)
(** ** [datetime.date] *)

Module datetime.

Record date : Type := mkdate { year : Z; month : Z; day : Z }.

Definition MINYEAR : Z := 1.
Definition MAXYEAR : Z := 9999.

Definition _is_leap (y : Z) : bool :=
  (y mod 4 =? 0) && (negb (y mod 100 =? 0) || (y mod 400 =? 0)).

Definition _DAYS_IN_MONTH : list Z :=
  [-1; 31; 28; 31; 30; 31; 30; 31; 31; 30; 31; 30; 31].

Definition _DAYS_BEFORE_MONTH : list Z :=
  [-1; 0; 31; 59; 90; 120; 151; 181; 212; 243; 273; 304; 334].

Definition _days_before_year (y : Z) : Z :=
  let y' := y - 1 in y' * 365 + y' / 4 - y' / 100 + y' / 400.

Definition _days_in_month (y m : Z) : Z :=
  if (m =? 2) && _is_leap y then 29
  else nth (Z.to_nat m) _DAYS_IN_MONTH 0.

Definition _days_before_month (y m : Z) : Z :=
  nth (Z.to_nat m) _DAYS_BEFORE_MONTH 0
  + (if (m >? 2) && _is_leap y then 1 else 0).

Definition _ymd2ord (y m d : Z) : Z :=
  _days_before_year y + _days_before_month y m + d.

Definition toordinal (d : date) : Z := _ymd2ord (year d) (month d) (day d).

(** Monday is 0 and Sunday is 6. *)
Definition weekday (d : date) : Z := (toordinal d + 6) mod 7.

(** Monday is 1 and Sunday is 7: [self.toordinal() % 7 or 7]. *)
Definition isoweekday (d : date) : Z :=
  let r := toordinal d mod 7 in if r =? 0 then 7 else r.

(** The check of the [date] constructor. *)
Definition valid_dateb (y m d : Z) : bool :=
  (MINYEAR <=? y) && (y <=? MAXYEAR) && (1 <=? m) && (m <=? 12)
  && (1 <=? d) && (d <=? _days_in_month y m).

Definition valid_date (d : date) : Prop :=
  valid_dateb (year d) (month d) (day d) = true.

Definition new (y m d : Z) : result date :=
  if valid_dateb y m d then Ok (mkdate y m d)
  else Raise (ValueError "date value out of range").

(** [d.replace(month=m)], [d.replace(day=d')]. *)
Definition replace_day (d : date) (d' : Z) : result date :=
  new (year d) (month d) d'.

Definition replace_month_day (d : date) (m d' : Z) : result date :=
  new (year d) m d'.

(** Comparison of dates, as Python and SQL order them. *)
Definition eqb (a b : date) : bool :=
  (year a =? year b) && (month a =? month b) && (day a =? day b).

Definition leb (a b : date) : bool :=
  (year a <? year b)
  || ((year a =? year b)
      && ((month a <? month b)
          || ((month a =? month b) && (day a <=? day b)))).

(** [x BETWEEN lo AND hi] *)
Definition between (x lo hi : date) : bool := leb lo x && leb x hi.

(** The day after and the day before, [None] past either end of the
    range of [date]. *)
Definition next_day (d : date) : option date :=
  if day d <? _days_in_month (year d) (month d)
  then Some (mkdate (year d) (month d) (day d + 1))
  else if month d <? 12 then Some (mkdate (year d) (month d + 1) 1)
  else if year d <? MAXYEAR then Some (mkdate (year d + 1) 1 1)
  else None.

Definition prev_day (d : date) : option date :=
  if 1 <? day d then Some (mkdate (year d) (month d) (day d - 1))
  else if 1 <? month d
  then Some (mkdate (year d) (month d - 1)
                    (_days_in_month (year d) (month d - 1)))
  else if MINYEAR <? year d then Some (mkdate (year d - 1) 12 31)
  else None.

Fixpoint iter_day (step : date -> option date) (n : nat) (d : date)
  : option date :=
  match n with
  | O => Some d
  | S n' => match step d with
            | Some d' => iter_day step n' d'
            | None => None
            end
  end.

(** [d + timedelta(days=k)]: the date [k] days after [d] ([k] may be
    negative); [OverflowError] outside [date.min .. date.max]. *)
Definition add_days (d : date) (k : Z) : result date :=
  match (if 0 <=? k then iter_day next_day (Z.to_nat k) d
         else iter_day prev_day (Z.to_nat (- k)) d) with
  | Some d' => Ok d'
  | None => Raise (OverflowError "date value out of range")
  end.

(** [d - timedelta(days=k)] *)
Definition sub_days (d : date) (k : Z) : result date := add_days d (- k).

(** [(a - b).days] *)
Definition days_between (a b : date) : Z := toordinal a - toordinal b.

End datetime.

(* ------------------------------------------------------------------ *)
(** ** [calendar] *)

Module calendar.

Definition day_name : list string :=
  ["Monday"; "Tuesday"; "Wednesday"; "Thursday"; "Friday"; "Saturday";
   "Sunday"].

Definition month_abbr : list string :=
  [""; "Jan"; "Feb"; "Mar"; "Apr"; "May"; "Jun"; "Jul"; "Aug"; "Sep";
   "Oct"; "Nov"; "Dec"].

Definition mdays : list Z := [0; 31; 28; 31; 30; 31; 30; 31; 31; 30; 31; 30; 31].

Definition isleap (y : Z) : bool :=
  (y mod 4 =? 0) && (negb (y mod 100 =? 0) || (y mod 400 =? 0)).

(** [calendar.weekday(year, month, day)]; years outside the range of
    [date] are mapped into it by the 400-year period. *)
Definition weekday (y m d : Z) : result Z :=
  let y' := if (datetime.MINYEAR <=? y) && (y <=? datetime.MAXYEAR)
            then y else 2000 + y mod 400 in
  dt <- datetime.new y' m d ;;
  Ok (datetime.weekday dt).

(** [calendar.monthrange(year, month)]: weekday of the first day and
    number of days of the month. *)
Definition monthrange (y m : Z) : result (Z * Z) :=
  if negb ((1 <=? m) && (m <=? 12)) then Raise (IllegalMonthError m)
  else
    day1 <- weekday y m 1 ;;
    let ndays := nth (Z.to_nat m) mdays 0
                 + (if (m =? 2) && isleap y then 1 else 0) in
    Ok (day1, ndays).

End calendar.

(* ------------------------------------------------------------------ *)
(** ** Python dictionaries *)

Module pydict.
Section Dict.
Context {V : Type}.

Definition t : Type := list (string * V).

Definition empty : t := [].

Fixpoint get (d : t) (k : string) : option V :=
  match d with
  | [] => None
  | (k', v) :: d' => if String.eqb k' k then Some v else get d' k
  end.

(** [d[k] = v]: an existing key keeps its position, a new key goes last. *)
Fixpoint set (k : string) (v : V) (d : t) : t :=
  match d with
  | [] => [(k, v)]
  | (k', v') :: d' =>
      if String.eqb k' k then (k', v) :: d' else (k', v') :: set k v d'
  end.

(** [d[k]] *)
Definition getitem (d : t) (k : string) : result V :=
  match get d k with
  | Some v => Ok v
  | None => Raise (KeyError k)
  end.

Definition keys (d : t) : list string := map fst d.

(** [{k: v for k in ks}] *)
Definition of_keys (ks : list string) (v : V) : t :=
  fold_left (fun d k => set k v d) ks empty.

(** Filling a dictionary: [for row in rows: d[kf row] = vf row]. *)
Definition fill {R : Type} (kf : R -> string) (vf : R -> V)
           (rows : list R) (d : t) : t :=
  fold_left (fun dt row => set (kf row) (vf row) dt) rows d.

End Dict.
Arguments t V : clear implicits.
End pydict.

(* ------------------------------------------------------------------ *)
(** ** Sorting and the SQL operators used by the queries *)

Section Sorting.
Context {A : Type} (le : A -> A -> bool).

Fixpoint insert_sorted (x : A) (l : list A) : list A :=
  match l with
  | [] => [x]
  | y :: l' => if le x y then x :: y :: l' else y :: insert_sorted x l'
  end.

(** Stable: of two elements that compare equal the earlier stays first. *)
Fixpoint stable_sort (l : list A) : list A :=
  match l with
  | [] => []
  | x :: l' => insert_sorted x (stable_sort l')
  end.
End Sorting.

(** [sorted(l, key=int)] *)
Definition sorted_key_int (l : list string) : result (list string) :=
  keyed <- mapM (fun k => n <- int k ;; Ok (n, k)) l ;;
  Ok (map snd (stable_sort (fun a b => fst a <=? fst b) keyed)).

Section Grouping.
Context {A K : Type} (eqb : K -> K -> bool) (key : A -> K).

Fixpoint distinct (l : list K) : list K :=
  match l with
  | [] => []
  | k :: l' => k :: filter (fun k' => negb (eqb k' k)) (distinct l')
  end.

(** [GROUP BY key]: the distinct keys, each with its rows. *)
Definition group_by (rows : list A) : list (K * list A) :=
  map (fun k => (k, filter (fun r => eqb (key r) k) rows))
      (distinct (map key rows)).
End Grouping.

Definition Qsum (l : list Q) : Q := fold_right Qplus 0%Q l.

Definition Zsum (l : list Z) : Z := fold_right Z.add 0 l.

(** The sum of [f] over the rows with key [k]. *)
Definition part_sum {A K : Type} (eqb : K -> K -> bool) (key : A -> K)
           (f : A -> Q) (l : list A) (k : K) : Q :=
  Qsum (map f (filter (fun r => eqb (key r) k) l)).

(** [SELECT key, SUM(f) ... GROUP BY key] *)
Definition group_totals {A K : Type} (eqb : K -> K -> bool) (key : A -> K)
           (f : A -> Q) (l : list A) : list (K * Q) :=
  map (fun g => (fst g, Qsum (map f (snd g)))) (group_by eqb key l).

(** [SELECT SUM(x)] without GROUP BY, fetched with [.scalar()]: NULL, that
    is [None], when no row matches. *)
Definition sum_scalar (l : list Q) : option Q :=
  match l with
  | [] => None
  | _ => Some (Qsum l)
  end.

(** [v or 0] on an optional number: [None] and zero are both falsy. *)
Definition or_0 (v : option Q) : Q :=
  match v with
  | Some q => if Qeq_bool q 0 then 0%Q else q
  | None => 0%Q
  end.

(** The values an [Integer] column (32 bits) and a [bigint] (64 bits)
    hold, and the strings a text column holds: those without a NUL
    character. *)
Definition int4 (z : Z) : bool := (-2147483648 <=? z) && (z <=? 2147483647).

Definition int8 (z : Z) : bool :=
  (-9223372036854775808 <=? z) && (z <=? 9223372036854775807).

Fixpoint has_nul (s : string) : bool :=
  match s with
  | EmptyString => false
  | String c s' => Ascii.eqb c Ascii.zero || has_nul s'
  end.

(** [LIMIT n]: [n] is a [bigint]; PostgreSQL rejects a negative [n]. *)
Definition sql_limit {A : Type} (n : Z) (rows : list A) : result (list A) :=
  if negb (int8 n) then Raise (DataError "bigint out of range")
  else if n <? 0 then Raise (DataError "LIMIT must not be negative")
  else Ok (firstn (Z.to_nat n) rows).

(* ------------------------------------------------------------------ *)
(** ** The tables of [app/models.py] and the schemas of [app/schemas.py]

    The [created_at] columns are set by the server and read by no route;
    they are left out. *)

Module Product.
Record t : Type := mk { id : Z; product_name : string; price : Q }.
End Product.

Module Sales.
Record t : Type := mk {
  id : Z;
  name : string;
  product_id : Z;
  quantity : Z;
  total_price : Q;
  date : datetime.date
}.
End Sales.

Module ProductCreate.
Record t : Type := mk { product_name : string; price : Q }.
End ProductCreate.

Module SalesCreate.
Record t : Type := mk {
  name : string;
  product_id : Z;
  quantity : Z;
  date : datetime.date;
  total_price : Q
}.
End SalesCreate.

(** The session: both tables and the sequences behind their [id] columns. *)
Record Session : Type := mkSession {
  products : list Product.t;
  sales : list Sales.t;
  products_id_seq : Z;
  sales_id_seq : Z
}.

(** Every stored [date] value is a date of the calendar. *)
Definition sales_dates_valid (db : Session) : Prop :=
  Forall (fun s => datetime.valid_date (Sales.date s)) (sales db).

(** What the schema of [app/models.py] guarantees of a store: primary keys
    are unique and below their sequence, every sale references a product,
    and every stored date is a date. *)
Record store_ok (db : Session) : Prop := {
  products_pk : NoDup (map Product.id (products db));
  sales_pk : NoDup (map Sales.id (sales db));
  products_seq : Forall (fun p => Product.id p < products_id_seq db) (products db);
  sales_seq : Forall (fun s => Sales.id s < sales_id_seq db) (sales db);
  sales_fk : Forall (fun s => In (Sales.product_id s)
                               (map Product.id (products db))) (sales db);
  sales_dates : sales_dates_valid db
}.

(** Response rows of the graph routes. *)
Module DayTotal.
Record t : Type := mk { day : string; total : Q }.
End DayTotal.

Module MonthTotal.
Record t : Type := mk { month : string; total : Q }.
End MonthTotal.

Module Summary.
Record t : Type := mk { today : Q; week : Q; month : Q; year : Q }.
End Summary.

Module TopProduct.
Record t : Type := mk {
  product_id : Z;
  product_name : string;
  total_quantity : Z;
  total_sales : Q
}.
End TopProduct.

(* ------------------------------------------------------------------ *)
(** ** Product and sales routes *)

(** [POST /products]. The route checks nothing; [db.commit()] sends the
    INSERT, which the driver refuses for a name with a NUL character and
    the store for an id beyond the [Integer] column. The exception leaves
    the route as it is and nothing is stored. *)
Definition create_product (product : ProductCreate.t) (db : Session)
  : result Product.t * Session :=
  let new_product :=
    Product.mk (products_id_seq db)
               (ProductCreate.product_name product)
               (ProductCreate.price product) in
  if has_nul (ProductCreate.product_name product) then
    (Raise (ValueError
              "A string literal cannot contain NUL (0x00) characters."), db)
  else if negb (products_id_seq db <=? 2147483647) then
    (Raise (DataError "nextval: reached maximum value of sequence"), db)
  else
    (Ok new_product,
     mkSession (products db ++ [new_product]) (sales db)
               (products_id_seq db + 1) (sales_id_seq db)).

(** [GET /products] *)
Definition get_products (db : Session) : list Product.t := products db.

(** [POST /sales]. After the product check the route validates nothing;
    the INSERT of [db.commit()] is refused by the driver for a name with a
    NUL character and by the store for a [product_id] or [quantity] outside
    32 bits or an id beyond the [Integer] column. The exception leaves the
    route as it is and nothing is stored. *)
Definition create_sale (sale : SalesCreate.t) (db : Session)
  : result Sales.t * Session :=
  match find (fun p => Product.id p =? SalesCreate.product_id sale)
             (products db) with
  | None => (Raise (HTTPException 404 "Product not found"), db)
  | Some _ =>
      let new_sale :=
        Sales.mk (sales_id_seq db)
                 (SalesCreate.name sale)
                 (SalesCreate.product_id sale)
                 (SalesCreate.quantity sale)
                 (SalesCreate.total_price sale)
                 (SalesCreate.date sale) in
      if has_nul (SalesCreate.name sale) then
        (Raise (ValueError
                  "A string literal cannot contain NUL (0x00) characters."),
         db)
      else if negb (int4 (SalesCreate.product_id sale)
                    && int4 (SalesCreate.quantity sale)) then
        (Raise (DataError "integer out of range"), db)
      else if negb (sales_id_seq db <=? 2147483647) then
        (Raise (DataError "nextval: reached maximum value of sequence"), db)
      else
        (Ok new_sale,
         mkSession (products db) (sales db ++ [new_sale])
                   (products_id_seq db) (sales_id_seq db + 1))
  end.

(** [DELETE /products/{product_id}] *)
Definition delete_product (product_id : Z) (db : Session)
  : result string * Session :=
  match find (fun p => Product.id p =? product_id) (products db) with
  | None => (Raise (HTTPException 404 "Product not found"), db)
  | Some product =>
      match find (fun s => Sales.product_id s =? product_id) (sales db) with
      | Some _ =>
          (Raise (HTTPException 400
                    "Cannot delete: Product is used in sales records"), db)
      | None =>
          (Ok "Product deleted successfully",
           mkSession
             (filter (fun p => negb (Product.id p =? Product.id product))
                     (products db))
             (sales db) (products_id_seq db) (sales_id_seq db))
      end
  end.

(* ------------------------------------------------------------------ *)
(** ** Aggregation routes *)

Definition ordered_days : list string :=
  ["Sun"; "Mon"; "Tue"; "Wed"; "Thu"; "Fri"; "Sat"].

(** [SELECT date, SUM(total_price) ... GROUP BY date] over the rows kept by
    [keep]. *)
Definition totals_by_date (keep : Sales.t -> bool) (db : Session)
  : list (datetime.date * Q) :=
  group_totals datetime.eqb Sales.date Sales.total_price
               (filter keep (sales db)).

(** [SELECT extract(month from date), SUM(total_price) ... GROUP BY
    extract(month from date)] over the rows kept by [keep]. *)
Definition totals_by_month (keep : Sales.t -> bool) (db : Session)
  : list (Z * Q) :=
  group_totals Z.eqb (fun s => datetime.month (Sales.date s))
               Sales.total_price (filter keep (sales db)).

(** [SELECT SUM(total_price) ...] over the rows kept by [keep], [.scalar()] *)
Definition total_scalar (keep : Sales.t -> bool) (db : Session) : option Q :=
  sum_scalar (map Sales.total_price (filter keep (sales db))).

(** [GET /sales/graph/weekly] *)
Definition get_weekly_sales (start_date end_date : datetime.date) (db : Session)
  : result (list DayTotal.t) :=
  if negb (datetime.isoweekday start_date =? 7) then
    Raise (HTTPException 400 "Start date must be a Sunday")
  else if negb (datetime.isoweekday end_date =? 6) then
    Raise (HTTPException 400 "End date must be a Saturday")
  else if negb (datetime.days_between end_date start_date =? 6) then
    Raise (HTTPException 400
             "Dates must form a full week (Sunday → Saturday)")
  else
    let weekday_totals := pydict.of_keys ordered_days 0%Q in
    let results :=
      totals_by_date
        (fun s => datetime.between (Sales.date s) start_date end_date) db in
    weekday_totals <-
      foldM (fun wt row =>
               full_name <- py_index calendar.day_name
                                     (datetime.weekday (fst row)) ;;
               let weekday_name := substring 0 3 full_name in
               old <- pydict.getitem wt weekday_name ;;
               Ok (pydict.set weekday_name (old + snd row)%Q wt))
            results weekday_totals ;;
    mapM (fun day =>
            total <- pydict.getitem weekday_totals day ;;
            Ok (DayTotal.mk day total))
         ordered_days.

(** [GET /sales/graph/monthly] *)
Definition get_monthly_sales (year month : Z) (db : Session)
  : result (list DayTotal.t) :=
  mr <- calendar.monthrange year month ;;
  let num_days := snd mr in
  let day_totals := pydict.of_keys (map str (range 1 (num_days + 1))) 0%Q in
  let results :=
    totals_by_date
      (fun s => (datetime.year (Sales.date s) =? year)
                && (datetime.month (Sales.date s) =? month)) db in
  let day_totals :=
    fold_left (fun dt row =>
                 let day_str := str (datetime.day (fst row)) in
                 pydict.set day_str (snd row) dt)
              results day_totals in
  days <- sorted_key_int (pydict.keys day_totals) ;;
  mapM (fun day =>
          total <- pydict.getitem day_totals day ;;
          Ok (DayTotal.mk day total))
       days.

(** [GET /sales/graph/yearly] *)
Definition get_yearly_sales (year : Z) (db : Session)
  : result (list MonthTotal.t) :=
  if (year <? 1900) || (year >? 2100) then
    Raise (HTTPException 400 "Invalid year")
  else
    names <- mapM (py_index calendar.month_abbr) (range 1 13) ;;
    let month_totals := pydict.of_keys names 0%Q in
    let results :=
      totals_by_month
        (fun s => datetime.year (Sales.date s) =? year) db in
    month_totals <-
      foldM (fun mt row =>
               month_name <- py_index calendar.month_abbr (fst row) ;;
               Ok (pydict.set month_name (snd row) mt))
            results month_totals ;;
    let ordered_months := tl calendar.month_abbr in
    mapM (fun month =>
            total <- pydict.getitem month_totals month ;;
            Ok (MonthTotal.mk month total))
         ordered_months.

(** [GET /sales/summary]; [today] is the value of [date.today()]. *)
Definition get_sales_summary (today : datetime.date) (db : Session)
  : result Summary.t :=
  let daily_total :=
    or_0 (total_scalar (fun s => datetime.eqb (Sales.date s) today) db) in
  start_of_week <-
    datetime.sub_days today
      (if negb (datetime.weekday today =? 6)
       then datetime.weekday today + 1 else 0) ;;
  end_of_week <- datetime.add_days start_of_week 6 ;;
  let weekly_total :=
    or_0 (total_scalar
            (fun s => datetime.between (Sales.date s)
                                       start_of_week end_of_week) db) in
  start_of_month <- datetime.replace_day today 1 ;;
  mr <- calendar.monthrange (datetime.year today) (datetime.month today) ;;
  let last_day_of_month := snd mr in
  end_of_month <- datetime.replace_day today last_day_of_month ;;
  let monthly_total :=
    or_0 (total_scalar
            (fun s => datetime.between (Sales.date s)
                                       start_of_month end_of_month) db) in
  start_of_year <- datetime.replace_month_day today 1 1 ;;
  end_of_year <- datetime.replace_month_day today 12 31 ;;
  let yearly_total :=
    or_0 (total_scalar
            (fun s => datetime.between (Sales.date s)
                                       start_of_year end_of_year) db) in
  Ok (Summary.mk daily_total weekly_total monthly_total yearly_total).

(** [Sales JOIN Product ON Sales.product_id = Product.id]. The engine
    returns the joined rows in an order of its choosing; they are listed
    here sale by sale in table order, and what is proved of the queries
    built on the join does not depend on that order. *)
Definition sales_join_product (db : Session) : list (Sales.t * Product.t) :=
  flat_map (fun s =>
              map (fun p => (s, p))
                  (filter (fun p => Sales.product_id s =? Product.id p)
                          (products db)))
           (sales db).

Definition group_key_eqb (a b : Z * string) : bool :=
  (fst a =? fst b) && String.eqb (snd a) (snd b).

(** [GET /sales/top-products] *)
Definition get_top_products (db : Session) (limit : Z)
  : result (list TopProduct.t) :=
  let grouped :=
    map (fun g =>
           TopProduct.mk
             (fst (fst g)) (snd (fst g))
             (Zsum (map (fun r => Sales.quantity (fst r)) (snd g)))
             (Qsum (map (fun r => Sales.total_price (fst r)) (snd g))))
        (group_by group_key_eqb
                  (fun r => (Sales.product_id (fst r),
                             Product.product_name (snd r)))
                  (sales_join_product db)) in
  let ordered :=
    stable_sort (fun a b => TopProduct.total_quantity b
                            <=? TopProduct.total_quantity a) grouped in
  sql_limit limit ordered.

(** The default of the [limit] query parameter, and the route called
    without the parameter. *)
Definition default_limit : Z := 5.

Definition get_top_products_default (db : Session)
  : result (list TopProduct.t) :=
  get_top_products db default_limit.

(* ------------------------------------------------------------------ *)
(** ** The weekly totals over doubles

    [total_price] is a [Float] column and the totals of the routes are
    Python floats. The definitions here repeat the query and the loop of
    [get_weekly_sales] over IEEE binary64 numbers, on the two columns the
    query reads ([date], [total_price]); SUM adds the rows of a group in
    table order. *)

Definition fsum (l : list float) : float :=
  fold_left PrimFloat.add l 0%float.

(** [SELECT date, SUM(total_price) ... GROUP BY date] over the rows whose
    date is kept by [keep]. *)
Definition float_totals_by_date (keep : datetime.date -> bool)
           (rows : list (datetime.date * float))
  : list (datetime.date * float) :=
  map (fun g => (fst g, fsum (map snd (snd g))))
      (group_by datetime.eqb fst (filter (fun r => keep (fst r)) rows)).

(** [GET /sales/graph/weekly] over doubles. *)
Definition get_weekly_sales_float (start_date end_date : datetime.date)
           (rows : list (datetime.date * float))
  : result (list (string * float)) :=
  if negb (datetime.isoweekday start_date =? 7) then
    Raise (HTTPException 400 "Start date must be a Sunday")
  else if negb (datetime.isoweekday end_date =? 6) then
    Raise (HTTPException 400 "End date must be a Saturday")
  else if negb (datetime.days_between end_date start_date =? 6) then
    Raise (HTTPException 400
             "Dates must form a full week (Sunday → Saturday)")
  else
    let weekday_totals := pydict.of_keys ordered_days 0%float in
    let results :=
      float_totals_by_date
        (fun d => datetime.between d start_date end_date) rows in
    weekday_totals <-
      foldM (fun wt row =>
               full_name <- py_index calendar.day_name
                                     (datetime.weekday (fst row)) ;;
               let weekday_name := substring 0 3 full_name in
               old <- pydict.getitem wt weekday_name ;;
               Ok (pydict.set weekday_name
                              (PrimFloat.add old (snd row)) wt))
            results weekday_totals ;;
    mapM (fun day =>
            total <- pydict.getitem weekday_totals day ;;
            Ok (day, total))
         ordered_days.

(* ------------------------------------------------------------------ *)
(** ** Listing routes *)

(** The row [(Sales.id, Sales.name, Sales.date, Sales.product_id,
    Sales.quantity, Sales.total_price, Product.price)] of the listing
    queries, serialised as [SalesResponse]. *)
Module SalesResponse.
Record t : Type := mk {
  id : Z;
  name : string;
  product_id : Z;
  quantity : Z;
  date : datetime.date;
  total_price : Q;
  price : Q
}.
End SalesResponse.

Definition sales_price_row (r : Sales.t * Product.t) : SalesResponse.t :=
  SalesResponse.mk
    (Sales.id (fst r)) (Sales.name (fst r)) (Sales.product_id (fst r))
    (Sales.quantity (fst r)) (Sales.date (fst r)) (Sales.total_price (fst r))
    (Product.price (snd r)).

(** [GET /sales]; the [date] query parameter defaults to [None], and a
    [date] object is always truthy. *)
Definition get_sales (date : option datetime.date) (db : Session)
  : list SalesResponse.t :=
  let query := sales_join_product db in
  match date with
  | Some d =>
      map sales_price_row
          (filter (fun r => datetime.eqb (Sales.date (fst r)) d) query)
  | None => map sales_price_row query
  end.

(** [GET /sales/by-date-range]; the source names this function [get_sales]
    as well. Both parameters are required dates, so the test
    [start_date and end_date] always holds and the filter is always
    applied. *)
Definition get_sales_by_date_range (start_date end_date : datetime.date)
           (db : Session) : list SalesResponse.t :=
  let query := sales_join_product db in
  map sales_price_row
      (filter (fun r => datetime.between (Sales.date (fst r))
                                         start_date end_date) query).

(** [GET /sales/by-year]: the rows of the year, [ORDER BY Sales.date]. *)
Definition get_sales_by_year (year : Z) (db : Session)
  : list SalesResponse.t :=
  map sales_price_row
      (stable_sort
         (fun a b => datetime.leb (Sales.date (fst a)) (Sales.date (fst b)))
         (filter (fun r => datetime.year (Sales.date (fst r)) =? year)
                 (sales_join_product db))).

(** The stores the write routes can produce from an empty one; the date of
    a [SalesCreate] body has been parsed, so it is a date. *)
Inductive reachable : Session -> Prop :=
| reach_empty (products_start sales_start : Z) :
    reachable (mkSession [] [] products_start sales_start)
| reach_create_product (product : ProductCreate.t) (db : Session) :
    reachable db -> reachable (snd (create_product product db))
| reach_create_sale (sale : SalesCreate.t) (db : Session) :
    reachable db -> datetime.valid_date (SalesCreate.date sale) ->
    reachable (snd (create_sale sale db))
| reach_delete_product (product_id : Z) (db : Session) :
    reachable db -> reachable (snd (delete_product product_id db)).

(* ------------------------------------------------------------------ *)
(** ** The vocabulary of the specification *)

(** Days of the week, in the Monday-first numbering of [date.weekday()]. *)
Definition is_sunday (d : datetime.date) : Prop := datetime.weekday d = 6.

Definition is_saturday (d : datetime.date) : Prop := datetime.weekday d = 5.

(** A full Sunday-to-Saturday week. *)
Definition full_week (start_date end_date : datetime.date) : Prop :=
  is_sunday start_date /\ is_saturday end_date
  /\ datetime.days_between end_date start_date = 6.

(** The three-letter English name of the weekday of a date. *)
Definition weekday_abbr (d : datetime.date) : string :=
  nth (Z.to_nat (datetime.weekday d))
      ["Mon"; "Tue"; "Wed"; "Thu"; "Fri"; "Sat"; "Sun"] "".

(** Leap years and the length of a month, as the calendar has them. *)
Definition leap_year (y : Z) : bool :=
  ((y mod 4 =? 0) && negb (y mod 100 =? 0)) || (y mod 400 =? 0).

Definition days_in_month (y m : Z) : Z :=
  if m =? 2 then (if leap_year y then 29 else 28)
  else if (m =? 4) || (m =? 6) || (m =? 9) || (m =? 11) then 30
  else 31.

(** The three-letter English name of month [m]. *)
Definition month_name (m : Z) : string :=
  nth (Z.to_nat m) calendar.month_abbr "".

(** The group of a product: its id and name with the sums of [quantity]
    and [total_price] over the sales that reference it. *)
Definition product_group (db : Session) (p : Product.t) : TopProduct.t :=
  TopProduct.mk
    (Product.id p) (Product.product_name p)
    (Zsum (map Sales.quantity
               (filter (fun s => Sales.product_id s =? Product.id p)
                       (sales db))))
    (Qsum (map Sales.total_price
               (filter (fun s => Sales.product_id s =? Product.id p)
                       (sales db)))).

Definition has_sales (db : Session) (p : Product.t) : Prop :=
  exists s, In s (sales db) /\ Sales.product_id s = Product.id p.

(** Descending order of [total_quantity]. *)
Definition quantity_desc (a b : TopProduct.t) : Prop :=
  TopProduct.total_quantity b <= TopProduct.total_quantity a.

(** The sale a listing row was made from. *)
Definition sale_of_row (r : SalesResponse.t) : Sales.t :=
  Sales.mk (SalesResponse.id r) (SalesResponse.name r)
           (SalesResponse.product_id r) (SalesResponse.quantity r)
           (SalesResponse.total_price r) (SalesResponse.date r).

(** Ascending order of [date]. *)
Definition date_asc (a b : SalesResponse.t) : Prop :=
  datetime.leb (SalesResponse.date a) (SalesResponse.date b) = true.

(** No sale has a negative [total_price]. *)
Definition prices_nonnegative (db : Session) : Prop :=
  Forall (fun s => (0 <= Sales.total_price s)%Q) (sales db).

(** The value a dictionary holds for a key, 0 for a missing key. *)
Definition lookup0 (d : pydict.t Q) (k : string) : Q :=
  match pydict.get d k with
  | Some v => v
  | None => 0%Q
  end.

(** The sum of [total_price] over the sales kept by [keep]. *)
Definition sales_total (keep : Sales.t -> bool) (db : Session) : Q :=
  Qsum (map Sales.total_price (filter keep (sales db))).

(* ------------------------------------------------------------------ *)
(** ** Example stores *)

Module Examples.

Definition milk : Product.t := Product.mk 1 "Milk 1L" 50.
Definition curd : Product.t := Product.mk 2 "Curd" 30.

(** 2 June 2024 is a Sunday, 8 June the Saturday after it. *)
Definition sunday : datetime.date := datetime.mkdate 2024 6 2.
Definition monday : datetime.date := datetime.mkdate 2024 6 3.
Definition wednesday : datetime.date := datetime.mkdate 2024 6 5.
Definition saturday : datetime.date := datetime.mkdate 2024 6 8.
Definition next_saturday : datetime.date := datetime.mkdate 2024 6 15.
Definition leap_day : datetime.date := datetime.mkdate 2024 2 29.

Definition empty : Session := mkSession [] [] 1 1.

(** The store of the specification's example: one product, one sale of
    three units for 150 on the Sunday. *)
Definition dairy : Session :=
  mkSession [milk] [Sales.mk 1 "counter" 1 3 150 sunday] 2 2.

(** Two products whose quantities sum to 10 and to 7. *)
Definition two_products : Session :=
  mkSession
    [milk; curd]
    [Sales.mk 1 "morning" 2 7 210 sunday;
     Sales.mk 2 "noon" 1 4 200 sunday;
     Sales.mk 3 "evening" 1 6 300 wednesday;
     Sales.mk 4 "leap" 1 0 (1 # 2) leap_day]
    3 5.

End Examples.

(* ------------------------------------------------------------------ *)
(** * Properties *)

(** ** Dictionaries *)

Section DictFacts.
Context {V : Type}.
Implicit Types (d : pydict.t V) (k : string) (v : V).

Lemma get_set_same d k v : pydict.get (pydict.set k v d) k = Some v.
Proof.
  induction d as [|[k' v'] d IH]; simpl.
  - now rewrite String.eqb_refl.
  - destruct (String.eqb k' k) eqn:E; simpl; rewrite E; auto.
Qed.

Lemma get_set_other d k k' v :
  k <> k' -> pydict.get (pydict.set k v d) k' = pydict.get d k'.
Proof.
  intros Hne. induction d as [|[k0 v0] d IH]; simpl.
  - destruct (String.eqb_spec k k'); congruence.
  - destruct (String.eqb_spec k0 k) as [->|Hk]; simpl.
    + destruct (String.eqb_spec k k'); congruence.
    + now rewrite IH.
Qed.

Lemma get_Some_iff_keys d k :
  In k (pydict.keys d) <-> exists v, pydict.get d k = Some v.
Proof.
  induction d as [|[k0 v0] d IH]; simpl.
  - split; [tauto | intros [v Hv]; discriminate].
  - destruct (String.eqb_spec k0 k) as [->|Hk].
    + split; eauto.
    + rewrite <- IH. tauto.
Qed.

Lemma keys_set_in d k v :
  In k (pydict.keys d) -> pydict.keys (pydict.set k v d) = pydict.keys d.
Proof.
  induction d as [|[k0 v0] d IH]; simpl; [tauto|].
  intros H. destruct (String.eqb_spec k0 k) as [->|Hk]; simpl; auto.
  f_equal. apply IH. tauto.
Qed.

Lemma keys_set_notin d k v :
  ~ In k (pydict.keys d) ->
  pydict.set k v d = d ++ [(k, v)].
Proof.
  induction d as [|[k0 v0] d IH]; simpl; auto.
  intros H. destruct (String.eqb_spec k0 k) as [->|Hk]; [tauto|].
  f_equal. apply IH. tauto.
Qed.

(** A comprehension over distinct keys lists them in order. *)
Lemma of_keys_NoDup (ks : list string) v :
  NoDup ks -> pydict.of_keys ks v = map (fun k => (k, v)) ks.
Proof.
  unfold pydict.of_keys, pydict.empty.
  assert (G : forall ks d,
             NoDup (pydict.keys d ++ ks) ->
             fold_left (fun d k => pydict.set k v d) ks d
             = d ++ map (fun k => (k, v)) ks).
  { clear ks. induction ks as [|k ks IH]; intros d Hnd; simpl.
    - now rewrite app_nil_r.
    - rewrite keys_set_notin.
      + rewrite IH.
        * now rewrite <- app_assoc.
        * unfold pydict.keys in *. rewrite map_app. simpl.
          now rewrite <- app_assoc.
      + apply NoDup_remove_2 in Hnd. intros Hin. apply Hnd.
        apply in_or_app. now left. }
  intros Hnd. now rewrite (G ks []).
Qed.

Lemma keys_map_pair (ks : list string) v :
  pydict.keys (map (fun k => (k, v)) ks) = ks.
Proof.
  unfold pydict.keys. rewrite map_map. simpl. apply map_id.
Qed.

Lemma get_map_pair (ks : list string) v k :
  In k ks -> pydict.get (map (fun k => (k, v)) ks) k = Some v.
Proof.
  induction ks as [|k0 ks IH]; simpl; [tauto|].
  intros H. destruct (String.eqb_spec k0 k); auto.
  apply IH. destruct H; congruence.
Qed.

Section Fill.
Context {R : Type} (kf : R -> string) (vf : R -> V).
Abbreviation fill := (pydict.fill kf vf).

Lemma fill_keys rows d :
  Forall (fun row => In (kf row) (pydict.keys d)) rows ->
  pydict.keys (fill rows d) = pydict.keys d.
Proof.
  revert d. induction rows as [|r rows IH]; intros d H; simpl; auto.
  inversion H as [|? ? Hr Hrows]; subst.
  rewrite IH.
  - now apply keys_set_in.
  - rewrite keys_set_in by assumption. assumption.
Qed.

Lemma fill_get_untouched rows d k :
  Forall (fun row => kf row <> k) rows ->
  pydict.get (fill rows d) k = pydict.get d k.
Proof.
  revert d. induction rows as [|r rows IH]; intros d H; simpl; auto.
  inversion H; subst. rewrite IH by assumption.
  now apply get_set_other.
Qed.

Lemma fill_get_touched rows d k :
  Exists (fun row => kf row = k) rows ->
  exists row, In row rows /\ kf row = k
              /\ pydict.get (fill rows d) k = Some (vf row).
Proof.
  revert d. induction rows as [|r rows IH]; intros d H; simpl.
  - inversion H.
  - destruct (Exists_dec (fun row => kf row = k) rows) as [E|NE].
    + intros row. apply string_dec.
    + destruct (IH (pydict.set (kf r) (vf r) d) E) as (row & Hin & Hk & Hg).
      exists row. auto.
    + inversion H as [? ? Hr|? ? Hr]; subst; [|contradiction].
      exists r. split; [now left|]. split; [reflexivity|].
      rewrite fill_get_untouched.
      * apply get_set_same.
      * apply Forall_Exists_neg. assumption.
Qed.
End Fill.

End DictFacts.

(** ** The result monad *)

Lemma mapM_Ok {A B : Type} (f : A -> result B) (g : A -> B) (l : list A) :
  Forall (fun a => f a = Ok (g a)) l -> mapM f l = Ok (map g l).
Proof.
  induction 1 as [|a l Ha _ IH]; simpl; auto.
  now rewrite Ha, IH.
Qed.

Lemma foldM_Ok {A B : Type} (f : A -> B -> result A) (g : A -> B -> A)
      (P : A -> Prop) (l : list B) (a : A) :
  (forall a b, P a -> In b l -> f a b = Ok (g a b) /\ P (g a b)) ->
  P a ->
  foldM f l a = Ok (fold_left g l a) /\ P (fold_left g l a).
Proof.
  revert a. induction l as [|b l IH]; intros a Hstep Ha; simpl; auto.
  destruct (Hstep a b Ha (or_introl eq_refl)) as [-> Hp]. simpl.
  apply IH; auto. intros a' b' Ha' Hin. apply Hstep; auto. now right.
Qed.

(** ** Sums and groups *)

Lemma Qsum_map_ext {A : Type} (f g : A -> Q) (l : list A) :
  Forall (fun a => (f a == g a)%Q) l -> (Qsum (map f l) == Qsum (map g l))%Q.
Proof.
  induction 1 as [|a l Ha _ IH]; simpl; [reflexivity|].
  now rewrite Ha, IH.
Qed.

Lemma filter_filter_comm {A : Type} (p q : A -> bool) (l : list A) :
  filter p (filter q l) = filter (fun a => q a && p a) l.
Proof.
  induction l as [|a l IH]; simpl; auto.
  destruct (q a); simpl; [destruct (p a)|]; now rewrite IH.
Qed.

Section Groups.
Context {A K : Type} (eqb : K -> K -> bool).
Hypothesis eqb_eq : forall a b, eqb a b = true <-> a = b.
Context (key : A -> K).

Lemma eqb_refl_true k : eqb k k = true.
Proof. now apply eqb_eq. Qed.

Lemma In_distinct (l : list K) k : In k (distinct eqb l) <-> In k l.
Proof.
  induction l as [|k0 l IH]; simpl; [tauto|].
  rewrite filter_In, IH. split.
  - tauto.
  - intros [->|H]; auto.
    destruct (eqb k k0) eqn:E.
    + left. symmetry. now apply eqb_eq.
    + right. now split.
Qed.

Lemma NoDup_distinct (l : list K) : NoDup (distinct eqb l).
Proof.
  induction l as [|k0 l IH]; simpl; constructor.
  - rewrite filter_In. intros [_ H]. now rewrite eqb_refl_true in H.
  - now apply NoDup_filter.
Qed.

Section Totals.
Context (f : A -> Q).
Abbreviation part_sum := (part_sum eqb key f).
Abbreviation group_totals := (group_totals eqb key f).

Lemma Qsum_one_of (ks : list K) (x : K) (a : Q) (g : K -> Q) :
  NoDup ks -> In x ks ->
  (Qsum (map (fun k => if eqb x k then a + g k else g k) ks)
   == a + Qsum (map g ks))%Q.
Proof.
  induction 1 as [|k ks Hk Hnd IH]; simpl; [tauto|].
  intros [->|Hin].
  - rewrite eqb_refl_true.
    assert (E : (Qsum (map (fun k => if eqb x k then a + g k else g k) ks)
                 == Qsum (map g ks))%Q).
    { apply Qsum_map_ext. apply Forall_forall. intros k Hink.
      destruct (eqb x k) eqn:E; [|reflexivity].
      apply eqb_eq in E. subst. contradiction. }
    rewrite E. now rewrite Qplus_assoc.
  - destruct (eqb x k) eqn:E.
    + apply eqb_eq in E. subst. contradiction.
    + rewrite IH by assumption. ring.
Qed.

(** Summing group by group gives the sum over all rows. *)
Lemma partition_sum (ks : list K) (l : list A) :
  NoDup ks -> Forall (fun r => In (key r) ks) l ->
  (Qsum (map (part_sum l) ks) == Qsum (map f l))%Q.
Proof.
  intros Hnd. induction 1 as [|r l Hr _ IH]; simpl.
  - unfold part_sum. simpl. induction ks; simpl; [reflexivity|].
    inversion Hnd; subst. rewrite IHks by assumption. ring.
  - rewrite <- IH.
    rewrite <- (Qsum_one_of ks (key r) (f r) (part_sum l)) by assumption.
    apply Qsum_map_ext. apply Forall_forall. intros k _.
    unfold part_sum. simpl. destruct (eqb (key r) k); reflexivity.
Qed.

Lemma group_totals_eq (l : list A) :
  group_totals l
  = map (fun k => (k, part_sum l k)) (distinct eqb (map key l)).
Proof.
  unfold group_totals, group_by. now rewrite map_map.
Qed.

Lemma In_group_totals (l : list A) (row : K * Q) :
  In row (group_totals l) ->
  In (fst row) (map key l) /\ snd row = part_sum l (fst row).
Proof.
  rewrite group_totals_eq, in_map_iff. intros (k & <- & Hk).
  simpl. split; [|reflexivity]. exact (proj1 (In_distinct _ _) Hk).
Qed.

(** Summing the totals of the groups selected by [P] gives the sum
    over the rows whose key is selected by [P]. *)
Lemma group_totals_sum (P : K -> bool) (l : list A) :
  (Qsum (map snd (filter (fun row => P (fst row)) (group_totals l)))
   == Qsum (map f (filter (fun r => P (key r)) l)))%Q.
Proof.
  rewrite group_totals_eq.
  set (ks := distinct eqb (map key l)).
  assert (E : map snd (filter (fun row => P (fst row))
                         (map (fun k => (k, part_sum l k)) ks))
              = map (part_sum l) (filter P ks)).
  { induction ks as [|k ks IH]; simpl; auto.
    destruct (P k); simpl; now rewrite IH. }
  rewrite E.
  rewrite <- (partition_sum (filter P ks)).
  - apply Qsum_map_ext. apply Forall_forall. intros k Hk.
    apply filter_In in Hk. destruct Hk as [_ Pk].
    unfold part_sum. rewrite filter_filter_comm.
    assert (F : filter (fun r => eqb (key r) k) l
                = filter (fun a => P (key a) && eqb (key a) k) l).
    { apply filter_ext_in. intros r _.
      destruct (eqb (key r) k) eqn:Ek.
      - apply eqb_eq in Ek. rewrite Ek, Pk. reflexivity.
      - now rewrite andb_false_r. }
    rewrite F. reflexivity.
  - apply NoDup_filter. apply NoDup_distinct.
  - apply Forall_forall. intros r Hr. apply filter_In in Hr.
    destruct Hr as [Hr Pr]. apply filter_In. split; [|assumption].
    apply In_distinct. now apply in_map.
Qed.

End Totals.
End Groups.

(** ** Dates *)

Lemma date_eqb_eq (a b : datetime.date) : datetime.eqb a b = true <-> a = b.
Proof.
  destruct a as [y m d], b as [y' m' d']. unfold datetime.eqb. simpl.
  rewrite !andb_true_iff, !Z.eqb_eq. split.
  - intros [[-> ->] ->]. reflexivity.
  - intros E. inversion E. auto.
Qed.

Lemma weekday_range (d : datetime.date) : 0 <= datetime.weekday d < 7.
Proof. unfold datetime.weekday. apply Z.mod_pos_bound. lia. Qed.

Lemma isoweekday_weekday (d : datetime.date) :
  datetime.isoweekday d = datetime.weekday d + 1.
Proof.
  unfold datetime.isoweekday, datetime.weekday.
  generalize (datetime.toordinal d). intros n.
  destruct (Z.eqb_spec (n mod 7) 0); Z.to_euclidean_division_equations; lia.
Qed.

Lemma is_sunday_iso (d : datetime.date) :
  is_sunday d <-> datetime.isoweekday d = 7.
Proof. unfold is_sunday. rewrite isoweekday_weekday. lia. Qed.

Lemma is_saturday_iso (d : datetime.date) :
  is_saturday d <-> datetime.isoweekday d = 6.
Proof. unfold is_saturday. rewrite isoweekday_weekday. lia. Qed.

Lemma weekday_name_abbr (d : datetime.date) :
  py_index calendar.day_name (datetime.weekday d)
  = Ok (nth (Z.to_nat (datetime.weekday d)) calendar.day_name "")
  /\ substring 0 3 (nth (Z.to_nat (datetime.weekday d)) calendar.day_name "")
     = weekday_abbr d
  /\ In (weekday_abbr d) ordered_days.
Proof.
  unfold weekday_abbr. pose proof (weekday_range d) as H.
  assert (C : datetime.weekday d = 0 \/ datetime.weekday d = 1
              \/ datetime.weekday d = 2 \/ datetime.weekday d = 3
              \/ datetime.weekday d = 4 \/ datetime.weekday d = 5
              \/ datetime.weekday d = 6) by lia.
  unfold ordered_days.
  repeat (destruct C as [C|C]); rewrite C; simpl;
    (split; [reflexivity | split; [reflexivity | tauto]]).
Qed.

(** ** Weekly totals *)

Lemma lookup0_set_same (d : pydict.t Q) k v :
  lookup0 (pydict.set k v d) k = v.
Proof. unfold lookup0. now rewrite get_set_same. Qed.

Lemma lookup0_set_other (d : pydict.t Q) k k' v :
  k <> k' -> lookup0 (pydict.set k v d) k' = lookup0 d k'.
Proof. intros H. unfold lookup0. now rewrite get_set_other. Qed.

Lemma getitem_lookup0 (d : pydict.t Q) k :
  In k (pydict.keys d) -> pydict.getitem d k = Ok (lookup0 d k).
Proof.
  intros H. apply get_Some_iff_keys in H. destruct H as [v Hv].
  unfold pydict.getitem, lookup0. now rewrite Hv.
Qed.

Lemma lookup0_zero_dict (ks : list string) k :
  lookup0 (map (fun k => (k, 0%Q)) ks) k = 0%Q.
Proof.
  unfold lookup0. induction ks as [|k0 ks IH]; simpl; auto.
  destruct (String.eqb k0 k); auto.
Qed.

(** The loop of [get_weekly_sales] adds every row to the bucket of its
    weekday and raises nothing. *)
Lemma weekly_fold (rows : list (datetime.date * Q)) :
  forall wt : pydict.t Q,
    pydict.keys wt = ordered_days ->
    exists wt',
      foldM (fun wt row =>
               full_name <- py_index calendar.day_name
                                     (datetime.weekday (fst row)) ;;
               let weekday_name := substring 0 3 full_name in
               old <- pydict.getitem wt weekday_name ;;
               Ok (pydict.set weekday_name (old + snd row)%Q wt))
            rows wt = Ok wt'
      /\ pydict.keys wt' = ordered_days
      /\ forall k,
          (lookup0 wt' k
           == lookup0 wt k
              + Qsum (map snd
                        (filter (fun row =>
                                   String.eqb (weekday_abbr (fst row)) k)
                                rows)))%Q.
Proof.
  induction rows as [|row rows IH]; intros wt Hk.
  - exists wt. simpl. repeat split; auto. intros k. ring.
  - destruct (weekday_name_abbr (fst row)) as (H1 & H2 & H3).
    cbn [foldM]. rewrite H1. cbn [bind]. rewrite H2.
    rewrite getitem_lookup0 by (rewrite Hk; exact H3). cbn [bind].
    set (name := weekday_abbr (fst row)) in *.
    set (wt1 := pydict.set name (lookup0 wt name + snd row)%Q wt).
    destruct (IH wt1) as (wt' & Hf & Hk' & Hv).
    { unfold wt1. rewrite keys_set_in; [assumption|].
      rewrite Hk. exact H3. }
    exists wt'. split; [exact Hf|]. split; [exact Hk'|].
    intros k. rewrite Hv. cbn [filter]. fold name.
    destruct (String.eqb_spec name k) as [<-|Hne].
    + unfold wt1. rewrite lookup0_set_same. cbn [map Qsum fold_right].
      unfold Qsum. ring.
    + unfold wt1. rewrite lookup0_set_other by assumption. reflexivity.
Qed.

Lemma weekly_checks_pass (start_date end_date : datetime.date) :
  full_week start_date end_date ->
  negb (datetime.isoweekday start_date =? 7) = false
  /\ negb (datetime.isoweekday end_date =? 6) = false
  /\ negb (datetime.days_between end_date start_date =? 6) = false.
Proof.
  intros (Hs & He & Hd).
  apply is_sunday_iso in Hs. apply is_saturday_iso in He.
  rewrite Hs, He, Hd. auto.
Qed.

(** A full week is answered with the seven buckets read off the filled
    dictionary. *)
Lemma weekly_run (start_date end_date : datetime.date) (db : Session) :
  full_week start_date end_date ->
  exists wt,
    get_weekly_sales start_date end_date db
    = Ok (map (fun k => DayTotal.mk k (lookup0 wt k)) ordered_days)
    /\ forall k,
        (lookup0 wt k
         == sales_total
              (fun s => datetime.between (Sales.date s) start_date end_date
                        && String.eqb (weekday_abbr (Sales.date s)) k) db)%Q.
Proof.
  intros Hw. destruct (weekly_checks_pass _ _ Hw) as (C1 & C2 & C3).
  unfold get_weekly_sales. rewrite C1, C2, C3. cbv zeta.
  set (rows := totals_by_date _ db).
  destruct (weekly_fold rows (pydict.of_keys ordered_days 0%Q))
    as (wt & Hf & Hk & Hv).
  { rewrite of_keys_NoDup.
    - apply keys_map_pair.
    - unfold ordered_days.
      repeat (constructor; [simpl; intuition discriminate|]). constructor. }
  cbv zeta in Hf. exists wt. rewrite Hf. cbn [bind]. split.
  - apply mapM_Ok. apply Forall_forall. intros k Hin.
    rewrite getitem_lookup0 by (rewrite Hk; exact Hin). reflexivity.
  - intros k. rewrite Hv.
    rewrite of_keys_NoDup
      by (unfold ordered_days;
          repeat (constructor; [simpl; intuition discriminate|]); constructor).
    rewrite lookup0_zero_dict. rewrite Qplus_0_l.
    unfold rows, totals_by_date.
    rewrite (group_totals_sum datetime.eqb date_eqb_eq Sales.date
               Sales.total_price
               (fun d => String.eqb (weekday_abbr d) k)).
    rewrite filter_filter_comm. reflexivity.
Qed.

(** ** Numerals, ranges and sorting *)

Lemma to_int_normal (n : Z) : Z.to_int n = Decimal.norm (Z.to_int n).
Proof.
  rewrite <- (DecimalZ.to_of (Z.to_int n)). now rewrite DecimalZ.of_to.
Qed.

Lemma norm_not_nil (d : Decimal.int) :
  Decimal.norm d <> Decimal.Pos Decimal.Nil
  /\ Decimal.norm d <> Decimal.Neg Decimal.Nil.
Proof.
  destruct d as [u|u]; simpl.
  - unfold Decimal.unorm. destruct (Decimal.nzhead u); split; discriminate.
  - destruct (Decimal.nzhead u); split; discriminate.
Qed.

(** Parsing a printed integer gives it back. *)
Lemma int_str (n : Z) : int (str n) = Ok n.
Proof.
  unfold int, str. rewrite NilZero.isi.
  - now rewrite DecimalZ.of_to.
  - rewrite to_int_normal. apply norm_not_nil.
  - rewrite to_int_normal. apply norm_not_nil.
Qed.

Lemma str_inj (n m : Z) : str n = str m -> n = m.
Proof.
  intros H. pose proof (int_str n) as Hn. rewrite H, int_str in Hn.
  congruence.
Qed.

Lemma range_nil (a b : Z) : b <= a -> range a b = [].
Proof.
  intros H. unfold range. replace (Z.to_nat (b - a)) with 0%nat by lia.
  reflexivity.
Qed.

Lemma range_cons (a b : Z) : a < b -> range a b = a :: range (a + 1) b.
Proof.
  intros H. unfold range.
  replace (Z.to_nat (b - a)) with (S (Z.to_nat (b - (a + 1)))) by lia.
  cbn [seq map]. f_equal; [lia|].
  rewrite <- seq_shift, map_map. apply map_ext. intros i. lia.
Qed.

Lemma range_ind (P : Z -> Z -> list Z -> Prop) :
  (forall a b, b <= a -> P a b []) ->
  (forall a b, a < b -> P (a + 1) b (range (a + 1) b) ->
               P a b (a :: range (a + 1) b)) ->
  forall a b, P a b (range a b).
Proof.
  intros Hnil Hcons a b.
  remember (Z.to_nat (b - a)) as n eqn:En. revert a En.
  induction n as [|n IH]; intros a En.
  - rewrite range_nil by lia. apply Hnil. lia.
  - rewrite range_cons by lia. apply Hcons; [lia|]. apply IH. lia.
Qed.

Lemma In_range (a b x : Z) : In x (range a b) <-> a <= x < b.
Proof.
  unfold range. rewrite in_map_iff. split.
  - intros (i & <- & Hi). apply in_seq in Hi. lia.
  - intros H. exists (Z.to_nat (x - a)). split; [lia|].
    apply in_seq. lia.
Qed.

Lemma length_range (a b : Z) : a <= b -> Z.of_nat (List.length (range a b)) = b - a.
Proof.
  intros H. unfold range. rewrite length_map, length_seq. lia.
Qed.

Lemma NoDup_range (a b : Z) : NoDup (range a b).
Proof.
  apply (range_ind (fun _ _ l => NoDup l)).
  - constructor.
  - intros a' b' _ IH. constructor; [|assumption].
    rewrite In_range. lia.
Qed.

Lemma nth_error_range (a b d : Z) :
  a <= d < b -> nth_error (range a b) (Z.to_nat (d - a)) = Some d.
Proof.
  intros H. unfold range. rewrite nth_error_map.
  rewrite nth_error_seq.
  replace (Z.to_nat (d - a) <? Z.to_nat (b - a))%nat with true
    by (symmetry; apply Nat.ltb_lt; lia).
  simpl. f_equal. lia.
Qed.

Lemma NoDup_map_str (l : list Z) : NoDup l -> NoDup (map str l).
Proof.
  induction 1 as [|x l Hx _ IH]; simpl; constructor; auto.
  rewrite in_map_iff. intros (y & Hy & Hin). apply str_inj in Hy.
  now subst.
Qed.

Section SortFacts.
Context {A : Type} (le : A -> A -> bool).

Lemma insert_sorted_perm (x : A) (l : list A) :
  Permutation (insert_sorted le x l) (x :: l).
Proof.
  induction l as [|y l IH]; simpl; auto.
  destruct (le x y); auto.
  rewrite IH. apply perm_swap.
Qed.

Lemma stable_sort_perm (l : list A) : Permutation (stable_sort le l) l.
Proof.
  induction l as [|x l IH]; simpl; auto.
  rewrite insert_sorted_perm. now constructor.
Qed.

(** A list already in order is returned as it is. *)
Lemma stable_sort_sorted (l : list A) :
  Sorted (fun a b => le a b = true) l -> stable_sort le l = l.
Proof.
  induction 1 as [|x l Hs IH Hd]; simpl; auto.
  rewrite IH. destruct Hd as [|y l' Hxy]; simpl; auto.
  now rewrite Hxy.
Qed.

Hypothesis le_total : forall a b, le a b = true \/ le b a = true.

Lemma insert_sorted_Sorted (x : A) (l : list A) :
  Sorted (fun a b => le a b = true) l ->
  Sorted (fun a b => le a b = true) (insert_sorted le x l).
Proof.
  induction 1 as [|y l Hs IH Hd]; simpl.
  - repeat constructor.
  - destruct (le x y) eqn:E.
    + repeat constructor; auto.
    + constructor; auto.
      destruct (le_total x y) as [H|H]; [congruence|].
      destruct Hd as [|z l' Hyz]; simpl.
      * now constructor.
      * destruct (le x z); now constructor.
Qed.

Lemma stable_sort_Sorted (l : list A) :
  Sorted (fun a b => le a b = true) (stable_sort le l).
Proof.
  induction l as [|x l IH]; simpl.
  - constructor.
  - now apply insert_sorted_Sorted.
Qed.
End SortFacts.

Lemma sorted_key_int_range (a b : Z) :
  sorted_key_int (map str (range a b)) = Ok (map str (range a b)).
Proof.
  unfold sorted_key_int.
  rewrite (mapM_Ok _ (fun k => (match int k with Ok n => n | Raise _ => 0 end,
                                k))).
  - cbn [bind]. rewrite map_map.
    rewrite stable_sort_sorted.
    + rewrite map_map. simpl. reflexivity.
    + apply (range_ind
               (fun _ _ l =>
                  Sorted (fun x y => (fst x <=? fst y) = true)
                    (map (fun x => (match int (str x) with
                                    | Ok n => n | Raise _ => 0 end, str x)) l))).
      * constructor.
      * intros a' b' Hlt IH. cbn [map]. constructor; [assumption|].
        destruct (Z.le_gt_cases b' (a' + 1)) as [Hle|Hgt].
        -- rewrite range_nil by assumption. constructor.
        -- rewrite range_cons by lia. cbn [map]. constructor.
           cbn [fst]. rewrite !int_str. lia.
  - apply Forall_forall. intros k Hk. apply in_map_iff in Hk.
    destruct Hk as (n & <- & _). now rewrite int_str.
Qed.

(** ** Months *)

Lemma is_leap_leap_year (y : Z) : datetime._is_leap y = leap_year y.
Proof.
  unfold datetime._is_leap, leap_year.
  destruct (Z.eqb_spec (y mod 4) 0), (Z.eqb_spec (y mod 100) 0),
    (Z.eqb_spec (y mod 400) 0); simpl; try reflexivity;
    exfalso; Z.to_euclidean_division_equations; lia.
Qed.

Ltac month_cases m H :=
  assert (m = 1 \/ m = 2 \/ m = 3 \/ m = 4 \/ m = 5 \/ m = 6 \/ m = 7
          \/ m = 8 \/ m = 9 \/ m = 10 \/ m = 11 \/ m = 12) as H by lia;
  repeat (destruct H as [H|H]); subst m.

Lemma days_in_month_datetime (y m : Z) :
  1 <= m <= 12 -> datetime._days_in_month y m = days_in_month y m.
Proof.
  intros Hm. unfold datetime._days_in_month, days_in_month.
  rewrite is_leap_leap_year.
  month_cases m C; simpl; try reflexivity.
Qed.

Lemma days_in_month_bounds (y m : Z) : 28 <= days_in_month y m <= 31.
Proof.
  unfold days_in_month.
  destruct (m =? 2); [destruct (leap_year y); lia|].
  destruct ((m =? 4) || (m =? 6) || (m =? 9) || (m =? 11)); lia.
Qed.

Lemma valid_date_bounds (d : datetime.date) :
  datetime.valid_date d <->
  1 <= datetime.year d <= 9999 /\ 1 <= datetime.month d <= 12
  /\ 1 <= datetime.day d
     <= days_in_month (datetime.year d) (datetime.month d).
Proof.
  unfold datetime.valid_date, datetime.valid_dateb,
    datetime.MINYEAR, datetime.MAXYEAR.
  rewrite !andb_true_iff, !Z.leb_le. split.
  - intros H. assert (Hm : 1 <= datetime.month d <= 12) by lia.
    rewrite <- days_in_month_datetime by assumption. lia.
  - intros (Hy & Hm & Hd). rewrite days_in_month_datetime by assumption.
    lia.
Qed.

Lemma monthrange_ok (y m : Z) :
  1 <= m <= 12 ->
  exists w, calendar.monthrange y m = Ok (w, days_in_month y m).
Proof.
  intros Hm. unfold calendar.monthrange.
  replace ((1 <=? m) && (m <=? 12)) with true
    by (symmetry; apply andb_true_iff; split; apply Z.leb_le; lia).
  cbn [negb]. unfold calendar.weekday.
  set (y' := if (datetime.MINYEAR <=? y) && (y <=? datetime.MAXYEAR)
             then y else 2000 + y mod 400).
  assert (Hy' : 1 <= y' <= 9999).
  { unfold y', datetime.MINYEAR, datetime.MAXYEAR.
    pose proof (Z.mod_pos_bound y 400 ltac:(lia)).
    destruct (Z.leb_spec 1 y), (Z.leb_spec y 9999); cbn [andb]; lia. }
  assert (Hv : datetime.valid_dateb y' m 1 = true).
  { apply (valid_date_bounds (datetime.mkdate y' m 1)). simpl.
    pose proof (days_in_month_bounds y' m). lia. }
  unfold datetime.new. rewrite Hv. cbn [bind].
  eexists. f_equal. f_equal.
  unfold days_in_month, calendar.isleap, leap_year.
  month_cases m C; simpl; try reflexivity.
  destruct (Z.eqb_spec (y mod 4) 0), (Z.eqb_spec (y mod 100) 0),
    (Z.eqb_spec (y mod 400) 0); simpl; try reflexivity;
    exfalso; Z.to_euclidean_division_equations; lia.
Qed.

Lemma monthrange_illegal (y m : Z) :
  ~ 1 <= m <= 12 -> calendar.monthrange y m = Raise (IllegalMonthError m).
Proof.
  intros Hm. unfold calendar.monthrange.
  replace ((1 <=? m) && (m <=? 12)) with false; [reflexivity|].
  symmetry. apply andb_false_iff. rewrite !Z.leb_gt. lia.
Qed.

(** ** Monthly totals *)

(** The rows of the monthly query: one per date of the month that has a
    sale, with the sum of that date. *)
Lemma monthly_rows (year month : Z) (db : Session) (row : datetime.date * Q) :
  1 <= month <= 12 -> sales_dates_valid db ->
  In row (totals_by_date
            (fun s => (datetime.year (Sales.date s) =? year)
                      && (datetime.month (Sales.date s) =? month)) db) ->
  exists d,
    1 <= d <= days_in_month year month
    /\ fst row = datetime.mkdate year month d
    /\ snd row
       = sales_total
           (fun s => datetime.eqb (Sales.date s)
                                  (datetime.mkdate year month d)) db.
Proof.
  intros Hm Hv Hin. unfold totals_by_date in Hin.
  apply (In_group_totals datetime.eqb date_eqb_eq) in Hin.
  destruct Hin as [Hkey Hsum].
  apply in_map_iff in Hkey. destruct Hkey as (s & Hs & Hins).
  apply filter_In in Hins. destruct Hins as [Hins Hkeep].
  apply andb_true_iff in Hkeep. rewrite !Z.eqb_eq in Hkeep.
  destruct Hkeep as [Hy Hmo].
  unfold sales_dates_valid in Hv. rewrite Forall_forall in Hv.
  apply Hv, valid_date_bounds in Hins. rewrite Hy, Hmo, Hs in Hins.
  rewrite Hs in Hy, Hmo.
  exists (datetime.day (fst row)). split; [tauto|].
  assert (E : fst row = datetime.mkdate year month (datetime.day (fst row))).
  { destruct (fst row); simpl in *. congruence. }
  split; [exact E|].
  rewrite Hsum. unfold part_sum, sales_total. rewrite filter_filter_comm.
  f_equal. f_equal. apply filter_ext. intros a.
  rewrite <- E.
  destruct (datetime.eqb (Sales.date a) (fst row)) eqn:Ea.
  - apply date_eqb_eq in Ea. rewrite Ea, Hy, Hmo, !Z.eqb_refl. reflexivity.
  - apply andb_false_r.
Qed.

Lemma monthly_run (year month : Z) (db : Session) :
  1 <= month <= 12 -> sales_dates_valid db ->
  exists dt : pydict.t Q,
    get_monthly_sales year month db
    = Ok (map (fun k => DayTotal.mk k (lookup0 dt k))
              (map str (range 1 (days_in_month year month + 1))))
    /\ forall d,
        1 <= d <= days_in_month year month ->
        lookup0 dt (str d)
        = sales_total
            (fun s => datetime.eqb (Sales.date s)
                                   (datetime.mkdate year month d)) db.
Proof.
  intros Hm Hv. destruct (monthrange_ok year month Hm) as [w Hmr].
  unfold get_monthly_sales. rewrite Hmr. cbn [bind snd]. cbv zeta.
  set (N := days_in_month year month).
  set (rows := totals_by_date _ db).
  rewrite of_keys_NoDup by (apply NoDup_map_str, NoDup_range).
  set (d0 := map (fun k => (k, 0%Q)) (map str (range 1 (N + 1)))).
  change (fold_left _ rows d0)
    with (pydict.fill (fun row : datetime.date * Q =>
                         str (datetime.day (fst row))) snd rows d0).
  set (dt := pydict.fill _ _ rows d0).
  assert (Hrows : forall row, In row rows ->
            exists d, 1 <= d <= N /\ fst row = datetime.mkdate year month d
              /\ snd row
                 = sales_total
                     (fun s => datetime.eqb (Sales.date s)
                                 (datetime.mkdate year month d)) db).
  { intros row Hrow. now apply monthly_rows. }
  assert (Hkeys : pydict.keys dt = map str (range 1 (N + 1))).
  { unfold dt. rewrite fill_keys; unfold d0; rewrite keys_map_pair; auto.
    apply Forall_forall. intros row Hrow.
    destruct (Hrows row Hrow) as (d & Hd & E & _). rewrite E. simpl.
    apply in_map, In_range. lia. }
  rewrite Hkeys, sorted_key_int_range. cbn [bind].
  exists dt. split.
  - apply mapM_Ok. apply Forall_forall. intros k Hk.
    rewrite getitem_lookup0 by (rewrite Hkeys; exact Hk). reflexivity.
  - intros d Hd. unfold lookup0, dt.
    destruct (Exists_dec
                (fun row : datetime.date * Q =>
                   str (datetime.day (fst row)) = str d) rows) as [E|NE].
    { intros row. apply string_dec. }
    + apply (fill_get_touched _ snd rows d0) in E.
      destruct E as (row & Hrow & Hk & Hg). rewrite Hg.
      destruct (Hrows row Hrow) as (d' & Hd' & E' & Hsum).
      rewrite E' in Hk. simpl in Hk. apply str_inj in Hk. subst d'.
      exact Hsum.
    + rewrite fill_get_untouched by (now apply Forall_Exists_neg).
      unfold d0. rewrite get_map_pair by (apply in_map, In_range; lia).
      unfold sales_total.
      assert (F : filter (fun s => datetime.eqb (Sales.date s)
                                     (datetime.mkdate year month d))
                         (sales db) = []).
      { destruct (filter _ (sales db)) as [|s l] eqn:Ef; [reflexivity|].
        exfalso. apply NE.
        assert (Hs : In s (s :: l)) by now left.
        rewrite <- Ef in Hs. apply filter_In in Hs. destruct Hs as [Hs Hdate].
        apply date_eqb_eq in Hdate.
        apply Exists_exists.
        exists (datetime.mkdate year month d,
                part_sum datetime.eqb Sales.date Sales.total_price
                  (filter (fun s => (datetime.year (Sales.date s) =? year)
                             && (datetime.month (Sales.date s) =? month))
                          (sales db))
                  (datetime.mkdate year month d)).
        split; [|reflexivity].
        unfold rows, totals_by_date. rewrite group_totals_eq.
        apply in_map_iff. eexists. split; [reflexivity|].
        apply (In_distinct datetime.eqb date_eqb_eq).
        rewrite <- Hdate. apply in_map. apply filter_In. split; [exact Hs|].
        rewrite Hdate. simpl. now rewrite !Z.eqb_refl. }
      rewrite F. reflexivity.
Qed.

(** ** Yearly totals *)

Lemma month_abbr_index (m : Z) :
  1 <= m <= 12 -> py_index calendar.month_abbr m = Ok (month_name m).
Proof. intros Hm. month_cases m C; reflexivity. Qed.

Lemma month_name_inj (m m' : Z) :
  1 <= m <= 12 -> 1 <= m' <= 12 -> month_name m = month_name m' -> m = m'.
Proof.
  intros Hm Hm'. month_cases m C; month_cases m' C';
    intros E; solve [reflexivity | discriminate E].
Qed.

Lemma yearly_rows (year : Z) (db : Session) (row : Z * Q) :
  sales_dates_valid db ->
  In row (totals_by_month
            (fun s => datetime.year (Sales.date s) =? year) db) ->
  1 <= fst row <= 12
  /\ snd row
     = sales_total
         (fun s => (datetime.year (Sales.date s) =? year)
                   && (datetime.month (Sales.date s) =? fst row)) db.
Proof.
  intros Hv Hin. unfold totals_by_month in Hin.
  apply (In_group_totals Z.eqb Z.eqb_eq) in Hin.
  destruct Hin as [Hkey Hsum]. split.
  - apply in_map_iff in Hkey. destruct Hkey as (s & Hs & Hins).
    apply filter_In in Hins. destruct Hins as [Hins _].
    unfold sales_dates_valid in Hv. rewrite Forall_forall in Hv.
    apply Hv, valid_date_bounds in Hins. rewrite <- Hs. tauto.
  - rewrite Hsum. unfold part_sum, sales_total.
    now rewrite filter_filter_comm.
Qed.

Lemma yearly_run (year : Z) (db : Session) :
  1900 <= year <= 2100 -> sales_dates_valid db ->
  exists mt : pydict.t Q,
    get_yearly_sales year db
    = Ok (map (fun k => MonthTotal.mk k (lookup0 mt k))
              (map month_name (range 1 13)))
    /\ forall m,
        1 <= m <= 12 ->
        lookup0 mt (month_name m)
        = sales_total
            (fun s => (datetime.year (Sales.date s) =? year)
                      && (datetime.month (Sales.date s) =? m)) db.
Proof.
  intros Hy Hv. unfold get_yearly_sales.
  replace ((year <? 1900) || (year >? 2100)) with false
    by (symmetry; rewrite Z.gtb_ltb; apply orb_false_iff; split;
        apply Z.ltb_ge; lia).
  change (mapM (py_index calendar.month_abbr) (range 1 13))
    with (Ok (map month_name (range 1 13))).
  cbn [bind]. cbv zeta.
  set (names := map month_name (range 1 13)).
  set (rows := totals_by_month _ db).
  change (pydict.of_keys names 0%Q) with (map (fun k => (k, 0%Q)) names).
  set (d0 := map (fun k => (k, 0%Q)) names).
  assert (Hrows : forall row, In row rows ->
            1 <= fst row <= 12
            /\ snd row
               = sales_total
                   (fun s => (datetime.year (Sales.date s) =? year)
                             && (datetime.month (Sales.date s) =? fst row))
                   db).
  { intros row Hrow. now apply yearly_rows. }
  destruct (foldM_Ok
              (fun (mt : pydict.t Q) (row : Z * Q) =>
                 month_name <- py_index calendar.month_abbr (fst row) ;;
                 Ok (pydict.set month_name (snd row) mt))
              (fun mt row => pydict.set (month_name (fst row)) (snd row) mt)
              (fun _ => True) rows d0) as [Hf _]; auto.
  { intros mt row _ Hrow. destruct (Hrows row Hrow) as [Hm _].
    rewrite month_abbr_index by assumption. cbn [bind]. auto. }
  rewrite Hf. cbn [bind].
  change (fold_left _ rows d0)
    with (pydict.fill (fun row : Z * Q => month_name (fst row)) snd rows d0).
  set (mt := pydict.fill _ _ rows d0).
  assert (Hkeys : pydict.keys mt = names).
  { unfold mt. rewrite fill_keys; unfold d0; rewrite keys_map_pair; auto.
    apply Forall_forall. intros row Hrow.
    destruct (Hrows row Hrow) as [Hm _].
    unfold names. apply in_map, In_range. lia. }
  exists mt. split.
  - change (tl calendar.month_abbr) with names.
    apply mapM_Ok. apply Forall_forall. intros k Hk.
    rewrite getitem_lookup0 by (rewrite Hkeys; exact Hk). reflexivity.
  - intros m Hm. unfold lookup0, mt.
    destruct (Exists_dec
                (fun row : Z * Q => month_name (fst row) = month_name m) rows)
      as [E|NE].
    { intros row. apply string_dec. }
    + apply (fill_get_touched _ snd rows d0) in E.
      destruct E as (row & Hrow & Hk & Hg). rewrite Hg.
      destruct (Hrows row Hrow) as (Hm' & Hsum).
      apply month_name_inj in Hk; try assumption. rewrite <- Hk.
      exact Hsum.
    + rewrite fill_get_untouched by (now apply Forall_Exists_neg).
      unfold d0. rewrite get_map_pair
        by (unfold names; apply in_map, In_range; lia).
      unfold sales_total.
      destruct (filter _ (sales db)) as [|s l] eqn:Ef; [reflexivity|].
      exfalso. apply NE.
      assert (Hs : In s (s :: l)) by now left.
      rewrite <- Ef in Hs. apply filter_In in Hs. destruct Hs as [Hs Hkeep].
      apply andb_true_iff in Hkeep. destruct Hkeep as [Hyr Hmo].
      apply Z.eqb_eq in Hmo.
      apply Exists_exists.
      exists (m, part_sum Z.eqb (fun s => datetime.month (Sales.date s))
                   Sales.total_price
                   (filter (fun s => datetime.year (Sales.date s) =? year)
                           (sales db)) m).
      split; [|reflexivity].
      unfold rows, totals_by_month. rewrite group_totals_eq.
      apply in_map_iff. eexists. split; [reflexivity|].
      apply (In_distinct Z.eqb Z.eqb_eq).
      rewrite <- Hmo.
      apply (in_map (fun s => datetime.month (Sales.date s))).
      apply filter_In. split; assumption.
Qed.

(** ** Top products *)

Lemma group_key_eqb_eq (a b : Z * string) :
  group_key_eqb a b = true <-> a = b.
Proof.
  destruct a as [i s], b as [i' s']. unfold group_key_eqb. simpl.
  rewrite andb_true_iff, Z.eqb_eq, String.eqb_eq. split.
  - intros [-> ->]. reflexivity.
  - intros E. inversion E. auto.
Qed.

Lemma map_filter_comm {A B : Type} (f : A -> B) (p : B -> bool) (l : list A) :
  map f (filter (fun a => p (f a)) l) = filter p (map f l).
Proof.
  induction l as [|a l IH]; simpl; auto.
  destruct (p (f a)); simpl; now rewrite IH.
Qed.

(** A primary key selects exactly one row. *)
Lemma filter_pk (l : list Product.t) (pid : Z) :
  NoDup (map Product.id l) -> In pid (map Product.id l) ->
  exists p, filter (fun p => pid =? Product.id p) l = [p]
            /\ In p l /\ Product.id p = pid.
Proof.
  induction l as [|q l IH]; simpl; [tauto|].
  intros Hnd Hin. inversion Hnd as [|? ? Hq Hnd']; subst.
  destruct (Z.eqb_spec pid (Product.id q)) as [E|NE].
  - exists q. split; [|auto]. f_equal.
    destruct (filter _ l) as [|p' l'] eqn:Ef; [reflexivity|].
    exfalso. apply Hq.
    assert (Hp : In p' (p' :: l')) by now left.
    rewrite <- Ef in Hp. apply filter_In in Hp. destruct Hp as [Hp Hid].
    apply Z.eqb_eq in Hid. rewrite <- E, Hid. now apply in_map.
  - destruct IH as (p & Hf & Hp & Hid); auto.
    + destruct Hin; [congruence|assumption].
    + exists p. auto.
Qed.

(** Under the key constraints the join pairs every sale with its product. *)
Lemma join_rows (db : Session) :
  store_ok db ->
  map fst (sales_join_product db) = sales db
  /\ Forall (fun r => In (snd r) (products db)
                      /\ Product.id (snd r) = Sales.product_id (fst r))
            (sales_join_product db).
Proof.
  intros Hok. unfold sales_join_product.
  pose proof (sales_fk db Hok) as Hfk. pose proof (products_pk db Hok) as Hpk.
  induction (sales db) as [|s l IH]; simpl; [auto|].
  inversion Hfk as [|? ? Hs Hl]; subst.
  destruct (filter_pk (products db) (Sales.product_id s) Hpk Hs)
    as (p & Hf & Hp & Hid).
  rewrite Hf. simpl. destruct (IH Hl) as [IH1 IH2].
  split; [now f_equal|]. constructor; auto.
Qed.

Lemma pk_unique (db : Session) (p q : Product.t) :
  store_ok db -> In p (products db) -> In q (products db) ->
  Product.id p = Product.id q -> p = q.
Proof.
  intros Hok. pose proof (products_pk db Hok) as Hpk.
  induction (products db) as [|x l IH]; simpl; [tauto|].
  inversion Hpk as [|? ? Hx Hl]; subst.
  intros [->|Hp] [->|Hq] E; auto.
  - exfalso. apply Hx. rewrite E. now apply in_map.
  - exfalso. apply Hx. rewrite <- E. now apply in_map.
Qed.

(** The groups of the query are the groups of the products that have
    sales, one each. *)
Lemma top_groups (db : Session) :
  store_ok db ->
  let groups :=
    map (fun g =>
           TopProduct.mk
             (fst (fst g)) (snd (fst g))
             (Zsum (map (fun r => Sales.quantity (fst r)) (snd g)))
             (Qsum (map (fun r => Sales.total_price (fst r)) (snd g))))
        (group_by group_key_eqb
                  (fun r : Sales.t * Product.t =>
                     (Sales.product_id (fst r), Product.product_name (snd r)))
                  (sales_join_product db)) in
  NoDup (map TopProduct.product_id groups)
  /\ forall t, In t groups <->
               exists p, In p (products db) /\ has_sales db p
                         /\ t = product_group db p.
Proof.
  intros Hok. destruct (join_rows db Hok) as [Hfst Hrows].
  rewrite Forall_forall in Hrows.
  set (rows := sales_join_product db) in *.
  set (key := fun r : Sales.t * Product.t =>
                (Sales.product_id (fst r), Product.product_name (snd r))).
  assert (Hgroup : forall r, In r rows ->
            filter (fun r' => group_key_eqb (key r') (key r)) rows
            = filter (fun r' => Sales.product_id (fst r')
                                =? Product.id (snd r)) rows).
  { intros r Hr. apply filter_ext_in. intros r' Hr'.
    destruct (Hrows r Hr) as [Hp Hid], (Hrows r' Hr') as [Hp' Hid'].
    unfold group_key_eqb, key. simpl.
    destruct (Z.eqb_spec (Sales.product_id (fst r')) (Product.id (snd r)))
      as [E|NE].
    - assert (snd r' = snd r) as -> by (apply (pk_unique db); congruence).
      rewrite E, Hid, Z.eqb_refl, String.eqb_refl. reflexivity.
    - rewrite <- Hid.
      destruct (Z.eqb_spec (Sales.product_id (fst r')) (Product.id (snd r)));
        [contradiction | reflexivity]. }
  assert (Hentry : forall r, In r rows ->
            TopProduct.mk
              (fst (key r)) (snd (key r))
              (Zsum (map (fun r => Sales.quantity (fst r))
                       (filter (fun r' => group_key_eqb (key r') (key r)) rows)))
              (Qsum (map (fun r => Sales.total_price (fst r))
                       (filter (fun r' => group_key_eqb (key r') (key r)) rows)))
            = product_group db (snd r)).
  { intros r Hr. rewrite (Hgroup r Hr). unfold product_group.
    destruct (Hrows r Hr) as [Hp Hid]. unfold key. cbn [fst snd].
    assert (F : map fst (filter (fun r' : Sales.t * Product.t =>
                                   Sales.product_id (fst r')
                                   =? Product.id (snd r)) rows)
                = filter (fun s => Sales.product_id s =? Product.id (snd r))
                         (sales db)).
    { rewrite <- Hfst.
      apply (map_filter_comm fst
               (fun s => Sales.product_id s =? Product.id (snd r))). }
    rewrite <- F, !map_map, <- Hid. reflexivity. }
  cbv zeta. fold rows. fold key.
  assert (G : map (fun g : Z * string * list (Sales.t * Product.t) =>
                     TopProduct.mk
                       (fst (fst g)) (snd (fst g))
                       (Zsum (map (fun r => Sales.quantity (fst r)) (snd g)))
                       (Qsum (map (fun r => Sales.total_price (fst r))
                                  (snd g))))
                  (group_by group_key_eqb key rows)
              = map (fun k =>
                       TopProduct.mk
                         (fst k) (snd k)
                         (Zsum (map (fun r => Sales.quantity (fst r))
                                  (filter (fun r' => group_key_eqb (key r') k)
                                          rows)))
                         (Qsum (map (fun r => Sales.total_price (fst r))
                                  (filter (fun r' => group_key_eqb (key r') k)
                                          rows))))
                    (distinct group_key_eqb (map key rows))).
  { unfold group_by. now rewrite map_map. }
  rewrite G. clear G.
  pose proof (NoDup_distinct group_key_eqb group_key_eqb_eq (map key rows))
    as Hnd.
  assert (Hin : forall k, In k (distinct group_key_eqb (map key rows)) ->
                          exists r, In r rows /\ key r = k).
  { intros k Hk.
    apply (proj1 (In_distinct group_key_eqb group_key_eqb_eq _ _)) in Hk.
    apply in_map_iff in Hk. destruct Hk as (r & E & Hr). eauto. }
  split.
  - rewrite map_map. cbn [TopProduct.product_id].
    revert Hnd Hin. generalize (distinct group_key_eqb (map key rows)).
    intros ks Hnd Hin. induction Hnd as [|k ks Hk Hnd IH]; simpl; constructor.
    + rewrite in_map_iff. intros (k' & E & Hk'). apply Hk.
      destruct (Hin k (or_introl eq_refl)) as (r & Hr & <-).
      destruct (Hin k' (or_intror Hk')) as (r' & Hr' & <-).
      destruct (Hrows r Hr) as [Hp Hid], (Hrows r' Hr') as [Hp' Hid'].
      unfold key in E. simpl in E.
      assert (snd r' = snd r) as Es by (apply (pk_unique db); congruence).
      assert (key r = key r') as -> by (unfold key; now rewrite Es, E).
      exact Hk'.
    + apply IH. intros k' Hk'. apply Hin. now right.
  - intros t. rewrite in_map_iff. split.
    + intros (k & <- & Hk). destruct (Hin k Hk) as (r & Hr & <-).
      exists (snd r). destruct (Hrows r Hr) as [Hp Hid].
      split; [exact Hp|]. split.
      * exists (fst r). split; [|now rewrite Hid].
        rewrite <- Hfst. now apply in_map.
      * now apply Hentry.
    + intros (p & Hp & (s & Hs & Hsid) & ->).
      rewrite <- Hfst in Hs. apply in_map_iff in Hs.
      destruct Hs as (r & <- & Hr).
      destruct (Hrows r Hr) as [Hp' Hid].
      assert (snd r = p) as <- by (apply (pk_unique db); congruence).
      exists (key r). split; [now apply Hentry|].
      apply (In_distinct group_key_eqb group_key_eqb_eq). now apply in_map.
Qed.

(** ** Ordinals and day arithmetic *)

Lemma days_before_year_succ (y : Z) :
  datetime._days_before_year (y + 1)
  = datetime._days_before_year y + (if leap_year y then 366 else 365).
Proof.
  unfold datetime._days_before_year, leap_year. cbv zeta.
  replace (y + 1 - 1) with y by lia.
  destruct (Z.eqb_spec (y mod 4) 0), (Z.eqb_spec (y mod 100) 0),
    (Z.eqb_spec (y mod 400) 0); cbn [andb orb negb];
    Z.to_euclidean_division_equations; lia.
Qed.

Lemma days_before_month_1 (y : Z) : datetime._days_before_month y 1 = 0.
Proof. reflexivity. Qed.

Lemma days_before_month_succ (y m : Z) :
  1 <= m <= 11 ->
  datetime._days_before_month y (m + 1)
  = datetime._days_before_month y m + days_in_month y m.
Proof.
  intros Hm. unfold datetime._days_before_month, days_in_month.
  rewrite is_leap_leap_year.
  assert (C : m = 1 \/ m = 2 \/ m = 3 \/ m = 4 \/ m = 5 \/ m = 6 \/ m = 7
              \/ m = 8 \/ m = 9 \/ m = 10 \/ m = 11) by lia.
  repeat (destruct C as [C|C]); subst m; simpl;
    destruct (leap_year y); reflexivity.
Qed.

Lemma days_before_month_12 (y : Z) :
  datetime._days_before_month y 12 + 31
  = if leap_year y then 366 else 365.
Proof.
  unfold datetime._days_before_month. rewrite is_leap_leap_year. simpl.
  destruct (leap_year y); reflexivity.
Qed.

Lemma days_before_month_mono (y m m' : Z) :
  1 <= m -> m <= m' -> m' <= 12 ->
  datetime._days_before_month y m <= datetime._days_before_month y m'.
Proof.
  intros H1 H2 H3.
  replace m' with (m + Z.of_nat (Z.to_nat (m' - m))) by lia.
  assert (Hn : m + Z.of_nat (Z.to_nat (m' - m)) <= 12) by lia.
  induction (Z.to_nat (m' - m)) as [|n IH].
  - replace (m + Z.of_nat 0) with m by lia. lia.
  - replace (m + Z.of_nat (S n)) with (m + Z.of_nat n + 1) in * by lia.
    rewrite days_before_month_succ by lia.
    pose proof (days_in_month_bounds y (m + Z.of_nat n)). lia.
Qed.

Lemma days_before_year_mono (y y' : Z) :
  y <= y' -> datetime._days_before_year y <= datetime._days_before_year y'.
Proof.
  intros H.
  replace y' with (y + Z.of_nat (Z.to_nat (y' - y))) by lia.
  induction (Z.to_nat (y' - y)) as [|n IH].
  - replace (y + Z.of_nat 0) with y by lia. lia.
  - replace (y + Z.of_nat (S n)) with (y + Z.of_nat n + 1) by lia.
    rewrite days_before_year_succ.
    destruct (leap_year (y + Z.of_nat n)); lia.
Qed.

(** The day of the year of a date lies within the year. *)
Lemma day_of_year_bounds (d : datetime.date) :
  datetime.valid_date d ->
  1 <= datetime._days_before_month (datetime.year d) (datetime.month d)
       + datetime.day d
    <= if leap_year (datetime.year d) then 366 else 365.
Proof.
  intros Hv. apply valid_date_bounds in Hv.
  destruct Hv as (Hy & Hm & Hd).
  pose proof (days_before_month_mono (datetime.year d) 1 (datetime.month d)).
  rewrite days_before_month_1 in H. split; [lia|].
  rewrite <- days_before_month_12.
  destruct (Z.eq_dec (datetime.month d) 12) as [E|NE].
  - rewrite E in *. unfold days_in_month in Hd. simpl in Hd. lia.
  - pose proof (days_before_month_succ (datetime.year d) (datetime.month d)).
    pose proof (days_before_month_mono (datetime.year d)
                  (datetime.month d + 1) 12).
    lia.
Qed.

(** Dates are ordered as their ordinals are. *)
Lemma toordinal_lt (a b : datetime.date) :
  datetime.valid_date a -> datetime.valid_date b ->
  datetime.leb b a = false -> datetime.toordinal a < datetime.toordinal b.
Proof.
  intros Ha Hb Hlt.
  pose proof (day_of_year_bounds a Ha) as Da.
  pose proof (day_of_year_bounds b Hb) as Db.
  apply valid_date_bounds in Ha, Hb.
  destruct a as [ya ma da], b as [yb mb db].
  unfold datetime.leb in Hlt. unfold datetime.toordinal, datetime._ymd2ord.
  simpl in *.
  apply orb_false_iff in Hlt. destruct Hlt as [Hy Hrest].
  apply Z.ltb_ge in Hy.
  destruct (Z.eqb_spec yb ya) as [->|Hne]; simpl in Hrest.
  - apply orb_false_iff in Hrest. destruct Hrest as [Hm Hrest].
    apply Z.ltb_ge in Hm.
    destruct (Z.eqb_spec mb ma) as [->|Hmne]; simpl in Hrest.
    + apply Z.leb_gt in Hrest. lia.
    + pose proof (days_before_month_succ ya ma).
      pose proof (days_before_month_mono ya (ma + 1) mb). lia.
  - pose proof (days_before_year_succ ya).
    pose proof (days_before_year_mono (ya + 1) yb). lia.
Qed.

Lemma leb_antisym (a b : datetime.date) :
  datetime.leb a b = true -> datetime.leb b a = true -> a = b.
Proof.
  destruct a as [ya ma da], b as [yb mb db]. unfold datetime.leb. simpl.
  destruct (Z.ltb_spec ya yb), (Z.ltb_spec yb ya),
    (Z.eqb_spec ya yb), (Z.eqb_spec yb ya),
    (Z.ltb_spec ma mb), (Z.ltb_spec mb ma),
    (Z.eqb_spec ma mb), (Z.eqb_spec mb ma),
    (Z.leb_spec da db), (Z.leb_spec db da); simpl;
    try discriminate; try lia; intros _ _; f_equal; lia.
Qed.

Lemma leb_toordinal (a b : datetime.date) :
  datetime.valid_date a -> datetime.valid_date b ->
  datetime.leb a b = true <-> datetime.toordinal a <= datetime.toordinal b.
Proof.
  intros Ha Hb. split.
  - intros H. destruct (datetime.leb b a) eqn:E.
    + rewrite (leb_antisym a b H E). lia.
    + pose proof (toordinal_lt a b Ha Hb E). lia.
  - intros H. destruct (datetime.leb a b) eqn:E; [reflexivity|].
    pose proof (toordinal_lt b a Hb Ha E). lia.
Qed.

Lemma between_toordinal (x lo hi : datetime.date) :
  datetime.valid_date x -> datetime.valid_date lo -> datetime.valid_date hi ->
  datetime.between x lo hi = true
  <-> datetime.toordinal lo <= datetime.toordinal x <= datetime.toordinal hi.
Proof.
  intros Hx Hlo Hhi. unfold datetime.between.
  rewrite andb_true_iff, !leb_toordinal by assumption. tauto.
Qed.

Lemma toordinal_min : datetime.toordinal (datetime.mkdate 1 1 1) = 1.
Proof. reflexivity. Qed.

Lemma toordinal_max : datetime.toordinal (datetime.mkdate 9999 12 31) = 3652059.
Proof. reflexivity. Qed.

Lemma prev_day_spec (d : datetime.date) :
  datetime.valid_date d -> 2 <= datetime.toordinal d ->
  exists d', datetime.prev_day d = Some d'
             /\ datetime.valid_date d'
             /\ datetime.toordinal d' = datetime.toordinal d - 1.
Proof.
  intros Hv Hord. pose proof Hv as Hb. apply valid_date_bounds in Hb.
  destruct d as [y m dd]. simpl in Hb. destruct Hb as (Hy & Hm & Hd).
  unfold datetime.prev_day, datetime.MINYEAR. simpl.
  destruct (Z.ltb_spec 1 dd) as [H1|H1].
  - eexists. split; [reflexivity|]. split.
    + apply valid_date_bounds. simpl. lia.
    + unfold datetime.toordinal, datetime._ymd2ord. simpl. lia.
  - assert (dd = 1) by lia. subst dd.
    destruct (Z.ltb_spec 1 m) as [H2|H2].
    + eexists. split; [reflexivity|].
      rewrite days_in_month_datetime by lia.
      pose proof (days_in_month_bounds y (m - 1)).
      pose proof (days_before_month_succ y (m - 1)).
      replace (m - 1 + 1) with m in * by lia. split.
      * apply valid_date_bounds. simpl. lia.
      * unfold datetime.toordinal, datetime._ymd2ord. simpl. lia.
    + assert (m = 1) by lia. subst m.
      destruct (Z.ltb_spec 1 y) as [H3|H3].
      * eexists. split; [reflexivity|].
        pose proof (days_before_year_succ (y - 1)).
        pose proof (days_before_month_12 (y - 1)).
        replace (y - 1 + 1) with y in * by lia. split.
        -- apply valid_date_bounds. simpl. unfold days_in_month. simpl. lia.
        -- unfold datetime.toordinal, datetime._ymd2ord. simpl.
           rewrite days_before_month_1. lia.
      * assert (y = 1) by lia. subst y.
        rewrite toordinal_min in Hord. lia.
Qed.

Lemma next_day_spec (d : datetime.date) :
  datetime.valid_date d -> datetime.toordinal d < 3652059 ->
  exists d', datetime.next_day d = Some d'
             /\ datetime.valid_date d'
             /\ datetime.toordinal d' = datetime.toordinal d + 1.
Proof.
  intros Hv Hord. pose proof Hv as Hb. apply valid_date_bounds in Hb.
  destruct d as [y m dd]. simpl in Hb. destruct Hb as (Hy & Hm & Hd).
  unfold datetime.next_day, datetime.MAXYEAR. simpl.
  rewrite days_in_month_datetime by lia.
  destruct (Z.ltb_spec dd (days_in_month y m)) as [H1|H1].
  - eexists. split; [reflexivity|]. split.
    + apply valid_date_bounds. simpl. lia.
    + unfold datetime.toordinal, datetime._ymd2ord. simpl. lia.
  - assert (dd = days_in_month y m) by lia. subst dd.
    destruct (Z.ltb_spec m 12) as [H2|H2].
    + eexists. split; [reflexivity|].
      pose proof (days_in_month_bounds y (m + 1)).
      pose proof (days_before_month_succ y m). split.
      * apply valid_date_bounds. simpl. lia.
      * unfold datetime.toordinal, datetime._ymd2ord. simpl. lia.
    + assert (m = 12) by lia. subst m.
      assert (E : days_in_month y 12 = 31) by reflexivity.
      rewrite E in *.
      destruct (Z.ltb_spec y 9999) as [H3|H3].
      * eexists. split; [reflexivity|].
        pose proof (days_before_year_succ y).
        pose proof (days_before_month_12 y). split.
        -- apply valid_date_bounds. simpl. unfold days_in_month. simpl. lia.
        -- unfold datetime.toordinal, datetime._ymd2ord. simpl.
           rewrite days_before_month_1. lia.
      * assert (y = 9999) by lia. subst y.
        rewrite toordinal_max in Hord. lia.
Qed.

Lemma iter_next_day (n : nat) :
  forall d,
    datetime.valid_date d ->
    datetime.toordinal d + Z.of_nat n <= 3652059 ->
    exists d', datetime.iter_day datetime.next_day n d = Some d'
               /\ datetime.valid_date d'
               /\ datetime.toordinal d' = datetime.toordinal d + Z.of_nat n.
Proof.
  induction n as [|n IH]; intros d Hv Hord.
  - exists d. simpl. repeat split; auto. lia.
  - destruct (next_day_spec d Hv) as (d1 & H1 & Hv1 & Ho1); [lia|].
    destruct (IH d1 Hv1) as (d' & H' & Hv' & Ho'); [lia|].
    exists d'. cbn [datetime.iter_day]. rewrite H1.
    repeat split; auto. lia.
Qed.

Lemma iter_prev_day (n : nat) :
  forall d,
    datetime.valid_date d ->
    1 <= datetime.toordinal d - Z.of_nat n ->
    exists d', datetime.iter_day datetime.prev_day n d = Some d'
               /\ datetime.valid_date d'
               /\ datetime.toordinal d' = datetime.toordinal d - Z.of_nat n.
Proof.
  induction n as [|n IH]; intros d Hv Hord.
  - exists d. simpl. repeat split; auto. lia.
  - destruct (prev_day_spec d Hv) as (d1 & H1 & Hv1 & Ho1); [lia|].
    destruct (IH d1 Hv1) as (d' & H' & Hv' & Ho'); [lia|].
    exists d'. cbn [datetime.iter_day]. rewrite H1.
    repeat split; auto. lia.
Qed.

(** [d + timedelta(days=k)] is the date whose ordinal is [k] more, as long
    as that ordinal is one of a date. *)
Lemma add_days_spec (d : datetime.date) (k : Z) :
  datetime.valid_date d ->
  1 <= datetime.toordinal d + k <= 3652059 ->
  exists d', datetime.add_days d k = Ok d'
             /\ datetime.valid_date d'
             /\ datetime.toordinal d' = datetime.toordinal d + k.
Proof.
  intros Hv Hord. unfold datetime.add_days.
  destruct (Z.leb_spec 0 k) as [Hk|Hk].
  - destruct (iter_next_day (Z.to_nat k) d Hv) as (d' & H' & Hv' & Ho');
      [lia|].
    exists d'. rewrite H'. repeat split; auto. lia.
  - destruct (iter_prev_day (Z.to_nat (- k)) d Hv) as (d' & H' & Hv' & Ho');
      [lia|].
    exists d'. rewrite H'. repeat split; auto. lia.
Qed.

Lemma toordinal_inj (a b : datetime.date) :
  datetime.valid_date a -> datetime.valid_date b ->
  datetime.toordinal a = datetime.toordinal b -> a = b.
Proof.
  intros Ha Hb E. apply leb_antisym; apply leb_toordinal; auto; lia.
Qed.

(** ** Summary *)

Lemma or_0_sum (l : list Q) : (or_0 (sum_scalar l) == Qsum l)%Q.
Proof.
  destruct l as [|x l]; [reflexivity|].
  unfold sum_scalar, or_0.
  destruct (Qeq_bool (Qsum (x :: l)) 0) eqn:E; [|reflexivity].
  apply Qeq_bool_iff in E. now rewrite E.
Qed.

Lemma or_0_no_rows (keep : Sales.t -> bool) (db : Session) :
  filter keep (sales db) = [] -> or_0 (total_scalar keep db) = 0%Q.
Proof. intros H. unfold total_scalar. now rewrite H. Qed.

Lemma or_0_total (keep : Sales.t -> bool) (db : Session) :
  (or_0 (total_scalar keep db) == sales_total keep db)%Q.
Proof. unfold total_scalar, sales_total. apply or_0_sum. Qed.

(** The offset to the start of the week lands on the Sunday on or before
    the date. *)
Lemma week_start_offset (today start_of_week : datetime.date) :
  datetime.toordinal start_of_week
  = datetime.toordinal today
    - (if negb (datetime.weekday today =? 6)
       then datetime.weekday today + 1 else 0) ->
  is_sunday start_of_week
  /\ 0 <= datetime.days_between today start_of_week <= 6.
Proof.
  unfold is_sunday, datetime.days_between, datetime.weekday.
  generalize (datetime.toordinal today) (datetime.toordinal start_of_week).
  intros n s. destruct (Z.eqb_spec ((n + 6) mod 7) 6); cbn [negb];
    intros ->; Z.to_euclidean_division_equations; lia.
Qed.

(** The routes' date computations on a date whose week lies within the
    range of [date]. *)
Lemma summary_run (today : datetime.date) (db : Session) :
  datetime.valid_date today ->
  datetime.leb (datetime.mkdate 1 1 7) today = true ->
  datetime.leb today (datetime.mkdate 9999 12 25) = true ->
  exists start_of_week end_of_week,
    datetime.valid_date start_of_week
    /\ datetime.valid_date end_of_week
    /\ datetime.toordinal start_of_week
       = datetime.toordinal today
         - (if negb (datetime.weekday today =? 6)
            then datetime.weekday today + 1 else 0)
    /\ datetime.toordinal end_of_week = datetime.toordinal start_of_week + 6
    /\ (datetime.weekday today = 6 -> start_of_week = today)
    /\ get_sales_summary today db
       = Ok (Summary.mk
               (or_0 (total_scalar
                        (fun s => datetime.eqb (Sales.date s) today) db))
               (or_0 (total_scalar
                        (fun s => datetime.between (Sales.date s)
                                    start_of_week end_of_week) db))
               (or_0 (total_scalar
                        (fun s => datetime.between (Sales.date s)
                                    (datetime.mkdate (datetime.year today)
                                       (datetime.month today) 1)
                                    (datetime.mkdate (datetime.year today)
                                       (datetime.month today)
                                       (days_in_month (datetime.year today)
                                          (datetime.month today)))) db))
               (or_0 (total_scalar
                        (fun s => datetime.between (Sales.date s)
                                    (datetime.mkdate (datetime.year today) 1 1)
                                    (datetime.mkdate (datetime.year today)
                                       12 31)) db))).
Proof.
  intros Hv Hlo Hhi.
  apply leb_toordinal in Hlo; [|reflexivity|assumption].
  apply leb_toordinal in Hhi; [|assumption|reflexivity].
  change (datetime.toordinal (datetime.mkdate 1 1 7)) with 7 in Hlo.
  change (datetime.toordinal (datetime.mkdate 9999 12 25)) with 3652053 in Hhi.
  pose proof (weekday_range today) as Hw.
  set (k := if negb (datetime.weekday today =? 6)
            then datetime.weekday today + 1 else 0).
  assert (Hk : 0 <= k <= 6).
  { unfold k. destruct (Z.eqb_spec (datetime.weekday today) 6);
      cbn [negb]; lia. }
  destruct (add_days_spec today (- k) Hv) as (st & Hst & Hvst & Host); [lia|].
  destruct (add_days_spec st 6 Hvst) as (en & Hen & Hven & Hoen); [lia|].
  exists st, en.
  split; [exact Hvst|]. split; [exact Hven|].
  split; [fold k; lia|]. split; [exact Hoen|]. split.
  - intros H6. apply toordinal_inj; auto.
    unfold k in Host. rewrite H6 in Host. simpl in Host. lia.
  - pose proof Hv as Hb. apply valid_date_bounds in Hb.
    destruct Hb as (Hy & Hm & Hd).
    destruct (monthrange_ok (datetime.year today) (datetime.month today) Hm)
      as [w Hmr].
    pose proof (days_in_month_bounds (datetime.year today)
                  (datetime.month today)) as HN.
    unfold get_sales_summary. cbv zeta. fold k.
    unfold datetime.sub_days. rewrite Hst. cbn [bind].
    rewrite Hen. cbn [bind].
    unfold datetime.replace_day, datetime.replace_month_day, datetime.new.
    replace (datetime.valid_dateb (datetime.year today)
               (datetime.month today) 1) with true
      by (symmetry;
          apply (valid_date_bounds
                   (datetime.mkdate (datetime.year today)
                      (datetime.month today) 1)); simpl; lia).
    cbn [bind]. rewrite Hmr. cbn [bind snd].
    replace (datetime.valid_dateb (datetime.year today)
               (datetime.month today)
               (days_in_month (datetime.year today) (datetime.month today)))
      with true
      by (symmetry;
          apply (valid_date_bounds
                   (datetime.mkdate (datetime.year today)
                      (datetime.month today)
                      (days_in_month (datetime.year today)
                         (datetime.month today)))); simpl; lia).
    cbn [bind].
    replace (datetime.valid_dateb (datetime.year today) 1 1) with true
      by (symmetry;
          apply (valid_date_bounds
                   (datetime.mkdate (datetime.year today) 1 1));
          simpl; unfold days_in_month; simpl; lia).
    cbn [bind].
    replace (datetime.valid_dateb (datetime.year today) 12 31) with true
      by (symmetry;
          apply (valid_date_bounds
                   (datetime.mkdate (datetime.year today) 12 31));
          simpl; unfold days_in_month; simpl; lia).
    cbn [bind]. reflexivity.
Qed.

(** ** The store invariant *)

Lemma find_product_some (db : Session) (pid : Z) (p : Product.t) :
  find (fun p => Product.id p =? pid) (products db) = Some p ->
  In p (products db) /\ Product.id p = pid.
Proof.
  intros H. apply find_some in H. now rewrite Z.eqb_eq in H.
Qed.

Lemma find_product_none (db : Session) (pid : Z) :
  find (fun p => Product.id p =? pid) (products db) = None <->
  ~ In pid (map Product.id (products db)).
Proof.
  split.
  - intros H Hin. apply in_map_iff in Hin. destruct Hin as (p & E & Hp).
    pose proof (find_none _ _ H p Hp) as F. simpl in F.
    rewrite E, Z.eqb_refl in F. discriminate.
  - intros H. destruct (find _ (products db)) as [p|] eqn:E; [|reflexivity].
    exfalso. apply H. apply find_product_some in E. destruct E as [Hp <-].
    now apply in_map.
Qed.

Lemma find_sale_none (db : Session) (pid : Z) :
  find (fun s => Sales.product_id s =? pid) (sales db) = None <->
  ~ In pid (map Sales.product_id (sales db)).
Proof.
  split.
  - intros H Hin. apply in_map_iff in Hin. destruct Hin as (s & E & Hs).
    pose proof (find_none _ _ H s Hs) as F. simpl in F.
    rewrite E, Z.eqb_refl in F. discriminate.
  - intros H. destruct (find _ (sales db)) as [s|] eqn:E; [|reflexivity].
    exfalso. apply H. apply find_some in E. destruct E as [Hs E].
    apply Z.eqb_eq in E. rewrite <- E. now apply in_map.
Qed.

Lemma NoDup_snoc {A : Type} (l : list A) (a : A) :
  NoDup l -> ~ In a l -> NoDup (l ++ [a]).
Proof.
  intros Hl Ha. apply (Permutation_NoDup (l := a :: l)).
  - apply Permutation_cons_append.
  - now constructor.
Qed.

(** The outcomes of the two inserting routes. *)
Lemma create_product_outcome (product : ProductCreate.t) (db : Session) :
  (has_nul (ProductCreate.product_name product) = true
   /\ create_product product db
      = (Raise (ValueError
                  "A string literal cannot contain NUL (0x00) characters."),
         db))
  \/ (has_nul (ProductCreate.product_name product) = false
      /\ 2147483647 < products_id_seq db
      /\ create_product product db
         = (Raise (DataError "nextval: reached maximum value of sequence"),
            db))
  \/ (has_nul (ProductCreate.product_name product) = false
      /\ products_id_seq db <= 2147483647
      /\ create_product product db
         = (Ok (Product.mk (products_id_seq db)
                           (ProductCreate.product_name product)
                           (ProductCreate.price product)),
            mkSession
              (products db
               ++ [Product.mk (products_id_seq db)
                              (ProductCreate.product_name product)
                              (ProductCreate.price product)])
              (sales db) (products_id_seq db + 1) (sales_id_seq db))).
Proof.
  unfold create_product. cbv zeta.
  destruct (has_nul (ProductCreate.product_name product)); [now left|].
  right. destruct (Z.leb_spec (products_id_seq db) 2147483647);
    cbn [negb]; [right|left]; auto.
Qed.

Lemma create_sale_outcome (sale : SalesCreate.t) (db : Session) :
  In (SalesCreate.product_id sale) (map Product.id (products db)) ->
  (has_nul (SalesCreate.name sale) = true
   /\ create_sale sale db
      = (Raise (ValueError
                  "A string literal cannot contain NUL (0x00) characters."),
         db))
  \/ (has_nul (SalesCreate.name sale) = false
      /\ int4 (SalesCreate.product_id sale)
         && int4 (SalesCreate.quantity sale) = false
      /\ create_sale sale db = (Raise (DataError "integer out of range"), db))
  \/ (has_nul (SalesCreate.name sale) = false
      /\ int4 (SalesCreate.product_id sale)
         && int4 (SalesCreate.quantity sale) = true
      /\ 2147483647 < sales_id_seq db
      /\ create_sale sale db
         = (Raise (DataError "nextval: reached maximum value of sequence"),
            db))
  \/ (has_nul (SalesCreate.name sale) = false
      /\ int4 (SalesCreate.product_id sale)
         && int4 (SalesCreate.quantity sale) = true
      /\ sales_id_seq db <= 2147483647
      /\ create_sale sale db
         = (Ok (Sales.mk (sales_id_seq db) (SalesCreate.name sale)
                         (SalesCreate.product_id sale)
                         (SalesCreate.quantity sale)
                         (SalesCreate.total_price sale)
                         (SalesCreate.date sale)),
            mkSession
              (products db)
              (sales db
               ++ [Sales.mk (sales_id_seq db) (SalesCreate.name sale)
                            (SalesCreate.product_id sale)
                            (SalesCreate.quantity sale)
                            (SalesCreate.total_price sale)
                            (SalesCreate.date sale)])
              (products_id_seq db) (sales_id_seq db + 1))).
Proof.
  intros Hin. unfold create_sale. cbv zeta.
  destruct (find _ (products db)) as [p|] eqn:E.
  - destruct (has_nul (SalesCreate.name sale)); [now left|].
    right.
    destruct (int4 (SalesCreate.product_id sale)
              && int4 (SalesCreate.quantity sale)); cbn [negb];
      [|now left].
    right. destruct (Z.leb_spec (sales_id_seq db) 2147483647);
      cbn [negb]; [right|left]; auto.
  - apply find_product_none in E. contradiction.
Qed.

(** The three writing routes keep the constraints of the schema. *)
Lemma create_product_store_ok (product : ProductCreate.t) (db : Session) :
  store_ok db -> store_ok (snd (create_product product db)).
Proof.
  intros Hok.
  destruct (create_product_outcome product db)
    as [[_ E]|[(_ & _ & E)|(_ & _ & E)]]; rewrite E; [exact Hok..|].
  destruct Hok as [Hpk Hsk Hps Hss Hfk Hd].
  constructor; simpl; auto.
  - rewrite map_app. simpl. apply NoDup_snoc; [assumption|].
    intros Hin. apply in_map_iff in Hin.
    destruct Hin as (p & Ep & Hp). rewrite Forall_forall in Hps.
    specialize (Hps p Hp). lia.
  - apply Forall_app. split.
    + eapply Forall_impl; [|exact Hps]. simpl. intros; lia.
    + repeat constructor. simpl. lia.
  - eapply Forall_impl; [|exact Hfk]. simpl. intros s Hs.
    rewrite map_app. apply in_or_app. now left.
Qed.

Lemma create_sale_store_ok (sale : SalesCreate.t) (db : Session) :
  store_ok db -> datetime.valid_date (SalesCreate.date sale) ->
  store_ok (snd (create_sale sale db)).
Proof.
  intros Hok Hdate.
  destruct (in_dec Z.eq_dec (SalesCreate.product_id sale)
              (map Product.id (products db))) as [Hin|Hno].
  - destruct (create_sale_outcome sale db Hin)
      as [[_ E]|[(_ & _ & E)|[(_ & _ & _ & E)|(_ & _ & _ & E)]]];
      rewrite E; [exact Hok..|].
    destruct Hok as [Hpk Hsk Hps Hss Hfk Hd].
    constructor; simpl; auto.
    + rewrite map_app. simpl. apply NoDup_snoc; [assumption|].
      intros Hi. apply in_map_iff in Hi.
      destruct Hi as (s & Es & Hs). rewrite Forall_forall in Hss.
      specialize (Hss s Hs). lia.
    + apply Forall_app. split.
      * eapply Forall_impl; [|exact Hss]. simpl. intros; lia.
      * repeat constructor. simpl. lia.
    + apply Forall_app. split; [assumption|].
      repeat constructor. simpl. exact Hin.
    + unfold sales_dates_valid in *. simpl. apply Forall_app.
      split; [assumption|]. now repeat constructor.
  - unfold create_sale. apply find_product_none in Hno. rewrite Hno.
    exact Hok.
Qed.

Lemma delete_product_store_ok (product_id : Z) (db : Session) :
  store_ok db -> store_ok (snd (delete_product product_id db)).
Proof.
  intros Hok. unfold delete_product.
  destruct (find _ (products db)) as [p|] eqn:E; [|exact Hok].
  apply find_product_some in E. destruct E as [Hp Hid].
  destruct (find _ (sales db)) as [s|] eqn:Es; [exact Hok|].
  apply find_sale_none in Es.
  destruct Hok as [Hpk Hsk Hps Hss Hfk Hd].
  constructor; simpl; auto.
  - clear - Hpk. induction (products db) as [|q l IH]; simpl; [constructor|].
    inversion Hpk as [|? ? Hq Hl]; subst.
    destruct (negb (Product.id q =? Product.id p)); simpl; auto.
    constructor; auto. intros Hin. apply Hq.
    apply in_map_iff in Hin. destruct Hin as (x & Ex & Hx).
    apply filter_In in Hx. rewrite <- Ex. apply in_map. tauto.
  - apply Forall_forall. intros q Hq. apply filter_In in Hq.
    rewrite Forall_forall in Hps. apply Hps. tauto.
  - rewrite Forall_forall in *. intros s Hs. specialize (Hfk s Hs).
    apply in_map_iff in Hfk. destruct Hfk as (q & Eq & Hq).
    rewrite <- Eq. apply in_map. apply filter_In. split; [assumption|].
    apply negb_true_iff, Z.eqb_neq. intros Heq. apply Es.
    rewrite <- Hid, <- Heq, Eq. now apply in_map.
Qed.

Lemma filter_none {A : Type} (f : A -> bool) (l : list A) :
  Forall (fun x => f x = false) l -> filter f l = [].
Proof.
  induction 1 as [|x l Hx _ IH]; simpl; [reflexivity|].
  now rewrite Hx.
Qed.

Lemma toordinal_range (d : datetime.date) :
  datetime.valid_date d -> 1 <= datetime.toordinal d <= 3652059.
Proof.
  intros Hv. pose proof Hv as Hb. apply valid_date_bounds in Hb.
  destruct Hb as (Hy & Hm & Hd).
  pose proof (days_in_month_bounds (datetime.year d) (datetime.month d)).
  assert (Hd' : 1 <= datetime.day d <= 31) by lia.
  rewrite <- toordinal_min, <- toordinal_max. split.
  - apply leb_toordinal; [reflexivity|assumption|].
    destruct d as [y m dd]. unfold datetime.leb.
    cbn [datetime.year datetime.month datetime.day] in *.
    destruct (Z.ltb_spec 1 y), (Z.eqb_spec 1 y), (Z.ltb_spec 1 m),
      (Z.eqb_spec 1 m), (Z.leb_spec 1 dd); simpl; try reflexivity; lia.
  - apply leb_toordinal; [assumption|reflexivity|].
    destruct d as [y m dd]. unfold datetime.leb.
    cbn [datetime.year datetime.month datetime.day] in *.
    destruct (Z.ltb_spec y 9999), (Z.eqb_spec y 9999), (Z.ltb_spec m 12),
      (Z.eqb_spec m 12), (Z.leb_spec dd 31); simpl; try reflexivity; lia.
Qed.

Lemma weekday_abbr_index (d : datetime.date) (i : Z) :
  0 <= i <= 6 ->
  String.eqb (weekday_abbr d) (nth (Z.to_nat i) ordered_days "")
  = (datetime.weekday d =? (i + 6) mod 7).
Proof.
  intros Hi. unfold weekday_abbr. pose proof (weekday_range d) as Hw.
  revert Hw. generalize (datetime.weekday d). intros w Hw.
  assert (Cw : w = 0 \/ w = 1 \/ w = 2 \/ w = 3 \/ w = 4 \/ w = 5 \/ w = 6)
    by lia.
  assert (Ci : i = 0 \/ i = 1 \/ i = 2 \/ i = 3 \/ i = 4 \/ i = 5 \/ i = 6)
    by lia.
  repeat (destruct Cw as [Cw|Cw]); subst w;
    repeat (destruct Ci as [Ci|Ci]); subst i; reflexivity.
Qed.

(** The [i]-th day of a full week: the date [i] days after the start is
    the one date of the week that falls on the weekday of bucket [i]. *)
Lemma week_day (start_date end_date : datetime.date) (i : Z) :
  full_week start_date end_date ->
  datetime.valid_date start_date ->
  datetime.valid_date end_date ->
  0 <= i <= 6 ->
  exists d,
    datetime.add_days start_date i = Ok d
    /\ datetime.valid_date d
    /\ datetime.between d start_date end_date = true
    /\ forall x,
        datetime.valid_date x ->
        datetime.between x start_date end_date
        && String.eqb (weekday_abbr x) (nth (Z.to_nat i) ordered_days "")
        = datetime.eqb x d.
Proof.
  intros (Hsun & Hsat & Hspan) Hvs Hve Hi.
  unfold datetime.days_between in Hspan.
  pose proof (toordinal_range start_date Hvs) as Rs.
  pose proof (toordinal_range end_date Hve) as Re.
  destruct (add_days_spec start_date i Hvs) as (d & Hd & Hvd & Hod); [lia|].
  exists d. split; [exact Hd|]. split; [exact Hvd|]. split.
  { apply between_toordinal; auto. lia. }
  intros x Hx. rewrite weekday_abbr_index by assumption.
  apply Bool.eq_iff_eq_true.
  rewrite andb_true_iff, between_toordinal, Z.eqb_eq, date_eqb_eq
    by assumption.
  unfold is_sunday, datetime.weekday in *. split.
  - intros [Hr Hwd]. apply toordinal_inj; auto. rewrite Hod.
    revert Hr Hwd Hsun Hspan.
    generalize (datetime.toordinal x) (datetime.toordinal start_date)
               (datetime.toordinal end_date).
    intros n a b Hr Hwd Hsun Hspan.
    Z.to_euclidean_division_equations. lia.
  - intros ->. rewrite Hod. revert Hsun Hspan.
    generalize (datetime.toordinal start_date)
               (datetime.toordinal end_date).
    intros a b Hsun Hspan. split; [lia|].
    Z.to_euclidean_division_equations. lia.
Qed.

(* ------------------------------------------------------------------ *)
(** * The claims of the specification *)

(** ** Product and sales routes *)

(** C1, as the specification states it, fails: [create_product] given the
    empty name and the price 0 on the empty store does not fail with a
    ValidationError; it answers with the new product and persists it. *)
Lemma create_product_accepts_empty_name_and_zero_price :
  ProductCreate.product_name (ProductCreate.mk "" 0) = ""
  /\ (ProductCreate.price (ProductCreate.mk "" 0) <= 0)%Q
  /\ create_product (ProductCreate.mk "" 0) Examples.empty
     = (Ok (Product.mk 1 "" 0), mkSession [Product.mk 1 "" 0] [] 2 1)
  /\ http_status (fst (create_product (ProductCreate.mk "" 0) Examples.empty))
     = 200
  /\ products (snd (create_product (ProductCreate.mk "" 0) Examples.empty))
     <> products Examples.empty.
Proof.
  split; [reflexivity|]. split; [discriminate|]. split; [reflexivity|].
  split; [reflexivity|]. discriminate.
Qed.

(** C1, amended: [create_product] validates neither that the name is
    non-empty nor that the price is positive. For every price and every name
    without a NUL character, the empty name and non-positive prices
    included, it persists a product with the given name and price under the
    next id of the store, as long as that id fits the id column, returns it
    and leaves the sales alone; in a store that meets its constraints the id
    is new. It never fails with a ValidationError: it fails only where the
    store cannot hold a value (a name with a NUL character, an exhausted id
    sequence), with a server error and nothing stored. *)
Theorem create_product_persists_unvalidated
        (product : ProductCreate.t) (db : Session) :
  (has_nul (ProductCreate.product_name product) = false ->
   products_id_seq db <= 2147483647 ->
   let new_product :=
     Product.mk (products_id_seq db) (ProductCreate.product_name product)
                (ProductCreate.price product) in
   fst (create_product product db) = Ok new_product
   /\ products (snd (create_product product db))
      = products db ++ [new_product]
   /\ In new_product (get_products (snd (create_product product db)))
   /\ sales (snd (create_product product db)) = sales db
   /\ (store_ok db ->
       ~ In (Product.id new_product) (map Product.id (products db))))
  /\ (has_nul (ProductCreate.product_name product) = true ->
      create_product product db
      = (Raise (ValueError
                  "A string literal cannot contain NUL (0x00) characters."),
         db))
  /\ (has_nul (ProductCreate.product_name product) = false ->
      2147483647 < products_id_seq db ->
      create_product product db
      = (Raise (DataError "nextval: reached maximum value of sequence"), db))
  /\ ~ is_ValidationError (fst (create_product product db))
  /\ http_status (fst (create_product product db)) <> 400
  /\ (forall e, fst (create_product product db) = Raise e ->
                snd (create_product product db) = db).
Proof.
  destruct (create_product_outcome product db)
    as [[N E]|[(N & S & E)|(N & S & E)]]; rewrite E; cbn [fst snd].
  - split; [intros H; congruence|]. split; [reflexivity|].
    split; [intros H; congruence|].
    split; [intros [detail H]; discriminate H|].
    split; [discriminate|reflexivity].
  - split; [intros _ H; lia|]. split; [intros H; congruence|].
    split; [reflexivity|].
    split; [intros [detail H]; discriminate H|].
    split; [discriminate|reflexivity].
  - split.
    + intros _ _. cbv zeta. unfold get_products. cbn [products sales].
      split; [reflexivity|]. split; [reflexivity|].
      split; [apply in_or_app; right; now left|]. split; [reflexivity|].
      intros Hok Hin. apply in_map_iff in Hin.
      destruct Hin as (q & Eq & Hq).
      pose proof (products_seq db Hok) as Hseq.
      rewrite Forall_forall in Hseq. specialize (Hseq q Hq).
      cbn [Product.id] in Eq. lia.
    + split; [intros H; congruence|]. split; [intros _ H; lia|].
      split; [intros [detail H]; discriminate H|].
      split; [discriminate|]. intros e H. discriminate H.
Qed.

Lemma create_product_persists_unvalidated_witness :
  fst (create_product (ProductCreate.mk "" (-5 # 1)) Examples.two_products)
  = Ok (Product.mk 3 "" (-5 # 1))
  /\ create_product
       (ProductCreate.mk (String Ascii.zero "Milk") 50) Examples.two_products
     = (Raise (ValueError
                 "A string literal cannot contain NUL (0x00) characters."),
        Examples.two_products).
Proof.
  split.
  - apply (proj1 (create_product_persists_unvalidated
                    (ProductCreate.mk "" (-5 # 1)) Examples.two_products)).
    + reflexivity.
    + simpl. lia.
  - apply (proj1 (proj2 (create_product_persists_unvalidated
                           (ProductCreate.mk (String Ascii.zero "Milk") 50)
                           Examples.two_products))).
    reflexivity.
Defined.

(** C6: [delete_product] fails with NotFound (404) when no product has the
    id; fails with the Conflict response (400, "Cannot delete: Product is
    used in sales records") when a product has the id and a sale references
    it, leaving the store as it was, the product still listed; and otherwise
    removes exactly the product with that id, keeps every other product and
    all sales, and answers with the success message. *)
Theorem delete_product_cases (product_id : Z) (db : Session) :
  (~ In product_id (map Product.id (products db)) ->
   delete_product product_id db
   = (Raise (HTTPException 404 "Product not found"), db)
   /\ is_NotFound (fst (delete_product product_id db)))
  /\ (In product_id (map Product.id (products db)) ->
      In product_id (map Sales.product_id (sales db)) ->
      delete_product product_id db
      = (Raise (HTTPException 400
                  "Cannot delete: Product is used in sales records"), db)
      /\ In product_id
            (map Product.id
                 (get_products (snd (delete_product product_id db)))))
  /\ (In product_id (map Product.id (products db)) ->
      ~ In product_id (map Sales.product_id (sales db)) ->
      fst (delete_product product_id db) = Ok "Product deleted successfully"
      /\ ~ In product_id
             (map Product.id
                  (get_products (snd (delete_product product_id db))))
      /\ (forall p,
             In p (get_products (snd (delete_product product_id db)))
             <-> In p (products db) /\ Product.id p <> product_id)
      /\ sales (snd (delete_product product_id db)) = sales db).
Proof.
  unfold delete_product, get_products. split; [|split].
  - intros Hno. apply find_product_none in Hno. rewrite Hno.
    split; [reflexivity|]. simpl. now eexists.
  - intros Hp Hs.
    destruct (find _ (products db)) as [p|] eqn:E.
    + destruct (find _ (sales db)) as [s|] eqn:Es.
      * split; [reflexivity|exact Hp].
      * apply find_sale_none in Es. contradiction.
    + apply find_product_none in E. contradiction.
  - intros Hp Hs.
    destruct (find _ (products db)) as [p|] eqn:E.
    + apply find_product_some in E. destruct E as [Hin Hid].
      apply find_sale_none in Hs. rewrite Hs. simpl.
      split; [reflexivity|]. rewrite Hid.
      assert (F : forall q,
                 In q (filter (fun q => negb (Product.id q =? product_id))
                              (products db))
                 <-> In q (products db) /\ Product.id q <> product_id).
      { intros q. rewrite filter_In, negb_true_iff, Z.eqb_neq. tauto. }
      split; [|split; [exact F|reflexivity]].
      intros H. apply in_map_iff in H. destruct H as (q & Eq & Hq).
      apply F in Hq. tauto.
    + apply find_product_none in E. contradiction.
Qed.

(** C7, as the specification states it, fails: [create_sale] for the
    existing product 1 with the quantity 2^31 does not persist the sale; the
    store refuses the value, the response is the generic server error and
    the store is as it was. *)
Lemma create_sale_quantity_out_of_range :
  In 1 (map Product.id (products Examples.dairy))
  /\ create_sale (SalesCreate.mk "bulk" 1 2147483648 Examples.sunday 100)
                 Examples.dairy
     = (Raise (DataError "integer out of range"), Examples.dairy)
  /\ http_status
       (fst (create_sale
               (SalesCreate.mk "bulk" 1 2147483648 Examples.sunday 100)
               Examples.dairy)) = 500
  /\ sales (snd (create_sale
                   (SalesCreate.mk "bulk" 1 2147483648 Examples.sunday 100)
                   Examples.dairy))
     = sales Examples.dairy.
Proof.
  split; [simpl; auto|]. repeat split; reflexivity.
Qed.

(** C7, amended: [create_sale] fails with NotFound (404) and leaves the
    store as it was, no sale added, when [product_id] is the id of no
    product. Otherwise, when the store can hold the values (a name without a
    NUL character, [product_id] and [quantity] within 32 bits, an id
    sequence not exhausted), it appends one sale whose id is the next value
    of the sales sequence (new to the table in a store that meets its
    constraints) and whose fields, [total_price] included, are the
    caller's, whatever the quantity and the price of the product; when the
    store cannot hold them the insert fails with a server error. Whenever
    the call fails, nothing is stored. *)
Theorem create_sale_cases (sale : SalesCreate.t) (db : Session) :
  (~ In (SalesCreate.product_id sale) (map Product.id (products db)) ->
   create_sale sale db = (Raise (HTTPException 404 "Product not found"), db)
   /\ is_NotFound (fst (create_sale sale db))
   /\ sales (snd (create_sale sale db)) = sales db)
  /\ (In (SalesCreate.product_id sale) (map Product.id (products db)) ->
      has_nul (SalesCreate.name sale) = false ->
      int4 (SalesCreate.product_id sale) && int4 (SalesCreate.quantity sale)
      = true ->
      sales_id_seq db <= 2147483647 ->
      let new_sale :=
        Sales.mk (sales_id_seq db) (SalesCreate.name sale)
                 (SalesCreate.product_id sale) (SalesCreate.quantity sale)
                 (SalesCreate.total_price sale) (SalesCreate.date sale) in
      fst (create_sale sale db) = Ok new_sale
      /\ Sales.total_price new_sale = SalesCreate.total_price sale
      /\ sales (snd (create_sale sale db)) = sales db ++ [new_sale]
      /\ products (snd (create_sale sale db)) = products db
      /\ (store_ok db -> ~ In (Sales.id new_sale) (map Sales.id (sales db))))
  /\ (In (SalesCreate.product_id sale) (map Product.id (products db)) ->
      has_nul (SalesCreate.name sale) = true ->
      fst (create_sale sale db)
      = Raise (ValueError
                 "A string literal cannot contain NUL (0x00) characters."))
  /\ (In (SalesCreate.product_id sale) (map Product.id (products db)) ->
      has_nul (SalesCreate.name sale) = false ->
      int4 (SalesCreate.product_id sale) && int4 (SalesCreate.quantity sale)
      = false ->
      fst (create_sale sale db) = Raise (DataError "integer out of range"))
  /\ (In (SalesCreate.product_id sale) (map Product.id (products db)) ->
      has_nul (SalesCreate.name sale) = false ->
      int4 (SalesCreate.product_id sale) && int4 (SalesCreate.quantity sale)
      = true ->
      2147483647 < sales_id_seq db ->
      fst (create_sale sale db)
      = Raise (DataError "nextval: reached maximum value of sequence"))
  /\ (forall e, fst (create_sale sale db) = Raise e ->
                snd (create_sale sale db) = db).
Proof.
  split.
  { intros Hno. unfold create_sale. apply find_product_none in Hno.
    rewrite Hno. split; [reflexivity|]. split; [|reflexivity].
    simpl. now eexists. }
  assert (F : forall e, fst (create_sale sale db) = Raise e ->
                        snd (create_sale sale db) = db).
  { intros e He.
    destruct (in_dec Z.eq_dec (SalesCreate.product_id sale)
                (map Product.id (products db))) as [Hin|Hno].
    - destruct (create_sale_outcome sale db Hin)
        as [[_ E]|[(_ & _ & E)|[(_ & _ & _ & E)|(_ & _ & _ & E)]]];
        rewrite E in *; try reflexivity. discriminate He.
    - unfold create_sale. apply find_product_none in Hno. now rewrite Hno. }
  split; [|split; [|split; [|split; [|exact F]]]]; intros Hin;
    destruct (create_sale_outcome sale db Hin)
      as [[N E]|[(N & R & E)|[(N & R & S & E)|(N & R & S & E)]]];
    rewrite E; cbn [fst snd]; try (intros; congruence); try (intros; lia).
  - intros _ _ _. cbv zeta. cbn [products sales].
    repeat split. intros Hok Hi.
    apply in_map_iff in Hi. destruct Hi as (s & Es & Hs).
    pose proof (sales_seq db Hok) as Hseq. rewrite Forall_forall in Hseq.
    specialize (Hseq s Hs). simpl in Es. lia.
Qed.

(** ** Weekly totals *)

(** C2: [get_weekly_sales] answers 400 with "Start date must be a Sunday"
    when the start is not a Sunday; with "End date must be a Saturday" when
    the start is a Sunday and the end is not a Saturday; and, when both
    weekdays are right and the dates are not 6 days apart, with a detail
    that begins "Dates must form a full week".  It fails with a
    ValidationError exactly when the dates are not a full Sunday-to-Saturday
    week and returns buckets exactly when they are. *)
Theorem weekly_totals_validation
        (start_date end_date : datetime.date) (db : Session) :
  (~ is_sunday start_date ->
   get_weekly_sales start_date end_date db
   = Raise (HTTPException 400 "Start date must be a Sunday"))
  /\ (is_sunday start_date -> ~ is_saturday end_date ->
      get_weekly_sales start_date end_date db
      = Raise (HTTPException 400 "End date must be a Saturday"))
  /\ (is_sunday start_date -> is_saturday end_date ->
      datetime.days_between end_date start_date <> 6 ->
      get_weekly_sales start_date end_date db
      = Raise (HTTPException 400
                 "Dates must form a full week (Sunday → Saturday)")
      /\ prefix "Dates must form a full week"
                "Dates must form a full week (Sunday → Saturday)" = true)
  /\ (is_ValidationError (get_weekly_sales start_date end_date db)
      <-> ~ full_week start_date end_date)
  /\ ((exists buckets, get_weekly_sales start_date end_date db = Ok buckets)
      <-> full_week start_date end_date).
Proof.
  assert (P1 : ~ is_sunday start_date ->
               get_weekly_sales start_date end_date db
               = Raise (HTTPException 400 "Start date must be a Sunday")).
  { intros H. unfold get_weekly_sales. rewrite is_sunday_iso in H.
    apply Z.eqb_neq in H. now rewrite H. }
  assert (P2 : is_sunday start_date -> ~ is_saturday end_date ->
               get_weekly_sales start_date end_date db
               = Raise (HTTPException 400 "End date must be a Saturday")).
  { intros Hs He. unfold get_weekly_sales.
    rewrite is_sunday_iso in Hs. rewrite is_saturday_iso in He.
    apply Z.eqb_neq in He. now rewrite Hs, He. }
  assert (P3 : is_sunday start_date -> is_saturday end_date ->
               datetime.days_between end_date start_date <> 6 ->
               get_weekly_sales start_date end_date db
               = Raise (HTTPException 400
                          "Dates must form a full week (Sunday → Saturday)")).
  { intros Hs He Hd. unfold get_weekly_sales.
    rewrite is_sunday_iso in Hs. rewrite is_saturday_iso in He.
    apply Z.eqb_neq in Hd. now rewrite Hs, He, Hd. }
  assert (P4 : full_week start_date end_date ->
               exists buckets,
                 get_weekly_sales start_date end_date db = Ok buckets).
  { intros Hw. destruct (weekly_run start_date end_date db Hw) as (wt & E & _).
    eauto. }
  assert (D : full_week start_date end_date
              \/ ~ full_week start_date end_date).
  { unfold full_week, is_sunday, is_saturday.
    destruct (Z.eq_dec (datetime.weekday start_date) 6),
      (Z.eq_dec (datetime.weekday end_date) 5),
      (Z.eq_dec (datetime.days_between end_date start_date) 6); tauto. }
  assert (P5 : ~ full_week start_date end_date ->
               is_ValidationError (get_weekly_sales start_date end_date db)).
  { intros Hn. unfold full_week, is_sunday, is_saturday in Hn.
    destruct (Z.eq_dec (datetime.weekday start_date) 6) as [Hs|Hs].
    - destruct (Z.eq_dec (datetime.weekday end_date) 5) as [He|He].
      + destruct (Z.eq_dec (datetime.days_between end_date start_date) 6)
          as [Hd|Hd]; [tauto|].
        rewrite P3 by assumption. now eexists.
      + rewrite P2 by assumption. now eexists.
    - rewrite P1 by assumption. now eexists. }
  split; [exact P1|]. split; [exact P2|].
  split; [intros Hs He Hd; split; [now apply P3 | reflexivity]|].
  split.
  - split; [|exact P5]. intros [detail E] Hw.
    destruct (P4 Hw) as [b Hb]. congruence.
  - split; [|exact P4]. intros [b Hb].
    destruct D as [Hw|Hn]; [exact Hw|].
    destruct (P5 Hn) as [detail E]. congruence.
Qed.

Lemma NoDup_ordered_days : NoDup ordered_days.
Proof.
  unfold ordered_days.
  repeat (constructor; [simpl; intuition discriminate|]). constructor.
Qed.




(** The example of the specification: 150 on the Sunday, 0 elsewhere. *)
Example weekly_totals_example :
  get_weekly_sales Examples.sunday Examples.saturday Examples.dairy
  = Ok [DayTotal.mk "Sun" 150; DayTotal.mk "Mon" 0; DayTotal.mk "Tue" 0;
        DayTotal.mk "Wed" 0; DayTotal.mk "Thu" 0; DayTotal.mk "Fri" 0;
        DayTotal.mk "Sat" 0].
Proof. reflexivity. Qed.

Lemma weekly_totals_validation_witness :
  get_weekly_sales Examples.wednesday Examples.saturday Examples.dairy
  = Raise (HTTPException 400 "Start date must be a Sunday")
  /\ get_weekly_sales Examples.sunday Examples.wednesday Examples.dairy
     = Raise (HTTPException 400 "End date must be a Saturday")
  /\ get_weekly_sales Examples.sunday Examples.next_saturday Examples.dairy
     = Raise (HTTPException 400
                "Dates must form a full week (Sunday → Saturday)")
  /\ exists buckets,
      get_weekly_sales Examples.sunday Examples.saturday Examples.dairy
      = Ok buckets.
Proof.
  split; [|split; [|split]].
  - apply (proj1 (weekly_totals_validation Examples.wednesday
Examples.saturday Examples.dairy)).
unfold is_sunday. discriminate.
- apply (proj1 (proj2 (weekly_totals_validation Examples.sunday
Examples.wednesday Examples.dairy))).
+ reflexivity.
+ unfold is_saturday. discriminate.
- apply (proj1 (proj2 (proj2 (weekly_totals_validation Examples.sunday
Examples.next_saturday Examples.dairy)))).
+ reflexivity.
+ reflexivity.
+ discriminate.
- apply (proj2 (proj2 (proj2 (proj2
(weekly_totals_validation Examples.sunday Examples.saturday
Examples.dairy))))).
unfold full_week, is_sunday, is_saturday. repeat split; reflexivity.
Defined.

(** ** Monthly totals *)

(** C4: for a month from 1 to 12 of any year, on every store whose dates
    are dates, [get_monthly_sales] returns exactly as many buckets as the
    month has days, leap years counted (29 for February 2024, 28 for
    February 2023), labelled "1", "2", ... in ascending numeric order; the
    bucket of day [d] holds the sum of [total_price] over the sales dated
    exactly year-month-[d], which is 0 when there is none. *)
Theorem monthly_totals_buckets (year month : Z) (db : Session) :
  1 <= month <= 12 ->
  sales_dates_valid db ->
  exists buckets,
    get_monthly_sales year month db = Ok buckets
    /\ Z.of_nat (List.length buckets) = days_in_month year month
    /\ map DayTotal.day buckets
       = map str (range 1 (days_in_month year month + 1))
    /\ (forall d,
           1 <= d <= days_in_month year month ->
           exists b,
             nth_error buckets (Z.to_nat (d - 1)) = Some b
             /\ DayTotal.day b = str d
             /\ DayTotal.total b
                = sales_total
                    (fun s => datetime.eqb (Sales.date s)
                                (datetime.mkdate year month d)) db
             /\ ((forall s, In s (sales db) ->
                            Sales.date s <> datetime.mkdate year month d) ->
                 DayTotal.total b = 0%Q))
    /\ days_in_month 2024 2 = 29
    /\ days_in_month 2023 2 = 28.
Proof.
  intros Hm Hv. destruct (monthly_run year month db Hm Hv) as (dt & E & Hd).
  pose proof (days_in_month_bounds year month) as HN.
  eexists. split; [exact E|]. split; [|split; [|split]].
  - rewrite !length_map. rewrite length_range by lia. lia.
  - rewrite map_map. cbn [DayTotal.day]. apply map_id.
  - intros d Hdr. exists (DayTotal.mk (str d) (lookup0 dt (str d))).
    split; [|split; [reflexivity|split]].
    + rewrite map_map. rewrite nth_error_map.
      replace (d - 1) with (d - 1 + 0) by lia.
      replace (Z.to_nat (d - 1 + 0)) with (Z.to_nat (d - 1)) by lia.
      rewrite nth_error_range by lia. reflexivity.
    + simpl. now apply Hd.
    + intros Hnone. simpl. rewrite Hd by assumption. unfold sales_total.
      destruct (filter _ (sales db)) as [|s l] eqn:Ef; [reflexivity|].
      exfalso. assert (Hs : In s (s :: l)) by now left.
      rewrite <- Ef in Hs. apply filter_In in Hs. destruct Hs as [Hs Hk].
      apply date_eqb_eq in Hk. exact (Hnone s Hs Hk).
  - split; reflexivity.
Qed.

Lemma monthly_totals_buckets_witness :
  (1 <= 2 <= 12 /\ sales_dates_valid Examples.two_products)
  /\ exists buckets,
      get_monthly_sales 2024 2 Examples.two_products = Ok buckets
      /\ Z.of_nat (List.length buckets) = 29.
Proof.
  assert (Hm : 1 <= 2 <= 12) by lia.
  assert (Hv : sales_dates_valid Examples.two_products).
  { unfold sales_dates_valid. repeat constructor. }
  split; [split; assumption|].
  destruct (monthly_totals_buckets 2024 2 Examples.two_products Hm Hv)
    as (b & E & L & _).
  exists b. split; [exact E|exact L].
Defined.

Example monthly_totals_february :
  (exists buckets, get_monthly_sales 2024 2 Examples.dairy = Ok buckets
                   /\ List.length buckets = 29%nat)
  /\ (exists buckets, get_monthly_sales 2023 2 Examples.dairy = Ok buckets
                      /\ List.length buckets = 28%nat).
Proof. split; eexists; split; reflexivity. Qed.

(** C10: for a month below 1 or above 12, [get_monthly_sales] returns no
    buckets and no 400 response: [calendar.monthrange] raises
    [IllegalMonthError], which no handler catches, so the response is the
    generic server error. *)
Theorem monthly_totals_illegal_month (year month : Z) (db : Session) :
  month < 1 \/ 12 < month ->
  get_monthly_sales year month db = Raise (IllegalMonthError month)
  /\ (forall buckets, get_monthly_sales year month db <> Ok buckets)
  /\ ~ is_ValidationError (get_monthly_sales year month db)
  /\ http_status (get_monthly_sales year month db) = 500.
Proof.
  intros Hm. unfold get_monthly_sales.
  rewrite monthrange_illegal by lia. cbn [bind].
  split; [reflexivity|]. split; [discriminate|].
  split; [|reflexivity]. intros [detail H]. discriminate H.
Qed.

Lemma monthly_totals_illegal_month_witness :
  (13 < 1 \/ 12 < 13)
  /\ get_monthly_sales 2024 13 Examples.dairy = Raise (IllegalMonthError 13)
  /\ http_status (get_monthly_sales 2024 13 Examples.dairy) = 500.
Proof.
  assert (H : 13 < 1 \/ 12 < 13) by (right; lia).
  split; [exact H|].
  destruct (monthly_totals_illegal_month 2024 13 Examples.dairy H)
    as (E & _ & _ & S).
  split; [exact E|exact S].
Defined.

(** ** Yearly totals *)

(** C5: [get_yearly_sales] fails with the ValidationError "Invalid year"
    exactly when the year is below 1900 or above 2100, so 1899 and 2101 are
    rejected and 1900 and 2100 accepted; an accepted year is answered with
    twelve buckets named Jan to Dec in calendar order, the bucket of a
    month holding the sum of [total_price] over the sales of that month of
    the year, which is 0 for a month without sales. *)
Theorem yearly_totals_validation (year : Z) (db : Session) :
  sales_dates_valid db ->
  (is_ValidationError (get_yearly_sales year db)
   <-> year < 1900 \/ year > 2100)
  /\ (year < 1900 \/ year > 2100 ->
      get_yearly_sales year db = Raise (HTTPException 400 "Invalid year"))
  /\ (1900 <= year <= 2100 ->
      exists buckets,
        get_yearly_sales year db = Ok buckets
        /\ map MonthTotal.month buckets
           = ["Jan"; "Feb"; "Mar"; "Apr"; "May"; "Jun"; "Jul"; "Aug"; "Sep";
              "Oct"; "Nov"; "Dec"]
        /\ forall m,
            1 <= m <= 12 ->
            exists b,
              nth_error buckets (Z.to_nat (m - 1)) = Some b
              /\ MonthTotal.month b = month_name m
              /\ MonthTotal.total b
                 = sales_total
                     (fun s => (datetime.year (Sales.date s) =? year)
                               && (datetime.month (Sales.date s) =? m)) db
              /\ ((forall s, In s (sales db) ->
                             datetime.year (Sales.date s) = year ->
                             datetime.month (Sales.date s) <> m) ->
                  MonthTotal.total b = 0%Q)).
Proof.
  intros Hv.
  assert (R : year < 1900 \/ year > 2100 ->
              get_yearly_sales year db
              = Raise (HTTPException 400 "Invalid year")).
  { intros H. unfold get_yearly_sales.
    replace ((year <? 1900) || (year >? 2100)) with true; [reflexivity|].
    symmetry. rewrite Z.gtb_ltb. apply orb_true_iff. rewrite !Z.ltb_lt. lia. }
  assert (A : 1900 <= year <= 2100 ->
              exists mt : pydict.t Q,
                get_yearly_sales year db
                = Ok (map (fun k => MonthTotal.mk k (lookup0 mt k))
                          (map month_name (range 1 13)))
                /\ forall m,
                    1 <= m <= 12 ->
                    lookup0 mt (month_name m)
                    = sales_total
                        (fun s => (datetime.year (Sales.date s) =? year)
                                  && (datetime.month (Sales.date s) =? m)) db).
  { intros Hy. now apply yearly_run. }
  split; [|split; [exact R|]].
  - split.
    + intros [detail E].
      destruct (Z.lt_ge_cases year 1900) as [|H1]; [lia|].
      destruct (Z.lt_ge_cases 2100 year) as [|H2]; [lia|].
      destruct A as (mt & E' & _); [lia|]. congruence.
    + intros H. rewrite R by assumption. now eexists.
  - intros Hy. destruct (A Hy) as (mt & E & Hm).
    eexists. split; [exact E|]. split; [now rewrite map_map|].
    intros m Hmr.
    exists (MonthTotal.mk (month_name m) (lookup0 mt (month_name m))).
    split; [|split; [reflexivity|split]].
    * rewrite map_map, nth_error_map.
      rewrite nth_error_range by lia. reflexivity.
    * simpl. now apply Hm.
    * intros Hnone. simpl. rewrite Hm by assumption. unfold sales_total.
      destruct (filter _ (sales db)) as [|s l] eqn:Ef; [reflexivity|].
      exfalso. assert (Hs : In s (s :: l)) by now left.
      rewrite <- Ef in Hs. apply filter_In in Hs. destruct Hs as [Hs Hk].
      apply andb_true_iff in Hk. rewrite !Z.eqb_eq in Hk.
      exact (Hnone s Hs (proj1 Hk) (proj2 Hk)).
Qed.

Lemma yearly_totals_validation_witness :
  sales_dates_valid Examples.two_products
  /\ get_yearly_sales 1899 Examples.two_products
     = Raise (HTTPException 400 "Invalid year")
  /\ get_yearly_sales 2101 Examples.two_products
     = Raise (HTTPException 400 "Invalid year")
  /\ (exists buckets, get_yearly_sales 1900 Examples.two_products = Ok buckets)
  /\ (exists buckets, get_yearly_sales 2100 Examples.two_products = Ok buckets).
Proof.
  assert (Hv : sales_dates_valid Examples.two_products).
  { unfold sales_dates_valid. repeat constructor. }
  split; [exact Hv|]. split; [|split; [|split]].
  - apply (proj1 (proj2 (yearly_totals_validation 1899 _ Hv))). lia.
  - apply (proj1 (proj2 (yearly_totals_validation 2101 _ Hv))). lia.
  - destruct (proj2 (proj2 (yearly_totals_validation 1900 _ Hv)))
      as (b & E & _); [lia|]. now exists b.
  - destruct (proj2 (proj2 (yearly_totals_validation 2100 _ Hv)))
      as (b & E & _); [lia|]. now exists b.
Defined.

Example yearly_totals_2024 :
  get_yearly_sales 2024 Examples.two_products
  = Ok [MonthTotal.mk "Jan" 0; MonthTotal.mk "Feb" (1 # 2);
        MonthTotal.mk "Mar" 0; MonthTotal.mk "Apr" 0; MonthTotal.mk "May" 0;
        MonthTotal.mk "Jun" 710; MonthTotal.mk "Jul" 0; MonthTotal.mk "Aug" 0;
        MonthTotal.mk "Sep" 0; MonthTotal.mk "Oct" 0; MonthTotal.mk "Nov" 0;
        MonthTotal.mk "Dec" 0].
Proof. reflexivity. Qed.

(** ** Summary *)

Lemma or_0_unmatched (keep : Sales.t -> bool) (db : Session) :
  (forall s, In s (sales db) -> keep s = false) ->
  or_0 (total_scalar keep db) = 0%Q.
Proof.
  intros H. apply or_0_no_rows.
  destruct (filter keep (sales db)) as [|s l] eqn:Ef; [reflexivity|].
  exfalso. assert (Hs : In s (s :: l)) by now left.
  rewrite <- Ef in Hs. apply filter_In in Hs. destruct Hs as [Hs Hk].
  rewrite (H s Hs) in Hk. discriminate.
Qed.

(** C8: for every current date whose week lies within the range of [date]
    (7 January of year 1 to 25 December of year 9999),
    [get_sales_summary] succeeds; its week component is the sum of
    [total_price] over the sales dated from [start_of_week] to
    [end_of_week], two dates of the calendar, where [start_of_week] is a
    Sunday, is the date itself on a Sunday and otherwise lies [weekday + 1]
    days, the days since the last Sunday, before the date, so it is the
    most recent Sunday on or before the date (the only Sunday among the
    seven days that end with the date), and [end_of_week] is the Saturday 6
    days after it; the date lies in that range.  The today, month and year
    components are the sums over the date, over the first to the last day
    of its month and over 1 January to 31 December of its year.  A
    component with no matching sale is 0. *)
Theorem summary_week_and_zero (today : datetime.date) (db : Session) :
  datetime.valid_date today ->
  datetime.leb (datetime.mkdate 1 1 7) today = true ->
  datetime.leb today (datetime.mkdate 9999 12 25) = true ->
  exists start_of_week end_of_week r,
    get_sales_summary today db = Ok r
    /\ datetime.valid_date start_of_week
    /\ datetime.valid_date end_of_week
    /\ is_sunday start_of_week
    /\ is_saturday end_of_week
    /\ datetime.days_between end_of_week start_of_week = 6
    /\ datetime.between today start_of_week end_of_week = true
    /\ 0 <= datetime.days_between today start_of_week <= 6
    /\ (forall d, datetime.valid_date d -> is_sunday d ->
                  0 <= datetime.days_between today d <= 6 ->
                  d = start_of_week)
    /\ (is_sunday today -> start_of_week = today)
    /\ (~ is_sunday today ->
        datetime.days_between today start_of_week
        = datetime.weekday today + 1)
    /\ (Summary.week r
        == sales_total
             (fun s => datetime.between (Sales.date s)
                         start_of_week end_of_week) db)%Q
    /\ (Summary.today r
        == sales_total (fun s => datetime.eqb (Sales.date s) today) db)%Q
    /\ (Summary.month r
        == sales_total
             (fun s => datetime.between (Sales.date s)
                         (datetime.mkdate (datetime.year today)
                            (datetime.month today) 1)
                         (datetime.mkdate (datetime.year today)
                            (datetime.month today)
                            (days_in_month (datetime.year today)
                               (datetime.month today)))) db)%Q
    /\ (Summary.year r
        == sales_total
             (fun s => datetime.between (Sales.date s)
                         (datetime.mkdate (datetime.year today) 1 1)
                         (datetime.mkdate (datetime.year today) 12 31)) db)%Q
    /\ ((forall s, In s (sales db) ->
                   datetime.eqb (Sales.date s) today = false) ->
        Summary.today r = 0%Q)
    /\ ((forall s, In s (sales db) ->
                   datetime.between (Sales.date s)
                     start_of_week end_of_week = false) ->
        Summary.week r = 0%Q)
    /\ ((forall s, In s (sales db) ->
                   datetime.between (Sales.date s)
                     (datetime.mkdate (datetime.year today)
                        (datetime.month today) 1)
                     (datetime.mkdate (datetime.year today)
                        (datetime.month today)
                        (days_in_month (datetime.year today)
                           (datetime.month today))) = false) ->
        Summary.month r = 0%Q)
    /\ ((forall s, In s (sales db) ->
                   datetime.between (Sales.date s)
                     (datetime.mkdate (datetime.year today) 1 1)
                     (datetime.mkdate (datetime.year today) 12 31) = false) ->
        Summary.year r = 0%Q).
Proof.
  intros Hv Hlo Hhi.
  destruct (summary_run today db Hv Hlo Hhi)
    as (st & en & Hvst & Hven & Host & Hoen & Hsun & E).
  destruct (week_start_offset today st Host) as [Hs Hr].
  exists st, en. eexists. split; [exact E|]. cbn [Summary.today Summary.week
    Summary.month Summary.year].
  split; [exact Hvst|]. split; [exact Hven|].
  split; [exact Hs|]. split.
  { unfold is_sunday, is_saturday, datetime.weekday in *. rewrite Hoen.
    revert Hs. generalize (datetime.toordinal st). intros n Hn.
    Z.to_euclidean_division_equations. lia. }
  split; [unfold datetime.days_between; lia|]. split.
  { apply between_toordinal; auto. unfold datetime.days_between in Hr. lia. }
  split; [exact Hr|]. split.
  { intros d Hvd Hsd Hrd. apply toordinal_inj; auto.
    unfold is_sunday, datetime.weekday, datetime.days_between in *.
    revert Hs Hr Hsd Hrd.
    generalize (datetime.toordinal st) (datetime.toordinal d)
               (datetime.toordinal today).
    intros a b c Hs Hr Hsd Hrd. Z.to_euclidean_division_equations. lia. }
  split; [exact Hsun|]. split.
  { intros Hns. unfold is_sunday in Hns. unfold datetime.days_between.
    rewrite Host. apply Z.eqb_neq in Hns. rewrite Hns. cbn [negb]. lia. }
  repeat split; try apply or_0_total; apply or_0_unmatched.
Qed.

Lemma summary_week_and_zero_witness :
  (datetime.valid_date Examples.wednesday
   /\ datetime.leb (datetime.mkdate 1 1 7) Examples.wednesday = true
   /\ datetime.leb Examples.wednesday (datetime.mkdate 9999 12 25) = true)
  /\ exists start_of_week end_of_week r,
      get_sales_summary Examples.wednesday Examples.two_products = Ok r
      /\ datetime.valid_date start_of_week
      /\ datetime.valid_date end_of_week
      /\ is_sunday start_of_week
      /\ datetime.days_between end_of_week start_of_week = 6
      /\ datetime.between Examples.wednesday start_of_week end_of_week = true.
Proof.
  assert (H1 : datetime.valid_date Examples.wednesday) by reflexivity.
  assert (H2 : datetime.leb (datetime.mkdate 1 1 7) Examples.wednesday = true)
    by reflexivity.
  assert (H3 : datetime.leb Examples.wednesday (datetime.mkdate 9999 12 25)
               = true) by reflexivity.
  split; [repeat split; assumption|].
  destruct (summary_week_and_zero Examples.wednesday Examples.two_products
              H1 H2 H3)
    as (st & en & r & E & V1 & V2 & Hs & _ & Hd & Hb & _).
  exists st, en, r.
  split; [exact E|]. split; [exact V1|]. split; [exact V2|].
  split; [exact Hs|]. split; [exact Hd|exact Hb].
Defined.

(** The bounds on the date are the exact ones: a day earlier or later the
    week leaves the range of [date] and the subtraction or the addition
    overflows. *)
Example summary_outside_date_range :
  get_sales_summary (datetime.mkdate 1 1 6) Examples.empty
  = Raise (OverflowError "date value out of range")
  /\ get_sales_summary (datetime.mkdate 9999 12 26) Examples.empty
     = Raise (OverflowError "date value out of range")
  /\ get_sales_summary (datetime.mkdate 1 1 7) Examples.empty
     = Ok (Summary.mk 0 0 0 0)
  /\ get_sales_summary (datetime.mkdate 9999 12 25) Examples.empty
     = Ok (Summary.mk 0 0 0 0).
Proof. repeat split; reflexivity. Qed.

Example summary_wednesday :
  get_sales_summary Examples.wednesday Examples.two_products
  = Ok (Summary.mk 300 710 710 (1421 # 2))
  /\ get_sales_summary Examples.wednesday Examples.empty
     = Ok (Summary.mk 0 0 0 0).
Proof. split; reflexivity. Qed.

(** ** Top products *)

Lemma Sorted_weaken {A : Type} (R R' : A -> A -> Prop) (l : list A) :
  (forall a b, R a b -> R' a b) -> Sorted R l -> Sorted R' l.
Proof.
  intros HR. induction 1 as [|x l Hs IH Hd]; constructor; auto.
  destruct Hd; constructor; auto.
Qed.

Lemma two_products_ok : store_ok Examples.two_products.
Proof.
  constructor; simpl.
  - repeat (constructor; [simpl; intuition discriminate|]). constructor.
  - repeat (constructor; [simpl; intuition discriminate|]). constructor.
  - repeat constructor.
  - repeat constructor.
  - repeat (constructor; [simpl; tauto|]). constructor.
  - unfold sales_dates_valid. repeat constructor.
Qed.

(** C9, as the specification states it, fails for a limit below 0 and for
    a limit of 2^63 or more: [get_top_products] with limit -1, on a store
    that meets its constraints, returns no list at all, so none of at most
    -1 entries, and with limit 2^63 none either; the store rejects the
    query and the response is the generic server error. *)
Lemma top_products_negative_limit :
  store_ok Examples.two_products
  /\ get_top_products Examples.two_products (-1)
     = Raise (DataError "LIMIT must not be negative")
  /\ (forall tops, get_top_products Examples.two_products (-1) <> Ok tops)
  /\ http_status (get_top_products Examples.two_products (-1)) = 500
  /\ get_top_products Examples.two_products 9223372036854775808
     = Raise (DataError "bigint out of range").
Proof.
  split; [exact two_products_ok|]. split; [reflexivity|].
  split; [discriminate|]. split; reflexivity.
Qed.

(** C9, amended: for every store that meets the constraints of its schema
    and every limit from 0 to 2^63 - 1, [get_top_products] returns the
    first [limit] entries, so at most [limit], of a ranking that lists
    exactly the groups of the products with sales, one per product, each
    with the product's id and name and the sums of [quantity] and
    [total_price] over its sales, in descending order of
    [total_quantity]. Called without a limit it is the call with limit
    5. *)
Theorem top_products_ranking (db : Session) (limit : Z) :
  store_ok db ->
  0 <= limit <= 9223372036854775807 ->
  exists ranking,
    get_top_products db limit = Ok (firstn (Z.to_nat limit) ranking)
    /\ Z.of_nat (List.length (firstn (Z.to_nat limit) ranking)) <= limit
    /\ StronglySorted quantity_desc ranking
    /\ NoDup (map TopProduct.product_id ranking)
    /\ (forall t,
           In t ranking
           <-> exists p, In p (products db) /\ has_sales db p
                         /\ t = product_group db p)
    /\ get_top_products_default db = get_top_products db 5.
Proof.
  intros Hok Hl. destruct (top_groups db Hok) as [Hnd Hin].
  unfold get_top_products_default, default_limit, get_top_products.
  cbv zeta.
  set (groups := map _ (group_by _ _ (sales_join_product db))) in *.
  set (le := fun a b : TopProduct.t =>
               TopProduct.total_quantity b <=? TopProduct.total_quantity a).
  exists (stable_sort le groups).
  unfold sql_limit.
  replace (int8 limit) with true
    by (symmetry; unfold int8; apply andb_true_iff; split;
        apply Z.leb_le; lia).
  replace (limit <? 0) with false by (symmetry; apply Z.ltb_ge; lia).
  cbn [negb].
  split; [reflexivity|]. split.
  { rewrite length_firstn. lia. }
  pose proof (stable_sort_perm le groups) as Hperm.
  split; [|split; [|split; [|reflexivity]]].
  - apply Sorted_StronglySorted.
    + intros a b c. unfold quantity_desc. lia.
    + apply (Sorted_weaken (fun a b => le a b = true)).
      * intros a b H. unfold le in H. unfold quantity_desc. lia.
      * apply stable_sort_Sorted. intros a b. unfold le. lia.
  - apply (Permutation_NoDup (l := map TopProduct.product_id groups));
      [|exact Hnd].
    apply Permutation_map. now apply Permutation_sym.
  - intros t. rewrite <- Hin. split; apply Permutation_in; auto.
    now apply Permutation_sym.
Qed.

Lemma top_products_ranking_witness :
  (store_ok Examples.two_products /\ 0 <= 1 <= 9223372036854775807)
  /\ exists ranking,
      get_top_products Examples.two_products 1
      = Ok (firstn (Z.to_nat 1) ranking)
      /\ Z.of_nat (List.length (firstn (Z.to_nat 1) ranking)) <= 1
      /\ StronglySorted quantity_desc ranking.
Proof.
  assert (H : 0 <= 1 <= 9223372036854775807) by lia.
  split; [split; [exact two_products_ok|exact H]|].
  destruct (top_products_ranking Examples.two_products 1 two_products_ok H)
    as (ranking & E & L & S & _).
  exists ranking. repeat split; assumption.
Defined.

(** With quantities 10 and 7 and limit 1 only the product with 10 is
    returned; the default limit returns both, 10 before 7. *)
Example top_products_limit_1 :
  map (fun t => (TopProduct.product_name t, TopProduct.total_quantity t))
      (match get_top_products Examples.two_products 1 with
       | Ok tops => tops
       | Raise _ => []
       end)
  = [("Milk 1L", 10)]
  /\ map (fun t => (TopProduct.product_name t, TopProduct.total_quantity t))
         (match get_top_products Examples.two_products default_limit with
          | Ok tops => tops
          | Raise _ => []
          end)
     = [("Milk 1L", 10); ("Curd", 7)].
Proof. split; reflexivity. Qed.

(** ** Witnesses of the write routes *)

Lemma delete_product_cases_witness :
  delete_product 9 Examples.two_products
  = (Raise (HTTPException 404 "Product not found"), Examples.two_products)
  /\ delete_product 1 Examples.two_products
     = (Raise (HTTPException 400
                 "Cannot delete: Product is used in sales records"),
Examples.two_products)
/\ fst (delete_product 1 (mkSession [Examples.milk; Examples.curd] [] 3 1))
= Ok "Product deleted successfully".
Proof.
  split; [|split].
  - apply (proj1 (delete_product_cases 9 Examples.two_products)).
    simpl. intuition discriminate.
  - apply (proj1 (proj2 (delete_product_cases 1 Examples.two_products)));
      simpl; auto.
  - apply (proj2 (proj2 (delete_product_cases 1
                           (mkSession [Examples.milk; Examples.curd] [] 3 1)))).
    + simpl. auto.
    + simpl. tauto.
Defined.

Lemma create_sale_cases_witness :
  create_sale (SalesCreate.mk "late" 9 2 Examples.sunday 100) Examples.dairy
  = (Raise (HTTPException 404 "Product not found"), Examples.dairy)
  /\ fst (create_sale (SalesCreate.mk "late" 1 2 Examples.sunday 999)
                      Examples.dairy)
     = Ok (Sales.mk 2 "late" 1 2 999 Examples.sunday)
  /\ fst (create_sale (SalesCreate.mk "late" 1 (-2147483649)
                                      Examples.sunday 999)
                      Examples.dairy)
     = Raise (DataError "integer out of range").
Proof.
  split; [|split].
  - apply (proj1 (create_sale_cases
                    (SalesCreate.mk "late" 9 2 Examples.sunday 100)
                    Examples.dairy)).
    simpl. intuition discriminate.
  - apply (proj1 (proj2 (create_sale_cases
                           (SalesCreate.mk "late" 1 2 Examples.sunday 999)
                           Examples.dairy))).
    + simpl. auto.
    + reflexivity.
    + reflexivity.
    + simpl. lia.
  - apply (proj1 (proj2 (proj2 (proj2
             (create_sale_cases
                (SalesCreate.mk "late" 1 (-2147483649) Examples.sunday 999)
                Examples.dairy))))).
    + simpl. auto.
    + reflexivity.
    + reflexivity.
Defined.

(** ** The standard-library model on known values *)

Example toordinal_known :
  datetime.toordinal (datetime.mkdate 1970 1 1) = 719163
  /\ datetime.toordinal Examples.sunday = 739039
  /\ datetime.toordinal (datetime.mkdate 2000 3 1) = 730180.
Proof. repeat split; reflexivity. Qed.

Example weekday_known :
  datetime.weekday Examples.sunday = 6
  /\ datetime.isoweekday Examples.sunday = 7
  /\ datetime.weekday Examples.saturday = 5
  /\ datetime.isoweekday Examples.saturday = 6
  /\ datetime.weekday (datetime.mkdate 1970 1 1) = 3.
Proof. repeat split; reflexivity. Qed.

Example monthrange_known :
  calendar.monthrange 2024 2 = Ok (3, 29)
  /\ calendar.monthrange 2023 2 = Ok (2, 28)
  /\ calendar.monthrange 1900 2 = Ok (3, 28)
  /\ calendar.monthrange 2000 2 = Ok (1, 29)
  /\ calendar.monthrange 2024 0 = Raise (IllegalMonthError 0).
Proof. repeat split; reflexivity. Qed.

Example timedelta_known :
  datetime.sub_days (datetime.mkdate 2024 3 2) 3
  = Ok (datetime.mkdate 2024 2 28)
  /\ datetime.add_days (datetime.mkdate 2023 12 30) 6
     = Ok (datetime.mkdate 2024 1 5)
  /\ datetime.sub_days (datetime.mkdate 1 1 1) 1
     = Raise (OverflowError "date value out of range").
Proof. repeat split; reflexivity. Qed.

Example str_int_known :
  str 29 = "29" /\ int "29" = Ok 29 /\ str 0 = "0"
  /\ sorted_key_int ["10"; "9"; "1"] = Ok ["1"; "9"; "10"].
Proof. repeat split; reflexivity. Qed.

(* ------------------------------------------------------------------ *)
(** * Further properties of the routes *)

(** ** The store under the write routes *)

(** X1: every store the write routes produce from an empty one meets the
    constraints of the schema; ids are unique and below their sequences,
    every stored date is a date, and every sale references a product that
    is still in the catalogue. *)
Theorem reachable_store_ok (db : Session) :
  reachable db ->
  store_ok db
  /\ forall s, In s (sales db) ->
               exists p, In p (products db)
                         /\ Product.id p = Sales.product_id s.
Proof.
  intros Hr.
  assert (Hok : store_ok db).
  { induction Hr as [ps ss|product db _ IH|sale db _ IH Hd|pid db _ IH].
    - constructor; simpl; try constructor.
    - now apply create_product_store_ok.
    - now apply create_sale_store_ok.
    - now apply delete_product_store_ok. }
  split; [exact Hok|]. intros s Hs.
  pose proof (sales_fk db Hok) as Hfk. rewrite Forall_forall in Hfk.
  specialize (Hfk s Hs). apply in_map_iff in Hfk.
  destruct Hfk as (p & E & Hp). eauto.
Qed.

Lemma reachable_store_ok_witness :
  reachable
    (snd (create_sale (SalesCreate.mk "counter" 1 3 Examples.sunday 150)
            (snd (create_product (ProductCreate.mk "Milk 1L" 50)
                    Examples.empty))))
  /\ store_ok
       (snd (create_sale (SalesCreate.mk "counter" 1 3 Examples.sunday 150)
               (snd (create_product (ProductCreate.mk "Milk 1L" 50)
                       Examples.empty)))).
Proof.
  assert (H : reachable
                (snd (create_sale
                        (SalesCreate.mk "counter" 1 3 Examples.sunday 150)
                        (snd (create_product (ProductCreate.mk "Milk 1L" 50)
                                Examples.empty))))).
  { apply reach_create_sale; [|reflexivity].
    apply reach_create_product. apply reach_empty. }
  split; [exact H|]. exact (proj1 (reachable_store_ok _ H)).
Defined.

Lemma find_app_last {A : Type} (f : A -> bool) (l : list A) (a : A) :
  Forall (fun x => f x = false) l -> f a = true ->
  find f (l ++ [a]) = Some a.
Proof.
  induction 1 as [|x l Hx _ IH]; intros Ha; simpl.
  - now rewrite Ha.
  - rewrite Hx. now apply IH.
Qed.

Lemma filter_all {A : Type} (f : A -> bool) (l : list A) :
  Forall (fun x => f x = true) l -> filter f l = l.
Proof.
  induction 1 as [|x l Hx _ IH]; simpl; [reflexivity|].
  now rewrite Hx, IH.
Qed.

(** X2: on a store that meets its constraints, whenever [create_product]
    succeeds, the product it returns has an id no product had before, and
    deleting it right away succeeds and gives back the catalogue and the
    sales as they were. *)
Theorem create_then_delete_product
        (product : ProductCreate.t) (db : Session) (p : Product.t) :
  store_ok db ->
  fst (create_product product db) = Ok p ->
  ~ In (Product.id p) (map Product.id (products db))
  /\ fst (delete_product (Product.id p) (snd (create_product product db)))
     = Ok "Product deleted successfully"
  /\ products (snd (delete_product (Product.id p)
                      (snd (create_product product db))))
     = products db
  /\ sales (snd (delete_product (Product.id p)
                   (snd (create_product product db))))
     = sales db.
Proof.
  intros Hok Hp. destruct Hok as [Hpk Hsk Hps Hss Hfk Hd].
  rewrite Forall_forall in Hps, Hfk.
  destruct (create_product_outcome product db)
    as [(_ & E)|[(_ & _ & E)|(_ & _ & E)]];
    rewrite E in *; cbn [fst snd] in *; try discriminate.
  injection Hp as <-. cbn [Product.id].
  assert (Hfresh : ~ In (products_id_seq db) (map Product.id (products db))).
  { intros Hin. apply in_map_iff in Hin. destruct Hin as (q & Eq & Hq).
    specialize (Hps q Hq). simpl in Hps. lia. }
  split; [exact Hfresh|].
  unfold delete_product. cbn [snd products sales].
  rewrite find_app_last.
  - assert (Hs : find (fun s => Sales.product_id s =? products_id_seq db)
                      (sales db) = None).
    { apply find_sale_none. intros Hin. apply Hfresh.
      apply in_map_iff in Hin. destruct Hin as (s & Es & Hs).
      rewrite <- Es. now apply Hfk. }
    rewrite Hs. cbn [fst snd products sales Product.id].
    split; [reflexivity|]. split; [|reflexivity].
    rewrite filter_app. simpl. rewrite Z.eqb_refl. simpl.
    rewrite app_nil_r. apply filter_all.
    apply Forall_forall. intros q Hq. specialize (Hps q Hq). simpl in Hps.
    apply negb_true_iff, Z.eqb_neq. lia.
  - apply Forall_forall. intros q Hq. specialize (Hps q Hq). simpl in Hps.
    apply Z.eqb_neq. lia.
  - simpl. apply Z.eqb_refl.
Qed.

Lemma create_then_delete_product_witness :
  (store_ok Examples.two_products
   /\ fst (create_product (ProductCreate.mk "Ghee" 600) Examples.two_products)
      = Ok (Product.mk 3 "Ghee" 600))
  /\ products
       (snd (delete_product 3
               (snd (create_product (ProductCreate.mk "Ghee" 600)
                       Examples.two_products))))
     = products Examples.two_products.
Proof.
  assert (H : fst (create_product (ProductCreate.mk "Ghee" 600)
                     Examples.two_products)
              = Ok (Product.mk 3 "Ghee" 600)) by reflexivity.
  split; [split; [exact two_products_ok|exact H]|].
  exact (proj1 (proj2 (proj2
           (create_then_delete_product (ProductCreate.mk "Ghee" 600)
              Examples.two_products (Product.mk 3 "Ghee" 600)
              two_products_ok H)))).
Defined.

(** X3: once [delete_product] has succeeded for an id, deleting the same id
    again fails with 404 "Product not found" and changes nothing. *)
Theorem delete_product_twice (product_id : Z) (db : Session) :
  fst (delete_product product_id db) = Ok "Product deleted successfully" ->
  delete_product product_id (snd (delete_product product_id db))
  = (Raise (HTTPException 404 "Product not found"),
     snd (delete_product product_id db)).
Proof.
  intros Hfirst.
  assert (E1 : exists p,
             Product.id p = product_id
             /\ delete_product product_id db
                = (Ok "Product deleted successfully",
                   mkSession
                     (filter (fun q => negb (Product.id q =? Product.id p))
                             (products db))
                     (sales db) (products_id_seq db) (sales_id_seq db))).
  { unfold delete_product in *.
    destruct (find _ (products db)) as [p|] eqn:E; [|discriminate].
    destruct (find _ (sales db)) as [s|] eqn:Es; [discriminate|].
    apply find_product_some in E. destruct E as [_ Hid]. eauto. }
  destruct E1 as (p & Hid & E1). rewrite E1. cbn [snd].
  unfold delete_product.
  assert (N : find (fun q => Product.id q =? product_id)
                   (products
                      (mkSession
                         (filter (fun q => negb (Product.id q =? Product.id p))
                                 (products db))
                         (sales db) (products_id_seq db) (sales_id_seq db)))
              = None).
  { apply find_product_none. cbn [products]. intros Hin.
    apply in_map_iff in Hin. destruct Hin as (q & Eq & Hq).
    apply filter_In in Hq. destruct Hq as [_ Hq].
    apply negb_true_iff, Z.eqb_neq in Hq. congruence. }
  rewrite N. reflexivity.
Qed.

Lemma delete_product_twice_witness :
  fst (delete_product 1 (mkSession [Examples.milk; Examples.curd] [] 3 1))
  = Ok "Product deleted successfully"
  /\ fst (delete_product 1
            (snd (delete_product 1
                    (mkSession [Examples.milk; Examples.curd] [] 3 1))))
     = Raise (HTTPException 404 "Product not found").
Proof.
  assert (H : fst (delete_product 1
                     (mkSession [Examples.milk; Examples.curd] [] 3 1))
              = Ok "Product deleted successfully") by reflexivity.
  split; [exact H|].
  rewrite (delete_product_twice 1
             (mkSession [Examples.milk; Examples.curd] [] 3 1) H).
  reflexivity.
Defined.

(** X4: a sale that [create_sale] has recorded protects its product:
    whenever [create_sale] succeeds, deleting right afterwards the product
    the sale names fails with 400 "Cannot delete: Product is used in sales
    records" and changes nothing. *)
Theorem create_sale_blocks_delete
        (sale : SalesCreate.t) (db : Session) (s : Sales.t) :
  fst (create_sale sale db) = Ok s ->
  Sales.product_id s = SalesCreate.product_id sale
  /\ In s (sales (snd (create_sale sale db)))
  /\ delete_product (SalesCreate.product_id sale) (snd (create_sale sale db))
     = (Raise (HTTPException 400
                 "Cannot delete: Product is used in sales records"),
        snd (create_sale sale db)).
Proof.
  intros Hs.
  assert (Hin : In (SalesCreate.product_id sale)
                   (map Product.id (products db))).
  { unfold create_sale in Hs.
    destruct (find _ (products db)) as [p|] eqn:E; [|discriminate].
    apply find_product_some in E. destruct E as [Hp Hid].
    rewrite <- Hid. now apply in_map. }
  destruct (create_sale_outcome sale db Hin)
    as [(_ & E)|[(_ & _ & E)|[(_ & _ & _ & E)|(_ & _ & _ & E)]]];
    rewrite E in *; cbn [fst snd] in *; try discriminate.
  injection Hs as <-. cbn [Sales.product_id sales].
  split; [reflexivity|]. split; [apply in_or_app; right; now left|].
  unfold delete_product. cbn [products sales].
  destruct (find _ (products db)) as [p|] eqn:Ep.
  - destruct (find _ (sales db ++ _)) as [s'|] eqn:Es; [reflexivity|].
    exfalso. pose proof (find_none _ _ Es) as F.
    specialize (F (Sales.mk (sales_id_seq db) (SalesCreate.name sale)
                            (SalesCreate.product_id sale)
                            (SalesCreate.quantity sale)
                            (SalesCreate.total_price sale)
                            (SalesCreate.date sale))).
    simpl in F. rewrite Z.eqb_refl in F.
    assert (H : false = true -> False) by discriminate.
    apply H. symmetry. apply F. apply in_or_app. right. now left.
  - apply find_product_none in Ep. contradiction.
Qed.

Lemma create_sale_blocks_delete_witness :
  fst (create_sale (SalesCreate.mk "late" 1 2 Examples.sunday 100)
         Examples.dairy)
  = Ok (Sales.mk 2 "late" 1 2 100 Examples.sunday)
  /\ fst (delete_product 1
            (snd (create_sale (SalesCreate.mk "late" 1 2 Examples.sunday 100)
                    Examples.dairy)))
     = Raise (HTTPException 400
                "Cannot delete: Product is used in sales records").
Proof.
  assert (H : fst (create_sale (SalesCreate.mk "late" 1 2 Examples.sunday 100)
                     Examples.dairy)
              = Ok (Sales.mk 2 "late" 1 2 100 Examples.sunday))
    by reflexivity.
  split; [exact H|].
  exact (f_equal fst
           (proj2 (proj2 (create_sale_blocks_delete
                     (SalesCreate.mk "late" 1 2 Examples.sunday 100)
                     Examples.dairy
                     (Sales.mk 2 "late" 1 2 100 Examples.sunday) H)))).
Defined.

(** ** The listing routes *)

Lemma leb_refl (a : datetime.date) : datetime.leb a a = true.
Proof.
  unfold datetime.leb. rewrite !Z.eqb_refl, Z.leb_refl.
  cbn [andb]. now rewrite !orb_true_r.
Qed.

Lemma leb_trans (a b c : datetime.date) :
  datetime.leb a b = true -> datetime.leb b c = true ->
  datetime.leb a c = true.
Proof.
  destruct a as [ya ma da], b as [yb mb db], c as [yc mc dc].
  unfold datetime.leb. simpl.
  destruct (Z.ltb_spec ya yb), (Z.eqb_spec ya yb), (Z.ltb_spec ma mb),
    (Z.eqb_spec ma mb), (Z.leb_spec da db); simpl; try discriminate;
    intros _;
    destruct (Z.ltb_spec yb yc), (Z.eqb_spec yb yc), (Z.ltb_spec mb mc),
      (Z.eqb_spec mb mc), (Z.leb_spec db dc); simpl; try discriminate;
    intros _;
    destruct (Z.ltb_spec ya yc), (Z.eqb_spec ya yc), (Z.ltb_spec ma mc),
      (Z.eqb_spec ma mc), (Z.leb_spec da dc); simpl; try reflexivity; lia.
Qed.

Lemma leb_total (a b : datetime.date) :
  datetime.leb a b = true \/ datetime.leb b a = true.
Proof.
  destruct (datetime.leb a b) eqn:E; [now left|right].
  destruct a as [ya ma da], b as [yb mb db]. unfold datetime.leb in *.
  simpl in *.
  destruct (Z.ltb_spec ya yb), (Z.eqb_spec ya yb), (Z.ltb_spec ma mb),
    (Z.eqb_spec ma mb), (Z.leb_spec da db); simpl in E; try discriminate;
    destruct (Z.ltb_spec yb ya), (Z.eqb_spec yb ya), (Z.ltb_spec mb ma),
      (Z.eqb_spec mb ma), (Z.leb_spec db da); simpl; try reflexivity; lia.
Qed.

Lemma between_same (x d : datetime.date) :
  datetime.between x d d = datetime.eqb x d.
Proof.
  unfold datetime.between.
  destruct (datetime.eqb x d) eqn:E.
  - apply date_eqb_eq in E. subst. now rewrite leb_refl.
  - destruct (datetime.leb d x) eqn:E1, (datetime.leb x d) eqn:E2;
      try reflexivity.
    rewrite (leb_antisym x d E2 E1) in E.
    assert (T : datetime.eqb d d = true) by now apply date_eqb_eq.
    congruence.
Qed.

Lemma In_join (db : Session) (r : Sales.t * Product.t) :
  In r (sales_join_product db)
  <-> In (fst r) (sales db) /\ In (snd r) (products db)
      /\ Product.id (snd r) = Sales.product_id (fst r).
Proof.
  unfold sales_join_product. rewrite in_flat_map. split.
  - intros (s & Hs & Hr). apply in_map_iff in Hr.
    destruct Hr as (p & <- & Hp). apply filter_In in Hp.
    destruct Hp as [Hp E]. apply Z.eqb_eq in E. simpl. auto.
  - intros (Hs & Hp & E). exists (fst r). split; [exact Hs|].
    apply in_map_iff. exists (snd r). split; [now destruct r|].
    apply filter_In. split; [exact Hp|]. apply Z.eqb_eq. auto.
Qed.

Lemma sale_of_row_join (r : Sales.t * Product.t) :
  sale_of_row (sales_price_row r) = fst r.
Proof. destruct r as [[] p]. reflexivity. Qed.

(** X5: on a store that meets its constraints, [GET /sales] without a date
    lists every sale exactly once, whatever the order of the rows, with its
    own fields, and each row carries the current price of the product the
    sale references. *)
Theorem get_sales_lists_every_sale (db : Session) :
  store_ok db ->
  Permutation (map sale_of_row (get_sales None db)) (sales db)
  /\ Forall (fun r =>
               exists p, In p (products db)
                         /\ Product.id p = SalesResponse.product_id r
                         /\ SalesResponse.price r = Product.price p)
            (get_sales None db).
Proof.
  intros Hok. destruct (join_rows db Hok) as [Hfst Hrows].
  unfold get_sales. cbv zeta. split.
  - rewrite map_map. rewrite <- Hfst.
    erewrite map_ext; [apply Permutation_refl|].
    intros r. apply sale_of_row_join.
  - apply Forall_forall. intros r Hr. apply in_map_iff in Hr.
    destruct Hr as (jr & <- & Hjr). rewrite Forall_forall in Hrows.
    destruct (Hrows jr Hjr) as [Hp Hid]. exists (snd jr). auto.
Qed.

Lemma get_sales_lists_every_sale_witness :
  store_ok Examples.two_products
  /\ Permutation (map sale_of_row (get_sales None Examples.two_products))
                 (sales Examples.two_products).
Proof.
  split; [exact two_products_ok|].
  exact (proj1 (get_sales_lists_every_sale Examples.two_products
                  two_products_ok)).
Defined.

(** X6: the listing joins, it does not look up: on any store a sale whose
    [product_id] is the id of no product appears in no listing, with or
    without a date, and every listed row names an existing product. *)
Theorem get_sales_drops_dangling_sales
        (date : option datetime.date) (db : Session) :
  (forall r, In r (get_sales date db) ->
             In (sale_of_row r) (sales db)
             /\ In (SalesResponse.product_id r)
                   (map Product.id (products db)))
  /\ (forall s, ~ In (Sales.product_id s) (map Product.id (products db)) ->
                ~ In s (map sale_of_row (get_sales date db))).
Proof.
  assert (G : forall r, In r (get_sales date db) ->
                        In (sale_of_row r) (sales db)
                        /\ In (SalesResponse.product_id r)
                              (map Product.id (products db))).
  { intros r Hr. unfold get_sales in Hr. cbv zeta in Hr.
    assert (Hj : exists jr, sales_price_row jr = r
                            /\ In jr (sales_join_product db)).
    { destruct date as [d|]; apply in_map_iff in Hr;
        destruct Hr as (jr & E & Hjr); exists jr; split; auto.
      apply filter_In in Hjr. tauto. }
    destruct Hj as (jr & <- & Hjr). apply In_join in Hjr.
    destruct Hjr as (Hs & Hp & E). rewrite sale_of_row_join.
    split; [exact Hs|]. simpl. rewrite <- E. now apply in_map. }
  split; [exact G|]. intros s Hno Hin. apply in_map_iff in Hin.
  destruct Hin as (r & <- & Hr). apply Hno. now apply G.
Qed.

(** X7: filtering [GET /sales] by a date keeps exactly the rows of that
    date, each as often as the unfiltered listing has it, and
    [GET /sales/by-date-range] from the date to itself has the same rows,
    whatever the order in which each listing comes. *)
Theorem get_sales_date_filter (d : datetime.date) (db : Session) :
  Permutation (get_sales (Some d) db)
              (filter (fun r => datetime.eqb (SalesResponse.date r) d)
                      (get_sales None db))
  /\ Permutation (get_sales_by_date_range d d db) (get_sales (Some d) db)
  /\ (forall r, In r (get_sales (Some d) db)
                <-> In r (get_sales None db) /\ SalesResponse.date r = d).
Proof.
  assert (E1 : get_sales (Some d) db
               = filter (fun r => datetime.eqb (SalesResponse.date r) d)
                        (get_sales None db)).
  { unfold get_sales. cbv zeta.
    exact (map_filter_comm sales_price_row
             (fun r => datetime.eqb (SalesResponse.date r) d)
             (sales_join_product db)). }
  split; [rewrite E1; apply Permutation_refl|]. split.
  - unfold get_sales, get_sales_by_date_range. cbv zeta.
    erewrite filter_ext; [apply Permutation_refl|].
    intros r. apply between_same.
  - intros r. rewrite E1, filter_In.
    split; intros [H1 H2]; (split; [exact H1|]); now apply date_eqb_eq.
Qed.

(** X8: [GET /sales/by-date-range] with an end date before the start date
    returns the empty list, whatever the store. *)
Theorem get_sales_by_date_range_reversed
        (start_date end_date : datetime.date) (db : Session) :
  datetime.leb start_date end_date = false ->
  get_sales_by_date_range start_date end_date db = [].
Proof.
  intros H. unfold get_sales_by_date_range. cbv zeta.
  rewrite filter_none; [reflexivity|].
  apply Forall_forall. intros r _. unfold datetime.between.
  destruct (datetime.leb start_date (Sales.date (fst r))) eqn:E1;
    [|reflexivity].
  destruct (datetime.leb (Sales.date (fst r)) end_date) eqn:E2;
    [|reflexivity].
  rewrite (leb_trans _ _ _ E1 E2) in H. discriminate.
Qed.

Lemma get_sales_by_date_range_reversed_witness :
  datetime.leb Examples.saturday Examples.sunday = false
  /\ get_sales_by_date_range Examples.saturday Examples.sunday
       Examples.two_products = [].
Proof.
  assert (H : datetime.leb Examples.saturday Examples.sunday = false)
    by reflexivity.
  split; [exact H|].
  exact (get_sales_by_date_range_reversed Examples.saturday Examples.sunday
           Examples.two_products H).
Defined.

Lemma Sorted_map {A B : Type} (f : A -> B) (R : B -> B -> Prop) (l : list A) :
  Sorted (fun a b => R (f a) (f b)) l -> Sorted R (map f l).
Proof.
  induction 1 as [|x l Hs IH Hd]; simpl; constructor; auto.
  destruct Hd; simpl; constructor; auto.
Qed.

(** X9: [GET /sales/by-year] returns the rows of [GET /sales] whose date is
    in the year, each as often as there, in ascending order of date. *)
Theorem get_sales_by_year_sorted (year : Z) (db : Session) :
  StronglySorted date_asc (get_sales_by_year year db)
  /\ Permutation
       (get_sales_by_year year db)
       (filter (fun r => datetime.year (SalesResponse.date r) =? year)
               (get_sales None db))
  /\ Forall (fun r => datetime.year (SalesResponse.date r) = year)
            (get_sales_by_year year db).
Proof.
  unfold get_sales_by_year, get_sales. cbv zeta.
  set (le := fun a b : Sales.t * Product.t =>
               datetime.leb (Sales.date (fst a)) (Sales.date (fst b))).
  set (rows := filter _ (sales_join_product db)).
  assert (P : Permutation
                (map sales_price_row (stable_sort le rows))
                (filter (fun r => datetime.year (SalesResponse.date r) =? year)
                        (map sales_price_row (sales_join_product db)))).
  { rewrite <- (map_filter_comm sales_price_row
                  (fun r => datetime.year (SalesResponse.date r) =? year)).
    apply Permutation_map. apply stable_sort_perm. }
  split; [|split; [exact P|]].
  - apply Sorted_StronglySorted.
    + intros a b c. unfold date_asc. apply leb_trans.
    + apply Sorted_map. apply stable_sort_Sorted.
      intros a b. unfold le. apply leb_total.
  - apply Forall_forall. intros r Hr.
    apply (Permutation_in _ P) in Hr. apply filter_In in Hr.
    now apply Z.eqb_eq.
Qed.

Lemma between_year (d : datetime.date) (y : Z) :
  datetime.valid_date d ->
  datetime.between d (datetime.mkdate y 1 1) (datetime.mkdate y 12 31)
  = (datetime.year d =? y).
Proof.
  intros Hv. apply valid_date_bounds in Hv. destruct Hv as (_ & Hm & Hd).
  pose proof (days_in_month_bounds (datetime.year d) (datetime.month d)).
  assert (Hd' : 1 <= datetime.day d <= 31) by lia. clear Hd H.
  destruct d as [yd md dd]. unfold datetime.between, datetime.leb.
  cbn [datetime.year datetime.month datetime.day] in *.
  destruct (Z.ltb_spec y yd), (Z.eqb_spec y yd), (Z.ltb_spec yd y),
    (Z.eqb_spec yd y), (Z.ltb_spec 1 md), (Z.eqb_spec 1 md),
    (Z.leb_spec 1 dd), (Z.ltb_spec md 12), (Z.eqb_spec md 12),
    (Z.leb_spec dd 31); simpl; try reflexivity; lia.
Qed.

Lemma between_month (d : datetime.date) (y m : Z) :
  datetime.valid_date d ->
  datetime.between d (datetime.mkdate y m 1)
                   (datetime.mkdate y m (days_in_month y m))
  = (datetime.year d =? y) && (datetime.month d =? m).
Proof.
  intros Hv. apply valid_date_bounds in Hv. destruct Hv as (_ & Hm & Hd).
  destruct d as [yd md dd]. unfold datetime.between, datetime.leb.
  cbn [datetime.year datetime.month datetime.day] in *.
  destruct (Z.eqb_spec yd y) as [->|Hy].
  - destruct (Z.eqb_spec md m) as [->|Hmo].
    + rewrite Z.ltb_irrefl, Z.eqb_refl. simpl.
      destruct (Z.leb_spec 1 dd), (Z.leb_spec dd (days_in_month y m));
        simpl; try reflexivity; lia.
    + rewrite Z.ltb_irrefl, Z.eqb_refl. simpl.
      destruct (Z.ltb_spec m md), (Z.eqb_spec m md), (Z.ltb_spec md m);
        simpl; try reflexivity; lia.
  - destruct (Z.ltb_spec y yd), (Z.eqb_spec y yd), (Z.ltb_spec yd y);
      simpl; try reflexivity; lia.
Qed.

Lemma In_join_sale (db : Session) (r : Sales.t * Product.t) :
  In r (sales_join_product db) -> In (fst r) (sales db).
Proof. intros H. now apply In_join in H. Qed.

(** X10: on a store whose dates are dates, [GET /sales/by-year] has the
    rows of [GET /sales/by-date-range] from 1 January to 31 December of the
    year, each as often as there. *)
Theorem get_sales_by_year_is_range (year : Z) (db : Session) :
  sales_dates_valid db ->
  Permutation
    (get_sales_by_year year db)
    (get_sales_by_date_range (datetime.mkdate year 1 1)
                             (datetime.mkdate year 12 31) db).
Proof.
  intros Hv. unfold get_sales_by_year, get_sales_by_date_range. cbv zeta.
  apply Permutation_map.
  rewrite stable_sort_perm.
  assert (E : filter (fun r : Sales.t * Product.t =>
                        datetime.year (Sales.date (fst r)) =? year)
                     (sales_join_product db)
              = filter (fun r : Sales.t * Product.t =>
                          datetime.between (Sales.date (fst r))
                            (datetime.mkdate year 1 1)
                            (datetime.mkdate year 12 31))
                       (sales_join_product db)).
  { apply filter_ext_in. intros r Hr. symmetry. apply between_year.
    unfold sales_dates_valid in Hv. rewrite Forall_forall in Hv.
    apply Hv. now apply In_join_sale. }
  rewrite E. reflexivity.
Qed.

Lemma get_sales_by_year_is_range_witness :
  sales_dates_valid Examples.two_products
  /\ Permutation
       (get_sales_by_year 2024 Examples.two_products)
       (get_sales_by_date_range (datetime.mkdate 2024 1 1)
                                (datetime.mkdate 2024 12 31)
                                Examples.two_products).
Proof.
  assert (Hv : sales_dates_valid Examples.two_products).
  { unfold sales_dates_valid. repeat constructor. }
  split; [exact Hv|].
  exact (get_sales_by_year_is_range 2024 Examples.two_products Hv).
Defined.

Example get_sales_by_year_example :
  map (fun r => (SalesResponse.id r, SalesResponse.price r))
      (get_sales_by_year 2024 Examples.two_products)
  = [(4, 50%Q); (1, 30%Q); (2, 50%Q); (3, 50%Q)]
  /\ get_sales_by_year 2023 Examples.two_products = [].
Proof. split; reflexivity. Qed.

(** ** Charts against listings and summary *)

Lemma listing_total (db : Session) (keep : Sales.t -> bool) :
  store_ok db ->
  map SalesResponse.total_price
      (map sales_price_row
           (filter (fun r => keep (fst r)) (sales_join_product db)))
  = map Sales.total_price (filter keep (sales db)).
Proof.
  intros Hok. destruct (join_rows db Hok) as [Hfst _].
  rewrite map_map. cbn [sales_price_row SalesResponse.total_price].
  rewrite <- (map_map fst Sales.total_price).
  rewrite (map_filter_comm fst keep). now rewrite Hfst.
Qed.

Lemma weekly_run_sum
      (start_date end_date : datetime.date) (db : Session) :
  full_week start_date end_date ->
  exists wt,
    get_weekly_sales start_date end_date db
    = Ok (map (fun k => DayTotal.mk k (lookup0 wt k)) ordered_days)
    /\ (forall k,
           (lookup0 wt k
            == sales_total
                 (fun s => datetime.between (Sales.date s) start_date end_date
                           && String.eqb (weekday_abbr (Sales.date s)) k)
                 db)%Q)
    /\ (Qsum (map (lookup0 wt) ordered_days)
        == sales_total
             (fun s => datetime.between (Sales.date s) start_date end_date)
             db)%Q.
Proof.
  intros Hw. destruct (weekly_run start_date end_date db Hw) as (wt & E & Hv).
  exists wt. split; [exact E|]. split; [exact Hv|].
  rewrite (Qsum_map_ext (lookup0 wt)
             (part_sum String.eqb (fun s => weekday_abbr (Sales.date s))
                Sales.total_price
                (filter (fun s => datetime.between (Sales.date s)
                                    start_date end_date) (sales db)))).
  - apply (partition_sum String.eqb String.eqb_eq).
    + exact NoDup_ordered_days.
    + apply Forall_forall. intros s _.
      apply (weekday_name_abbr (Sales.date s)).
  - apply Forall_forall. intros k _. rewrite Hv.
    unfold part_sum, sales_total. rewrite filter_filter_comm. reflexivity.
Qed.

(** X12: for a full week, on a store whose dates are dates, the bucket at
    position [i] of the weekly chart (0 for Sun to 6 for Sat) holds the sum
    of [total_price] over the sales dated exactly [i] days after the start
    date: the weekday buckets are the days of the requested week in
    order. *)
Theorem weekly_bucket_is_day_of_week
        (start_date end_date : datetime.date) (db : Session) :
  full_week start_date end_date ->
  datetime.valid_date start_date ->
  datetime.valid_date end_date ->
  sales_dates_valid db ->
  exists buckets,
    get_weekly_sales start_date end_date db = Ok buckets
    /\ forall i,
        0 <= i <= 6 ->
        exists d b,
          datetime.add_days start_date i = Ok d
          /\ nth_error buckets (Z.to_nat i) = Some b
          /\ (DayTotal.total b
              == sales_total (fun s => datetime.eqb (Sales.date s) d) db)%Q.
Proof.
  intros Hw Hvs Hve Hv.
  destruct (weekly_run_sum start_date end_date db Hw) as (wt & E & Hb & _).
  eexists. split; [exact E|]. intros i Hi.
  destruct Hw as (Hsun & Hsat & Hspan).
  unfold datetime.days_between in Hspan.
  pose proof (toordinal_range start_date Hvs) as Rs.
  pose proof (toordinal_range end_date Hve) as Re.
  destruct (add_days_spec start_date i Hvs) as (d & Hd & Hvd & Hod); [lia|].
  exists d, (DayTotal.mk (nth (Z.to_nat i) ordered_days "")
                         (lookup0 wt (nth (Z.to_nat i) ordered_days ""))).
  split; [exact Hd|]. split.
  - rewrite nth_error_map.
    rewrite (nth_error_nth' ordered_days "")
      by (unfold ordered_days; simpl; lia).
    reflexivity.
  - cbn [DayTotal.total]. rewrite Hb. unfold sales_total.
    assert (F : filter
                  (fun s =>
                     datetime.between (Sales.date s) start_date end_date
                     && String.eqb (weekday_abbr (Sales.date s))
                                   (nth (Z.to_nat i) ordered_days ""))
                  (sales db)
                = filter (fun s => datetime.eqb (Sales.date s) d) (sales db)).
    { apply filter_ext_in. intros s Hs.
      unfold sales_dates_valid in Hv. rewrite Forall_forall in Hv.
      specialize (Hv s Hs). rewrite weekday_abbr_index by assumption.
      apply Bool.eq_iff_eq_true.
      rewrite andb_true_iff, between_toordinal, Z.eqb_eq, date_eqb_eq
        by assumption.
      unfold is_sunday, datetime.weekday in *. split.
      - intros [Hr Hwd]. apply toordinal_inj; auto. rewrite Hod.
        revert Hr Hwd Hsun Hspan.
        generalize (datetime.toordinal (Sales.date s))
                   (datetime.toordinal start_date)
                   (datetime.toordinal end_date).
        intros x a b Hr Hwd Hsun Hspan.
        Z.to_euclidean_division_equations. lia.
      - intros ->. rewrite Hod. revert Hsun Hspan.
        generalize (datetime.toordinal start_date)
                   (datetime.toordinal end_date).
        intros a b Hsun Hspan. split; [lia|].
        Z.to_euclidean_division_equations. lia. }
    rewrite F. reflexivity.
Qed.

Lemma weekly_bucket_is_day_of_week_witness :
  (full_week Examples.sunday Examples.saturday
   /\ datetime.valid_date Examples.sunday
   /\ datetime.valid_date Examples.saturday
   /\ sales_dates_valid Examples.two_products)
  /\ exists buckets,
      get_weekly_sales Examples.sunday Examples.saturday Examples.two_products
      = Ok buckets
      /\ exists d b,
          datetime.add_days Examples.sunday 3 = Ok d
          /\ nth_error buckets (Z.to_nat 3) = Some b
          /\ (DayTotal.total b
              == sales_total (fun s => datetime.eqb (Sales.date s) d)
                             Examples.two_products)%Q.
Proof.
  assert (H : full_week Examples.sunday Examples.saturday).
  { unfold full_week, is_sunday, is_saturday. repeat split; reflexivity. }
  assert (H1 : datetime.valid_date Examples.sunday) by reflexivity.
  assert (H2 : datetime.valid_date Examples.saturday) by reflexivity.
  assert (H3 : sales_dates_valid Examples.two_products).
  { unfold sales_dates_valid. repeat constructor. }
  split; [repeat split; assumption|].
  destruct (weekly_bucket_is_day_of_week Examples.sunday Examples.saturday
              Examples.two_products H H1 H2 H3) as (buckets & E & Hb).
  exists buckets. split; [exact E|]. apply Hb. lia.
Defined.

(** ** Summary components against each other *)

Lemma Qsum_filter_nonneg {A : Type} (f : A -> Q) (p : A -> bool) (l : list A) :
  Forall (fun a => (0 <= f a)%Q) l -> (0 <= Qsum (map f (filter p l)))%Q.
Proof.
  induction 1 as [|a l Ha _ IH]; simpl; [lra|].
  destruct (p a); simpl; lra.
Qed.

Lemma Qsum_filter_le {A : Type} (f : A -> Q) (p q : A -> bool) (l : list A) :
  Forall (fun a => (0 <= f a)%Q) l ->
  (forall a, In a l -> p a = true -> q a = true) ->
  (Qsum (map f (filter p l)) <= Qsum (map f (filter q l)))%Q.
Proof.
  induction 1 as [|a l Ha Hl IH]; intros Hpq; simpl; [lra|].
  assert (IH' : (Qsum (map f (filter p l)) <= Qsum (map f (filter q l)))%Q).
  { apply IH. intros b Hb. apply Hpq. now right. }
  destruct (p a) eqn:Ep.
  - rewrite (Hpq a (or_introl eq_refl) Ep). simpl. lra.
  - destruct (q a); simpl; lra.
Qed.

Lemma month_within_year (d : datetime.date) (y m : Z) :
  1 <= m <= 12 ->
  datetime.between d (datetime.mkdate y m 1)
                   (datetime.mkdate y m (days_in_month y m)) = true ->
  datetime.between d (datetime.mkdate y 1 1) (datetime.mkdate y 12 31) = true.
Proof.
  intros Hm. pose proof (days_in_month_bounds y m) as HN.
  revert HN. generalize (days_in_month y m). intros n HN.
  destruct d as [yd md dd]. unfold datetime.between, datetime.leb.
  cbn [datetime.year datetime.month datetime.day].
  destruct (Z.ltb_spec y yd), (Z.eqb_spec y yd), (Z.ltb_spec yd y),
    (Z.eqb_spec yd y), (Z.ltb_spec m md), (Z.eqb_spec m md),
    (Z.ltb_spec md m), (Z.eqb_spec md m), (Z.leb_spec 1 dd),
    (Z.leb_spec dd n); cbn [andb orb]; try discriminate; intros _;
    destruct (Z.ltb_spec 1 md), (Z.eqb_spec 1 md), (Z.ltb_spec md 12),
      (Z.eqb_spec md 12), (Z.leb_spec dd 31); cbn [andb orb];
      try reflexivity; lia.
Qed.

(** X15: when no sale has a negative [total_price], the components of the
    summary are ordered as their ranges are nested: none is negative,
    today's total is at most the week's and at most the month's, and the
    month's is at most the year's. *)
Theorem summary_components_nested (today : datetime.date) (db : Session) :
  datetime.valid_date today ->
  datetime.leb (datetime.mkdate 1 1 7) today = true ->
  datetime.leb today (datetime.mkdate 9999 12 25) = true ->
  prices_nonnegative db ->
  exists r,
    get_sales_summary today db = Ok r
    /\ (0 <= Summary.today r)%Q
    /\ (Summary.today r <= Summary.week r)%Q
    /\ (Summary.today r <= Summary.month r)%Q
    /\ (Summary.month r <= Summary.year r)%Q.
Proof.
  intros Hvt Hlo Hhi Hp.
  destruct (summary_run today db Hvt Hlo Hhi)
    as (st & en & Hvst & Hven & Host & Hoen & _ & E).
  destruct (week_start_offset today st Host) as [_ Hr].
  unfold datetime.days_between in Hr.
  pose proof Hvt as Hb. apply valid_date_bounds in Hb.
  destruct Hb as (_ & Hmo & _).
  eexists. split; [exact E|].
  cbn [Summary.today Summary.week Summary.month Summary.year].
  rewrite !or_0_total. unfold sales_total, prices_nonnegative in *.
  split; [now apply Qsum_filter_nonneg|].
  split; [|split].
  - apply Qsum_filter_le; [assumption|]. intros s _ Hs.
    apply date_eqb_eq in Hs. rewrite Hs.
    apply between_toordinal; auto. lia.
  - apply Qsum_filter_le; [assumption|]. intros s _ Hs.
    apply date_eqb_eq in Hs. rewrite Hs.
    rewrite between_month by assumption. now rewrite !Z.eqb_refl.
  - apply Qsum_filter_le; [assumption|]. intros s _ Hs.
    now apply (month_within_year _ _ (datetime.month today)).
Qed.

Lemma summary_components_nested_witness :
  (datetime.valid_date Examples.wednesday
   /\ datetime.leb (datetime.mkdate 1 1 7) Examples.wednesday = true
   /\ datetime.leb Examples.wednesday (datetime.mkdate 9999 12 25) = true
   /\ prices_nonnegative Examples.two_products)
  /\ exists r,
      get_sales_summary Examples.wednesday Examples.two_products = Ok r
      /\ (Summary.today r <= Summary.week r)%Q
      /\ (Summary.month r <= Summary.year r)%Q.
Proof.
  assert (H1 : datetime.valid_date Examples.wednesday) by reflexivity.
  assert (H2 : datetime.leb (datetime.mkdate 1 1 7) Examples.wednesday = true)
    by reflexivity.
  assert (H3 : datetime.leb Examples.wednesday (datetime.mkdate 9999 12 25)
               = true) by reflexivity.
  assert (H4 : prices_nonnegative Examples.two_products).
  { unfold prices_nonnegative. repeat constructor; discriminate. }
  split; [repeat split; assumption|].
  destruct (summary_components_nested Examples.wednesday
              Examples.two_products H1 H2 H3 H4)
    as (r & E & _ & Hw & _ & Hy).
  exists r. repeat split; assumption.
Defined.

(** ** Top products with a generous limit *)

(** X16: on a store that meets its constraints, a limit of at least the
    number of products and at most 2^63 - 1 cuts nothing off: [get_top_products] returns the
    group of every product that has sales, and of no other. *)
Theorem top_products_complete (db : Session) (limit : Z) :
  store_ok db ->
  Z.of_nat (List.length (products db)) <= limit <= 9223372036854775807 ->
  exists tops,
    get_top_products db limit = Ok tops
    /\ forall t,
        In t tops
        <-> exists p, In p (products db) /\ has_sales db p
                      /\ t = product_group db p.
Proof.
  intros Hok Hl. destruct (top_groups db Hok) as [Hnd Hin].
  unfold get_top_products. cbv zeta.
  set (groups := map _ (group_by _ _ (sales_join_product db))) in *.
  set (le := fun a b : TopProduct.t =>
               TopProduct.total_quantity b <=? TopProduct.total_quantity a).
  pose proof (stable_sort_perm le groups) as Hperm.
  assert (Hlen : (List.length groups <= List.length (products db))%nat).
  { rewrite <- (length_map TopProduct.product_id groups).
    rewrite <- (length_map Product.id (products db)).
    apply NoDup_incl_length; [exact Hnd|].
    intros pid Hpid. apply in_map_iff in Hpid.
    destruct Hpid as (t & <- & Ht). apply Hin in Ht.
    destruct Ht as (p & Hp & _ & ->). simpl. now apply in_map. }
  exists (stable_sort le groups). split.
  - unfold sql_limit.
    replace (int8 limit) with true
      by (symmetry; unfold int8; apply andb_true_iff; split;
          apply Z.leb_le; lia).
    replace (limit <? 0) with false by (symmetry; apply Z.ltb_ge; lia).
    cbn [negb]. f_equal. apply firstn_all2.
    rewrite (Permutation_length Hperm). lia.
  - intros t. rewrite <- Hin. split; apply Permutation_in; auto.
    now apply Permutation_sym.
Qed.

Lemma top_products_complete_witness :
  (store_ok Examples.two_products
   /\ Z.of_nat (List.length (products Examples.two_products)) <= 2
      <= 9223372036854775807)
  /\ exists tops,
      get_top_products Examples.two_products 2 = Ok tops
      /\ In (product_group Examples.two_products Examples.curd) tops.
Proof.
  assert (H : Z.of_nat (List.length (products Examples.two_products)) <= 2
               <= 9223372036854775807)
    by (simpl; lia).
  split; [split; [exact two_products_ok|exact H]|].
  destruct (top_products_complete Examples.two_products 2
              two_products_ok H) as (tops & E & Hin).
  exists tops. split; [exact E|]. apply Hin.
  exists Examples.curd. split; [simpl; auto|]. split; [|reflexivity].
  eexists. split; [left; reflexivity|reflexivity].
Defined.

(** ** Summary against listing *)


